(** * opendem: the acquisition-and-decision pipeline of [opendem/core.py]

    A shallow embedding of the [OpenDEM] class: the descriptor writer
    [_generate_vrt], the progress relay [progress_callback], the retry
    loop and the Terrarium decode of [run], the two writers [_save_raster]
    and [_save_as_vector], and the mask / export decisions of
    [_execute_process].

    Python floats and numpy [float64] values are Rocq's primitive binary64
    floats.  Configuration values are a small universe of Python values,
    the configuration itself a finite map from keys to them.  Everything
    the GDAL bindings do is delegated to an [Engine] record of oracles;
    every call the pipeline makes is recorded, in order, in a trace. *)

From Stdlib Require Import ZArith QArith Floats Uint63 Lia Bool List Ascii String Sorted.
From stdpp Require Import gmap strings.
Import ListNotations.

Set Warnings "-register-all".

#[local] Open Scope Z_scope.

(** ** Binary64 values *)

Module F64.

(** The rational a finite binary64 value stands for; [None] for the
    infinities and NaN. *)
Definition SF2Q (x : spec_float) : option Q :=
  match x with
  | S754_zero _ => Some 0%Q
  | S754_finite s m e =>
      let n := if s then Z.neg m else Z.pos m in
      Some (match e with
            | Z0 => inject_Z n
            | Z.pos p => inject_Z (n * 2 ^ Z.pos p)
            | Z.neg p => Qmake n (2 ^ p)%positive
            end)
  | S754_infinity _ | S754_nan => None
  end.

Definition value (x : float) : option Q := SF2Q (Prim2SF x).

(** Correctly rounded conversion of a Python [int]. *)
Definition of_Z (z : Z) : float := SF2Prim (binary_normalize prec emax z 0 false).

(** [ndarray.astype(float)] on one [uint8] sample. *)
Definition of_byte (n : Z) : float := PrimFloat.of_uint63 (Uint63.of_Z n).

(** Python's [int(x)]: truncation toward zero, an error on NaN and on
    the infinities. *)
Definition trunc (x : float) : option Z :=
  match Prim2SF x with
  | S754_zero _ => Some 0
  | S754_finite s m e =>
      let a := match e with
               | Z0 => Z.pos m
               | Z.pos p => Z.pos m * 2 ^ Z.pos p
               | Z.neg p => Z.pos m / 2 ^ Z.pos p
               end in
      Some (if s then - a else a)
  | S754_infinity _ | S754_nan => None
  end.

End F64.

(** ** The Terrarium decode, one pixel ([run], the line computing [elevation]) *)

Definition decode (r g b : float) : float :=
  ((r * 256 + g + b / 256) - 32768)%float.

(** *** Deciding exactness on bytes

    The decode is shown exact from two tables, checked with machine
    integers only, and from the specification of binary64 addition and
    subtraction. *)

(** [dyadic a off x]: with machine integers only, [x] is the binary64
    number [a * 2^(off - 2154)], a zero or a positive normal number. *)
Definition dyadic (a off : int) (x : float) : bool :=
  negb (PrimFloat.is_nan x) &&
  if (a =? 0)%uint63 then PrimFloat.is_zero x
  else
    let '(fr, se) := PrimFloat.frshiftexp x in
    let mi := PrimFloat.normfr_mantissa fr in
    negb (PrimFloat.is_zero x) && negb (PrimFloat.is_infinity x)
    && negb (PrimFloat.get_sign x)
    && (4503599627370496 <=? mi)%uint63 && (mi <? 9007199254740992)%uint63
    && (se <=? off)%uint63 && (off - se <=? 62)%uint63
    && (mi >> (off - se) =? a)%uint63 && (a << (off - se) =? mi)%uint63.

(** [all_from k i f]: [f] holds at the [k] machine integers from [i] on. *)
Fixpoint all_from (k : nat) (i : int) (f : int -> bool) : bool :=
  match k with
  | O => true
  | S k' => f i && all_from k' (i + 1)%uint63 f
  end.

(** The scaled value [m * 2^(e + 1100)] of a mantissa and an exponent. *)
Definition sval (m e : Z) : Z := m * 2 ^ (e + 1100).

(** [x] stands for [K / 256]: a zero when [K = 0], else a normal number
    with the sign of [K] and scaled value [|K| * 2^1092]. *)
Definition repr (x : spec_float) (K : Z) : Prop :=
  match x with
  | S754_zero _ => K = 0
  | S754_finite s m e =>
      K <> 0 /\ s = (K <? 0) /\ 2 ^ 52 <= Z.pos m < 2 ^ 53 /\ -1074 <= e
      /\ sval (Z.pos m) e = Z.abs K * 2 ^ 1092
  | _ => False
  end.

(** ** Python values, exceptions, strings *)

(** What [yaml.safe_load] can put in the configuration. *)
Inductive pyval :=
  | PyNone
  | PyBool (b : bool)
  | PyInt (z : Z)
  | PyFloat (f : float)
  | PyStr (s : string)
  | PyList (l : list pyval)
  | PyDict (d : gmap string pyval).

(** The exceptions the pipeline can meet.  [str(e)] of a [RuntimeError] is
    its message. *)
Inductive exn :=
  | KeyError (key : string)
  | TypeError (what : string)
  | AttributeError (what : string)
  | ValueError (what : string)
  | OverflowError (what : string)
  | FileNotFoundError (path : string)
  | RuntimeError (msg : string).

(** How a call ends.  [OutOfFuel] is not a Python outcome: it marks a loop
    of the model that was given too few iterations. *)
Inductive outcome (A : Type) :=
  | Return (a : A)
  | Raise (e : exn)
  | OutOfFuel.
Arguments Return {A} a.
Arguments Raise {A} e.
Arguments OutOfFuel {A}.

Module Py.

(** Truth value testing, as [if v:] does it. *)
Definition truthy (v : pyval) : bool :=
  match v with
  | PyNone => false
  | PyBool b => b
  | PyInt z => negb (z =? 0)
  | PyFloat f => negb (PrimFloat.eqb f 0)
  | PyStr s => negb (String.eqb s "")
  | PyList l => match l with [] => false | _ => true end
  | PyDict d => negb (bool_decide (d = ∅))
  end.

(** [dict.get(key)], with [None] as the default. *)
Definition get (d : gmap string pyval) (key : string) : pyval :=
  default PyNone (d !! key).

(** [d[key]] on the configuration dictionary. *)
Definition getitem (d : gmap string pyval) (key : string) : outcome pyval :=
  match d !! key with
  | Some v => Return v
  | None => Raise (KeyError key)
  end.

Fixpoint contains (needle hay : string) : bool :=
  String.prefix needle hay
  || match hay with
     | EmptyString => false
     | String _ rest => contains needle rest
     end.

Definition startswith (s pre : string) : bool := String.prefix pre s.

Definition endswith (s suf : string) : bool :=
  (String.length suf <=? String.length s)%nat
  && String.eqb
       (String.substring (String.length s - String.length suf) (String.length suf) s)
       suf.

Definition lower_ascii (c : ascii) : ascii :=
  let n := nat_of_ascii c in
  if ((65 <=? n) && (n <=? 90))%nat then ascii_of_nat (n + 32) else c.

(** [str.lower()] on ASCII text. *)
Fixpoint lower (s : string) : string :=
  match s with
  | EmptyString => EmptyString
  | String c rest => String (lower_ascii c) (lower rest)
  end.

(** [key in v] for a string key. *)
Definition has_key (key : string) (v : pyval) : outcome bool :=
  match v with
  | PyDict d => Return (bool_decide (is_Some (d !! key)))
  | PyStr s => Return (contains key s)
  | PyList l =>
      Return (existsb (fun x => match x with
                                | PyStr s => String.eqb s key
                                | _ => false
                                end) l)
  | _ => Raise (TypeError "argument is not iterable")
  end.

(** [v[key]] for a string key. *)
Definition subscript (v : pyval) (key : string) : outcome pyval :=
  match v with
  | PyDict d => getitem d key
  | _ => Raise (TypeError "indices must be integers")
  end.

(** The binary64 scalar numpy compares a [float64] array with: a Python
    [int] is converted to binary64, which is an [OverflowError] when it
    rounds beyond the largest finite number.  A list threshold would be
    broadcast by numpy; the model has no broadcasting and rejects it
    like the other non-numbers. *)
Definition scalar (v : pyval) : outcome float :=
  match v with
  | PyFloat f => Return f
  | PyInt z =>
      let f := F64.of_Z z in
      if PrimFloat.is_infinity f
      then Raise (OverflowError "int too large to convert to float")
      else Return f
  | PyBool b => Return (if b then 1%float else 0%float)
  | _ => Raise (TypeError "unsupported operand for comparison")
  end.

(** [os.path.join(a, b)]. *)
Definition path_join (a b : string) : string :=
  if String.prefix "/" b then b
  else if String.eqb a "" then b
  else if endswith a "/" then a +:+ b
  else a +:+ "/" +:+ b.

End Py.

(** ** Rasters, artifacts and the trace of calls *)

(** [gdal.GDT_Byte] and [gdal.GDT_Float32]. *)
Inductive GDT := GDT_Byte | GDT_Float32.

Abbreviation grid A := (list (list A)) (only parsing).

(** A two-dimensional numpy array with its dtype. *)
Inductive ndarray :=
  | ArrU8 (a : grid Z)
  | ArrF64 (a : grid float).

(** A GDAL dataset: its size, georeferencing, pixel type, declared nodata
    and the arrays of its bands.  For a dataset this program writes,
    [Bands] holds the array handed to [WriteArray], before GDAL converts
    it to [DataType]. *)
Record Raster := {
  RasterXSize : Z;
  RasterYSize : Z;
  Projection : string;
  GeoTransform : list float;
  DataType : GDT;
  NoDataValue : option pyval;
  Bands : list ndarray
}.

Record Feature := { geometry : string; dn : Z }.

Record VectorLayer := {
  LayerName : string;
  LayerSRS : string;
  FieldNames : list string;
  Features : list Feature
}.

Inductive Artifact :=
  | TextFile (content : string)
  | RasterFile (r : Raster)
  | VectorFile (v : VectorLayer).

(** The keyword arguments of the two [gdal.Warp] calls. *)
Record WarpArgs := {
  destName : string;
  srcDS : string;
  outputBounds : option pyval;
  outputBoundsSRS : option string;
  xRes : option pyval;
  yRes : option pyval;
  dstSRS : option string;
  cutlineDSName : option pyval;
  cropToCutline : bool;
  dstNodata : option pyval;
  callback : bool
}.

(** What [self.log] is called with; the text of each f-string is kept as
    a constructor with the interpolated values. *)
Inductive Message :=
  | MsgInitialized (config_path : string)
  | MsgWarpAttempt (n total : Z)
  | MsgNetworkGlitch (e : string)
  | MsgRetrying
  | MsgMaxRetries
  | MsgDecoding
  | MsgElevationStats (lo hi : float)
  | MsgRunningAnalysis (process_type : pyval)
  | MsgApplyingCutline (clipping_path : pyval)
  | MsgMaskDetected (mask_cfg : pyval)
  | MsgNoMask
  | MsgExportVector (output_name : pyval)
  | MsgExportRaster (output_name : pyval)
  | MsgProcessComplete (output_name : pyval)
  | MsgWarpProgress (percent : Z).

Inductive Event :=
  | Log (m : Message)
  | Sleep (seconds : Z)
  | Makedirs (path : string)
  | SetConfigOption (key value : string)
  | WriteText (path content : string)
  | Warp (a : WarpArgs)
  | DEMProcessing (dst src : string) (process_type : pyval)
  | Open (path : string)
  | CreateRaster (path : string) (r : Raster)
  | DeleteDataSource (path : string)
  | CreateDataSource (path : string) (v : VectorLayer)
  | Polygonize (band : Raster) (path : string).

(** *** The Raster Engine and the host, as oracles *)

(** What an engine call that raises has done to its destination by then
    is the engine's business: [warp_partial] is the file a failing warp
    leaves there ([None]: the destination as it was), [poly_partial] the
    features a failing extraction had already put into the layer. *)
Record WarpResponse := {
  warp_progress : list float;
  warp_result : exn + Raster;
  warp_partial : option Artifact
}.

Record PolygonizeResponse := {
  poly_progress : list float;
  poly_result : exn + list Feature;
  poly_partial : list Feature
}.

(** [gdal_Warp k fs a] answers the call number [k] (counted from 0) to
    [gdal.Warp]: the completion fractions it reports to the callback, then
    an exception or the raster it writes.  [gdal_DEMProcessing_partial]
    is what a failing [gdal.DEMProcessing] leaves at its destination. *)
Record Engine := {
  os_abspath : string -> string;
  py_repr : pyval -> string;
  gdal_Warp : nat -> gmap string Artifact -> WarpArgs -> WarpResponse;
  gdal_DEMProcessing : gmap string Artifact -> string -> pyval -> exn + Raster;
  gdal_DEMProcessing_partial : gmap string Artifact -> string -> pyval -> option Artifact;
  gdal_Polygonize : Raster -> PolygonizeResponse
}.

(** *** The state: the trace, the files, the relay's attribute *)

Record World := {
  trace : list Event;
  files : gmap string Artifact;
  _last_gdal_p : option Z
}.

(** The attributes [__init__] sets. *)
Record OpenDEM := {
  config : gmap string pyval;
  cache_dir : string
}.

Definition M (A : Type) : Type := World -> outcome A * World.

#[export] Instance M_ret : MRet M := fun A a w => (Return a, w).

#[export] Instance M_bind : MBind M := fun A B k m w =>
  match m w with
  | (Return a, w') => k a w'
  | (Raise e, w') => (Raise e, w')
  | (OutOfFuel, w') => (OutOfFuel, w')
  end.

Definition raise {A} (e : exn) : M A := fun w => (Raise e, w).

Definition out_of_fuel {A} : M A := fun w => (OutOfFuel, w).

Definition lift {A} (o : outcome A) : M A := fun w => (o, w).

Definition get_world : M World := fun w => (Return w, w).

Definition emit (e : Event) : M unit := fun w =>
  (Return tt, {| trace := trace w ++ [e]; files := files w;
                 _last_gdal_p := _last_gdal_p w |}).

Definition set_file (path : string) (a : Artifact) : M unit := fun w =>
  (Return tt, {| trace := trace w; files := <[path := a]> (files w);
                 _last_gdal_p := _last_gdal_p w |}).

Definition remove_file (path : string) : M unit := fun w =>
  (Return tt, {| trace := trace w; files := delete path (files w);
                 _last_gdal_p := _last_gdal_p w |}).

Definition set_last_gdal_p (p : Z) : M unit := fun w =>
  (Return tt, {| trace := trace w; files := files w; _last_gdal_p := Some p |}).

(** What a call that is about to raise leaves at [path]. *)
Definition leave (path : string) (left : option Artifact) : M unit :=
  match left with
  | Some a => set_file path a
  | None => mret tt
  end.

(** [try: body except RuntimeError as e: handler]. *)
Definition try_except_RuntimeError {A} (body : M A) (handler : string -> M A) : M A :=
  fun w =>
    match body w with
    | (Raise (RuntimeError msg), w') => handler msg w'
    | r => r
    end.

(** The number of [gdal.Warp] calls made so far. *)
Fixpoint warp_count (t : list Event) : nat :=
  match t with
  | [] => O
  | Warp _ :: t' => S (warp_count t')
  | _ :: t' => warp_count t'
  end.

(** ** numpy on grids *)

Module Np.

Definition map {A B} (f : A -> B) (a : grid A) : grid B :=
  fmap (M := list) (fmap (M := list) f) a.

(** Elementwise operation on two arrays of one shape (the bands of one
    dataset, or arrays derived from one array). *)
Definition map2 {A B C} (f : A -> B -> C) (a : grid A) (b : grid B) : grid C :=
  zip_with (zip_with f) a b.

(** [a[i, j]]. *)
Definition at_ {A} (a : grid A) (i j : nat) : option A :=
  row ← a !! i; row !! j.

(** [a.astype(float)]. *)
Definition astype_float (a : ndarray) : grid float :=
  match a with
  | ArrU8 g => map F64.of_byte g
  | ArrF64 g => g
  end.

(** [np.ones(shape, dtype=bool)]. *)
Definition ones_like {A} (a : grid A) : grid bool := map (fun _ => true) a.

(** [np.where(c, 1, 0).astype(np.uint8)]. *)
Definition where_1_0 (c : grid bool) : grid Z :=
  map (fun x : bool => if x then 1 else 0) c.

(** The reductions [np.min] and [np.max]: NaN wins, an empty array is a
    [ValueError]. *)
Definition fmin (a b : float) : float :=
  if PrimFloat.is_nan a then a
  else if PrimFloat.is_nan b then b
  else if PrimFloat.ltb b a then b else a.

Definition fmax (a b : float) : float :=
  if PrimFloat.is_nan a then a
  else if PrimFloat.is_nan b then b
  else if PrimFloat.ltb a b then b else a.

Definition reduce (f : float -> float -> float) (a : grid float) : outcome float :=
  match concat a with
  | [] => Raise (ValueError "zero-size array to reduction operation")
  | x :: xs => Return (fold_left f xs x)
  end.

End Np.

(** ** The methods of [OpenDEM] *)

Definition dquote : string := String (ascii_of_nat 34) EmptyString.
Definition newline : string := String (ascii_of_nat 10) EmptyString.

Definition is_space (c : ascii) : bool :=
  let n := nat_of_ascii c in ((n =? 32) || ((9 <=? n) && (n <=? 13)))%nat.

Fixpoint lstrip (s : string) : string :=
  match s with
  | String c rest => if is_space c then lstrip rest else s
  | EmptyString => EmptyString
  end.

(** [str.strip()]. *)
Definition strip (s : string) : string :=
  String.rev (lstrip (String.rev (lstrip s))).

Fixpoint unlines (ls : list string) : string :=
  match ls with
  | [] => EmptyString
  | [l] => l
  | l :: rest => l +:+ newline +:+ unlines rest
  end.

(** The f-string of [_generate_vrt], line by line. *)
Definition vrt_template (source absolute_cache_path : string) : string :=
  unlines
    [ "<GDAL_WMS>";
      "    <Service name=" +:+ dquote +:+ "TMS" +:+ dquote +:+ ">";
      "        <ServerUrl>" +:+ source +:+ "</ServerUrl>";
      "    </Service>";
      "    <DataWindow>";
      "        <UpperLeftX>-20037508.34</UpperLeftX>";
      "        <UpperLeftY>20037508.34</UpperLeftY>";
      "        <LowerRightX>20037508.34</LowerRightX>";
      "        <LowerRightY>-20037508.34</LowerRightY>";
      "        <TileLevel>15</TileLevel>";
      "        <YOrigin>top</YOrigin>";
      "    </DataWindow>";
      "    <Projection>EPSG:3857</Projection>";
      "    <BlockSizeX>256</BlockSizeX>";
      "    <BlockSizeY>256</BlockSizeY>";
      "    <BandsCount>3</BandsCount>";
      "    <Cache><Path>" +:+ absolute_cache_path +:+ "</Path></Cache>";
      "</GDAL_WMS>" ].

Definition max_retries : Z := 5.

Definition nodata_val : Z := -9999.

(** [gdal.GDT_Byte] and [gdal.GDT_Float32] as the integers they are. *)
Definition gdt_code (t : GDT) : Z :=
  match t with GDT_Byte => 1 | GDT_Float32 => 6 end.

(** Binding of keyword arguments at a call: a keyword the function does not
    declare is a [TypeError], raised before the body runs. *)
Definition bind_keywords (fname : string) (params : list string)
    (kwargs : list (string * pyval)) : outcome unit :=
  match List.find (fun kv => negb (existsb (String.eqb (fst kv)) params)) kwargs with
  | Some (k, _) =>
      Raise (TypeError (fname +:+ "() got an unexpected keyword argument '" +:+ k +:+ "'"))
  | None => Return tt
  end.

Definition keyword (kwargs : list (string * pyval)) (name : string) (dflt : pyval) : pyval :=
  match List.find (fun kv => String.eqb (fst kv) name) kwargs with
  | Some (_, v) => v
  | None => dflt
  end.

Section Pipeline.

Context (eng : Engine).

(** [str(v)] inside an f-string. *)
Definition py_str (v : pyval) : string :=
  match v with
  | PyStr s => s
  | _ => py_repr eng v
  end.

Definition log (m : Message) : M unit := emit (Log m).

(** [__init__], given what [yaml.safe_load] returned.  [os.makedirs]
    on the empty path is a [FileNotFoundError]. *)
Definition __init__ (config_path : string) (loaded : gmap string pyval) : M OpenDEM :=
  dir ← match loaded !! "cache_dir" with
        | None => mret "./cache"
        | Some (PyStr s) => mret s
        | Some _ => raise (TypeError "expected str, bytes or os.PathLike object")
        end;
  emit (Makedirs dir);;
  (if String.eqb dir "" then raise (FileNotFoundError dir) else mret tt);;
  emit (SetConfigOption "GDAL_HTTP_CACHE" "YES");;
  emit (SetConfigOption "GDAL_HTTP_CACHE_DIRECTORY" dir);;
  log (MsgInitialized config_path);;
  mret {| config := loaded; cache_dir := dir |}.

Definition _get_clipping_path (self : OpenDEM) : M pyval :=
  let path := Py.get (config self) "clipping" in
  if Py.truthy path then
    match path with
    | PyStr s =>
        if Py.startswith s "http" then mret (PyStr ("/vsicurl/" +:+ s)) else mret path
    | _ => raise (AttributeError "object has no attribute 'startswith'")
    end
  else mret path.

Definition _generate_vrt (self : OpenDEM) : M string :=
  let vrt_path := Py.path_join (cache_dir self) "source.vrt" in
  let absolute_cache_path := os_abspath eng (cache_dir self) in
  source ← lift (Py.getitem (config self) "source");
  let vrt_content := vrt_template (py_str source) absolute_cache_path in
  emit (WriteText vrt_path (strip vrt_content));;
  set_file vrt_path (TextFile (strip vrt_content));;
  mret vrt_path.

(** [int(complete * 100)]. *)
Definition percent_of (complete : float) : outcome Z :=
  let x := (complete * 100)%float in
  match F64.trunc x with
  | Some p => Return p
  | None =>
      if PrimFloat.is_nan x
      then Raise (ValueError "cannot convert float NaN to integer")
      else Raise (OverflowError "cannot convert float infinity to integer")
  end.

Definition progress_callback (complete : float) : M Z :=
  percent ← lift (percent_of complete);
  w ← get_world;
  last ← match _last_gdal_p w with
         | None => set_last_gdal_p (-1);; mret (-1)
         | Some p => mret p
         end;
  (if last <? percent then
     set_last_gdal_p percent;;
     if percent `mod` 5 =? 0 then log (MsgWarpProgress percent) else mret tt
   else mret tt);;
  mret 1.

(** The engine calling the callback once per reported fraction; an
    exception raised by the callback ends the engine's call with it. *)
Fixpoint report_progress (fractions : list float) : M unit :=
  match fractions with
  | [] => mret tt
  | c :: rest => progress_callback c;; report_progress rest
  end.

(** [gdal.Warp(dst, src, **kwargs)]. *)
Definition gdal_warp (a : WarpArgs) : M unit :=
  w ← get_world;
  let resp := gdal_Warp eng (warp_count (trace w)) (files w) a in
  emit (Warp a);;
  (if callback a then report_progress (warp_progress resp) else mret tt);;
  match warp_result resp with
  | inl e => leave (destName a) (warp_partial resp);; raise e
  | inr r => set_file (destName a) (RasterFile r)
  end.

(** [gdal.Open(path)]. *)
Definition gdal_open (path : string) : M Raster :=
  emit (Open path);;
  w ← get_world;
  match files w !! path with
  | Some (RasterFile r) => mret r
  | _ => raise (RuntimeError (path +:+ ": not recognized as a supported file format"))
  end.

(** [ds.GetRasterBand(i).ReadAsArray().astype(float)], bands from 1. *)
Definition read_band (ds : Raster) (i : nat) : M (grid float) :=
  match Bands ds !! (i - 1)%nat with
  | Some a => mret (Np.astype_float a)
  | None => raise (RuntimeError "Illegal band #")
  end.

Definition _save_raster (data : ndarray) (source_ds : Raster) (path : string)
    (nodata : pyval) : M unit :=
  let out_ds :=
    {| RasterXSize := RasterXSize source_ds;
       RasterYSize := RasterYSize source_ds;
       Projection := Projection source_ds;
       GeoTransform := GeoTransform source_ds;
       DataType := GDT_Float32;
       NoDataValue := match nodata with PyNone => None | v => Some v end;
       Bands := [data] |} in
  emit (CreateRaster path out_ds);;
  set_file path (RasterFile out_ds).

(** A call [self._save_raster(data, source_ds, path, **kwargs)]. *)
Definition call_save_raster (data : ndarray) (source_ds : Raster) (path : string)
    (kwargs : list (string * pyval)) : M unit :=
  lift (bind_keywords "_save_raster" ["data"; "source_ds"; "path"; "nodata"] kwargs);;
  _save_raster data source_ds path (keyword kwargs "nodata" PyNone).

(** [gdal.Polygonize(band, band, layer, 0, [], callback=...)]. *)
Definition gdal_polygonize (tmp_ds : Raster) (output_path : string)
    (layer : VectorLayer) : M unit :=
  let resp := gdal_Polygonize eng tmp_ds in
  emit (Polygonize tmp_ds output_path);;
  report_progress (poly_progress resp);;
  let filled fs :=
    VectorFile {| LayerName := LayerName layer; LayerSRS := LayerSRS layer;
                  FieldNames := FieldNames layer; Features := fs |} in
  match poly_result resp with
  | inl e => set_file output_path (filled (poly_partial resp));; raise e
  | inr fs => set_file output_path (filled fs)
  end.

Definition _save_as_vector (data : ndarray) (source_ds : Raster)
    (output_path : string) : M unit :=
  let tmp_ds :=
    {| RasterXSize := RasterXSize source_ds;
       RasterYSize := RasterYSize source_ds;
       Projection := Projection source_ds;
       GeoTransform := GeoTransform source_ds;
       DataType := GDT_Byte;
       NoDataValue := Some (PyInt 0);
       Bands := [data] |} in
  w ← get_world;
  (if bool_decide (is_Some (files w !! output_path))
   then emit (DeleteDataSource output_path);; remove_file output_path
   else mret tt);;
  let layer := {| LayerName := "mask"; LayerSRS := Projection source_ds;
                  FieldNames := ["dn"]; Features := [] |} in
  emit (CreateDataSource output_path layer);;
  set_file output_path (VectorFile layer);;
  gdal_polygonize tmp_ds output_path layer.

(** [gdal.DEMProcessing(dst, src, process_type)]. *)
Definition gdal_dem_processing (dst src : string) (process_type : pyval) : M unit :=
  w ← get_world;
  emit (DEMProcessing dst src process_type);;
  match gdal_DEMProcessing eng (files w) src process_type with
  | inl e =>
      leave dst (gdal_DEMProcessing_partial eng (files w) src process_type);;
      raise e
  | inr r => set_file dst (RasterFile r)
  end.

(** [if key in mask_cfg: condition &= cmp(data, mask_cfg[key])]. *)
Definition threshold (mask_cfg : pyval) (key : string)
    (cmp : float -> float -> bool) (data : grid float)
    (condition : grid bool) : M (grid bool) :=
  present ← lift (Py.has_key key mask_cfg);
  if present : bool then
    v ← lift (Py.subscript mask_cfg key);
    t ← lift (Py.scalar v);
    mret (Np.map2 andb condition (Np.map (fun x => cmp x t) data))
  else mret condition.

(** [data != nodata_val] on one sample. *)
Definition not_nodata (x : float) : bool :=
  negb (PrimFloat.eqb x (F64.of_Z nodata_val)).

(** Step 3 of [_execute_process], "Continuous vs Binary": the array to
    export and its nodata value. *)
Definition evaluate_mask (mask_cfg : pyval) (data : grid float) : M (ndarray * Z) :=
  if Py.truthy mask_cfg then
    log (MsgMaskDetected mask_cfg);;
    let condition := Np.ones_like data in
    condition ← threshold mask_cfg "min" (fun x t => PrimFloat.leb t x) data condition;
    condition ← threshold mask_cfg "max" (fun x t => PrimFloat.leb x t) data condition;
    let final_data :=
      Np.where_1_0 (Np.map2 andb condition (Np.map not_nodata data)) in
    mret (ArrU8 final_data, 0)
  else
    log MsgNoMask;;
    mret (ArrF64 data, nodata_val).

(** Step 4 of [_execute_process], "GeoTIFF vs GPKG". *)
Definition export (mask_cfg output_name : pyval) (final_data : ndarray)
    (current_nodata : Z) (ds_proc : Raster) : M unit :=
  match output_name with
  | PyStr name =>
      if Py.endswith (Py.lower name) ".gpkg" then
        log (MsgExportVector output_name);;
        _save_as_vector final_data ds_proc name
      else
        log (MsgExportRaster output_name);;
        let dtype := if Py.truthy mask_cfg then GDT_Byte else GDT_Float32 in
        call_save_raster final_data ds_proc name
          [("nodata", PyInt current_nodata); ("dtype", PyInt (gdt_code dtype))]
  | _ => raise (AttributeError "object has no attribute 'lower'")
  end.

Definition _execute_process (self : OpenDEM) (dem_path : string) : M unit :=
  let process_type := Py.get (config self) "process" in
  let output_name := Py.get (config self) "output" in
  clipping_path ← _get_clipping_path self;
  let mask_cfg := Py.get (config self) "mask" in
  log (MsgRunningAnalysis process_type);;
  let temp_proc := Py.path_join (cache_dir self) "temp_proc.tif" in
  gdal_dem_processing temp_proc dem_path process_type;;
  process_source ←
    (if Py.truthy clipping_path then
       log (MsgApplyingCutline clipping_path);;
       let process_source := Py.path_join (cache_dir self) "final_clipped.tif" in
       gdal_warp {| destName := process_source; srcDS := temp_proc;
                    outputBounds := None; outputBoundsSRS := None;
                    xRes := None; yRes := None; dstSRS := None;
                    cutlineDSName := Some clipping_path; cropToCutline := true;
                    dstNodata := Some (PyInt nodata_val); callback := false |};;
       mret process_source
     else mret temp_proc);
  ds_proc ← gdal_open process_source;
  data ← read_band ds_proc 1;
  res ← evaluate_mask mask_cfg data;
  export mask_cfg output_name (fst res) (snd res) ds_proc;;
  log (MsgProcessComplete output_name).

(** The arguments of the acquisition warp. *)
Definition acquisition_args (temp_rgb vrt_path : string) (bounds resolution : pyval)
    : WarpArgs :=
  {| destName := temp_rgb; srcDS := vrt_path;
     outputBounds := Some bounds; outputBoundsSRS := Some "EPSG:4326";
     xRes := Some resolution; yRes := Some resolution; dstSRS := Some "EPSG:3857";
     cutlineDSName := None; cropToCutline := false; dstNodata := None;
     callback := true |}.

(** [str(e)] carries one of the two network signatures. *)
Definition network_glitch (e : string) : bool :=
  Py.contains "Could not resolve host" e || Py.contains "IReadBlock failed" e.

(** One turn of the [while] loop of [run]: the [try] block and its
    [except RuntimeError] handler; the result is the new
    [(attempt, success)]. *)
Definition warp_attempt (self : OpenDEM) (vrt_path temp_rgb : string)
    (attempt : Z) : M (Z * bool) :=
  try_except_RuntimeError
    (log (MsgWarpAttempt (attempt + 1) max_retries);;
     bounds ← lift (Py.getitem (config self) "bounds");
     resolution ← lift (Py.getitem (config self) "resolution");
     gdal_warp (acquisition_args temp_rgb vrt_path bounds resolution);;
     mret (attempt, true))
    (fun e =>
       let attempt := attempt + 1 in
       if network_glitch e then
         log (MsgNetworkGlitch e);;
         if attempt <? max_retries then
           log MsgRetrying;;
           emit (Sleep 10);;
           mret (attempt, false)
         else
           log MsgMaxRetries;;
           raise (RuntimeError e)
       else raise (RuntimeError e)).

(** [while attempt < max_retries and not success]. *)
Fixpoint warp_loop (fuel : nat) (self : OpenDEM) (vrt_path temp_rgb : string)
    (attempt : Z) (success : bool) : M unit :=
  if (attempt <? max_retries) && negb success then
    match fuel with
    | O => out_of_fuel
    | S fuel' =>
        st ← warp_attempt self vrt_path temp_rgb attempt;
        warp_loop fuel' self vrt_path temp_rgb (fst st) (snd st)
    end
  else mret tt.

(** The acquisition step of [run]: descriptor, then the retry loop. *)
Definition acquire (self : OpenDEM) : M string :=
  vrt_path ← _generate_vrt self;
  let temp_rgb := Py.path_join (cache_dir self) "temp_rgb.tif" in
  warp_loop (Z.to_nat max_retries) self vrt_path temp_rgb 0 false;;
  mret temp_rgb.

(** [(r * 256.0 + g + b / 256.0) - 32768.0] on arrays. *)
Definition elevation_of (r g b : grid float) : grid float :=
  Np.map (fun x => x - 32768)%float
    (Np.map2 PrimFloat.add
       (Np.map2 PrimFloat.add (Np.map (fun x => x * 256)%float r) g)
       (Np.map (fun x => x / 256)%float b)).

Definition run (self : OpenDEM) : M unit :=
  temp_rgb ← acquire self;
  log MsgDecoding;;
  ds ← gdal_open temp_rgb;
  r ← read_band ds 1;
  g ← read_band ds 2;
  b ← read_band ds 3;
  let elevation := elevation_of r g b in
  lo ← lift (Np.reduce Np.fmin elevation);
  hi ← lift (Np.reduce Np.fmax elevation);
  log (MsgElevationStats lo hi);;
  let base_dem := Py.path_join (cache_dir self) "base_elevation.tif" in
  call_save_raster (ArrF64 elevation) ds base_dem [];;
  _execute_process self base_dem.

(** [main], once its argument checks have passed and the configuration
    file is read: [app = OpenDEM(config_path); app.run()]. *)
Definition main (config_path : string) (loaded : gmap string pyval) : M unit :=
  app ← __init__ config_path loaded;
  run app.

End Pipeline.

(** ** Observations on a trace *)

(** The retry schedule: the warp attempts and the sleeps, in order. *)
Inductive Step := Attempt | Delay (seconds : Z).

Fixpoint schedule (t : list Event) : list Step :=
  match t with
  | [] => []
  | Warp _ :: t' => Attempt :: schedule t'
  | Sleep s :: t' => Delay s :: schedule t'
  | _ :: t' => schedule t'
  end.

(** The percentages the relay has logged, in order. *)
Fixpoint logged (t : list Event) : list Z :=
  match t with
  | [] => []
  | Log (MsgWarpProgress p) :: t' => p :: logged t'
  | _ :: t' => logged t'
  end.

(** The binary64 number [decode] gives on the bytes [R], [G], [B] is the
    rational [q]. *)
Definition decodes_to (R G B : Z) (q : Q) : Prop :=
  exists q', F64.value (decode (F64.of_byte R) (F64.of_byte G) (F64.of_byte B)) = Some q'
             /\ (q' == q)%Q.

(** A completion fraction [int(complete * 100)] is defined on. *)
Definition valid_fraction (c : float) : Prop :=
  exists p, percent_of c = Return p.

(** The value [progress_callback] compares with: the attribute, or the
    [-1] it is initialised to on first use. *)
Definition last_seen (w : World) : Z := default (-1) (_last_gdal_p w).

(** The state with one more event in its trace, and with one more file. *)
Definition note (e : Event) (w : World) : World :=
  {| trace := trace w ++ [e]; files := files w; _last_gdal_p := _last_gdal_p w |}.

Definition with_file (path : string) (a : Artifact) (w : World) : World :=
  {| trace := trace w; files := <[path := a]> (files w);
     _last_gdal_p := _last_gdal_p w |}.

(** The state once a failing engine call has left [left] at [path]. *)
Definition left_at (path : string) (left : option Artifact) (w : World) : World :=
  match left with
  | Some a => with_file path a w
  | None => w
  end.

(** What one call of [progress_callback] with whole percent [p] does to
    the state. *)
Definition relay_step (p : Z) (w : World) : World :=
  {| trace := trace w ++
              (if (last_seen w <? p) && (p `mod` 5 =? 0)
               then [Log (MsgWarpProgress p)] else []);
     files := files w;
     _last_gdal_p := Some (Z.max (last_seen w) p) |}.

Definition relay_steps (ps : list Z) (w : World) : World :=
  fold_left (fun w p => relay_step p w) ps w.

(** [complete] has whole percent [p]. *)
Definition percent_is (complete : float) (p : Z) : Prop :=
  percent_of complete = Return p.

(** The relay's invariant: the logged percentages increase strictly and
    none exceeds the last one seen. *)
Definition relay_ok (w : World) : Prop :=
  StronglySorted Z.lt (logged (trace w))
  /\ Forall (fun q => q <= last_seen w) (logged (trace w)).

(** From [w] to [w']: the last-seen percent did not go down, the
    attribute, once set, stayed set, and the invariant was kept. *)
Definition advances (w w' : World) : Prop :=
  last_seen w <= last_seen w'
  /\ (is_Some (_last_gdal_p w) -> is_Some (_last_gdal_p w'))
  /\ (relay_ok w -> relay_ok w').

(** A computation that never resets the relay. *)
Definition steady {A} (m : M A) : Prop :=
  forall w, advances w (snd (m w)).

(** A computation of the model that never runs out of fuel: it ends as
    the Python code does, returning or raising. *)
Definition terminates {A} (m : M A) : Prop :=
  forall w, fst (m w) <> OutOfFuel.

(** The error is one the retry loop retries on. *)
Definition transient (e : exn) : bool :=
  match e with
  | RuntimeError msg => network_glitch msg
  | _ => false
  end.

(** The schedule of [n] failed attempts in a row that are all retried. *)
Fixpoint retries (n : nat) : list Step :=
  match n with
  | O => []
  | S n' => Attempt :: Delay 10 :: retries n'
  end.

Definition is_progress_log (e : Event) : Prop :=
  exists p, e = Log (MsgWarpProgress p).

(** A pixel value against the configured thresholds, as the Mask
    Evaluator is specified: every given threshold holds and the value is
    not the nodata sentinel. *)
Definition in_mask (lo hi : option float) (v : float) : bool :=
  match lo with Some t => PrimFloat.leb t v | None => true end
  && match hi with Some t => PrimFloat.leb v t | None => true end
  && not_nodata v.

(** [mask_cfg[key]], when given, is the number [o]. *)
Definition bound_of (d : gmap string pyval) (key : string) (o : option float) : Prop :=
  match d !! key with
  | None => o = None
  | Some v => exists t, Py.scalar v = Return t /\ o = Some t
  end.

(** ** Sample inputs *)

Module Sample.

Definition rgb : Raster :=
  {| RasterXSize := 3; RasterYSize := 1; Projection := "EPSG:3857";
     GeoTransform := [0; 30; 0; 0; 0; -30]%float;
     DataType := GDT_Byte; NoDataValue := None;
     Bands := [ArrU8 [[128; 0; 255]]; ArrU8 [[0; 0; 255]]; ArrU8 [[0; 0; 255]]] |}.

Definition slope : Raster :=
  {| RasterXSize := 3; RasterYSize := 1; Projection := "EPSG:3857";
     GeoTransform := [0; 30; 0; 0; 0; -30]%float;
     DataType := GDT_Float32; NoDataValue := Some (PyInt (-9999));
     Bands := [ArrF64 [[5; -9999; 12]]%float] |}.

(** An engine on which every call succeeds. *)
Definition engine : Engine :=
  {| os_abspath := fun p => "/work/" +:+ p;
     py_repr := fun _ => "<value>";
     gdal_Warp := fun _ _ _ =>
       {| warp_progress := [0; 0.5; 1]%float; warp_result := inr rgb;
          warp_partial := None |};
     gdal_DEMProcessing := fun _ _ _ => inr slope;
     gdal_DEMProcessing_partial := fun _ _ _ => None;
     gdal_Polygonize := fun _ =>
       {| poly_progress := [0.5; 1]%float;
          poly_result := inr [ {| geometry := "POLYGON ((0 0,30 0,30 -30,0 -30,0 0))";
                                  dn := 1 |} ];
          poly_partial := [] |} |}.

(** An engine whose warp fails with the given error on every call,
    leaving a file it had begun at the destination. *)
Definition failing (e : exn) : Engine :=
  {| os_abspath := fun p => "/work/" +:+ p;
     py_repr := fun _ => "<value>";
     gdal_Warp := fun _ _ _ =>
       {| warp_progress := [0]%float; warp_result := inl e;
          warp_partial := Some (TextFile "partial") |};
     gdal_DEMProcessing := fun _ _ _ => inr slope;
     gdal_DEMProcessing_partial := fun _ _ _ => None;
     gdal_Polygonize := fun _ =>
       {| poly_progress := []; poly_result := inr []; poly_partial := [] |} |}.

Definition settings (bounds resolution : pyval) (output : string)
    (mask : option pyval) : gmap string pyval :=
  let base : gmap string pyval :=
    <["source" := PyStr "https://example.org/terrarium/${z}/${x}/${y}.png"]>
      (<["bounds" := bounds]>
         (<["resolution" := resolution]>
            (<["process" := PyStr "slope"]>
               (<["output" := PyStr output]> ∅)))) in
  match mask with
  | Some m => <["mask" := m]> base
  | None => base
  end.

Definition box : pyval := PyList [PyFloat (-3.5); PyFloat 50; PyFloat (-3); PyFloat 50.5].

Definition app (output : string) (mask : option pyval) : OpenDEM :=
  {| config := settings box (PyInt 30) output mask; cache_dir := "./cache" |}.

Definition fresh : World := {| trace := []; files := ∅; _last_gdal_p := None |}.

End Sample.

(** ** Relations between the state before a call and the state after *)

(** Every run of [m] relates the state it starts in to the state it ends
    in by [R], whether it returns or raises. *)
Definition follows {A} (R : World -> World -> Prop) (m : M A) : Prop :=
  forall w, R w (snd (m w)).

(** The state with one file fewer. *)
Definition without_file (path : string) (w : World) : World :=
  {| trace := trace w; files := delete path (files w);
     _last_gdal_p := _last_gdal_p w |}.



(** A whole percent the relay may log when the engine reports fractions
    between 0 and 1: a multiple of 5 from 0 to 100. *)
Definition progress_mark (p : Z) : Prop := p `mod` 5 = 0 /\ 0 <= p <= 100.

(** A fraction whose whole percent lies between 0 and 100. *)
Definition in_percent_range (c : float) : Prop :=
  exists p, percent_is c p /\ 0 <= p <= 100.

(** Every percentage logged so far is a progress mark. *)
Definition marks_only (w : World) : Prop := Forall progress_mark (logged (trace w)).

(** From [w] to [w'] the trace only grew, and by events that are neither
    warps nor sleeps. *)
Definition grew_quietly (w w' : World) : Prop :=
  exists rest, trace w' = trace w ++ rest /\ schedule rest = [].

(** The byte raster [_save_as_vector] builds in memory from [source_ds],
    and the layer it creates. *)
Definition mem_raster (data : ndarray) (source_ds : Raster) : Raster :=
  {| RasterXSize := RasterXSize source_ds;
     RasterYSize := RasterYSize source_ds;
     Projection := Projection source_ds;
     GeoTransform := GeoTransform source_ds;
     DataType := GDT_Byte;
     NoDataValue := Some (PyInt 0);
     Bands := [data] |}.

Definition mask_layer (source_ds : Raster) (fs : list Feature) : VectorLayer :=
  {| LayerName := "mask"; LayerSRS := Projection source_ds;
     FieldNames := ["dn"]; Features := fs |}.

(** An engine whose warp fails with a network signature on its first [k]
    calls and succeeds from then on. *)
Definition flaky_engine (k : nat) : Engine :=
  {| os_abspath := fun p => "/work/" +:+ p;
     py_repr := fun _ => "<value>";
     gdal_Warp := fun i _ _ =>
       if (i <? k)%nat
       then {| warp_progress := [0; 0.25]%float;
               warp_result := inl (RuntimeError "IReadBlock failed at X offset 3");
               warp_partial := Some (TextFile "partial") |}
       else {| warp_progress := [0; 0.5; 1]%float; warp_result := inr Sample.rgb;
               warp_partial := None |};
     gdal_DEMProcessing := fun _ _ _ => inr Sample.slope;
     gdal_DEMProcessing_partial := fun _ _ _ => None;
     gdal_Polygonize := fun _ =>
       {| poly_progress := []; poly_result := inr []; poly_partial := [] |} |}.

(** An engine whose polygon extraction fails once half done, with one
    feature already in the layer. *)
Definition disk_full_engine : Engine :=
  {| os_abspath := os_abspath Sample.engine;
     py_repr := py_repr Sample.engine;
     gdal_Warp := gdal_Warp Sample.engine;
     gdal_DEMProcessing := gdal_DEMProcessing Sample.engine;
     gdal_DEMProcessing_partial := gdal_DEMProcessing_partial Sample.engine;
     gdal_Polygonize := fun _ =>
       {| poly_progress := [0.5]%float;
          poly_result := inl (RuntimeError "No space left on device");
          poly_partial := [ {| geometry := "POLYGON ((0 0,30 0,30 -30,0 -30,0 0))";
                               dn := 1 |} ] |} |}.

Module F32.

(** What a [GDT_Float32] band keeps of a binary64 sample written into
    it: the sample rounded to binary32, to nearest, ties to even. *)
Definition of_float64 (x : float) : spec_float :=
  match Prim2SF x with
  | S754_finite s m e => binary_round 24 128 s m e
  | other => other
  end.

End F32.

(** ** Exactness of binary64 on the decoded range *)

Lemma digits2_pos_size p : digits2_pos p = Pos.size p.
Proof. induction p as [p IH|p IH|]; simpl; congruence. Qed.

(** [d] is the number of binary digits of [p]. *)
Lemma digits2_bounds (p : positive) :
  2 ^ (Z.pos (digits2_pos p) - 1) <= Z.pos p < 2 ^ Z.pos (digits2_pos p).
Proof.
  rewrite digits2_pos_size.
  pose proof (Pos.size_gt p) as Hgt. pose proof (Pos.size_le p) as Hle.
  apply Pos2Z.pos_lt_pos in Hgt. apply Pos2Z.pos_le_pos in Hle.
  rewrite Pos2Z.inj_pow in Hgt, Hle. rewrite (Pos2Z.inj_xO p) in Hle.
  split; [| exact Hgt].
  replace (Z.pos (Pos.size p)) with (Z.succ (Z.pos (Pos.size p) - 1)) in Hle by lia.
  rewrite Z.pow_succ_r in Hle by lia. lia.
Qed.

Lemma digits2_unique (p : positive) (d : Z) :
  2 ^ (d - 1) <= Z.pos p < 2 ^ d -> Z.pos (digits2_pos p) = d.
Proof.
  intros [Hlo Hhi]. pose proof (digits2_bounds p) as [Hlo' Hhi'].
  assert (0 < d).
  { destruct (Z_lt_le_dec 0 d) as [|Hd]; [assumption | exfalso].
    assert (H1 : 2 ^ d <= 2 ^ 0) by (apply Z.pow_le_mono_r; lia).
    change (2 ^ 0) with 1 in H1. lia. }
  assert (d - 1 < Z.pos (digits2_pos p)).
  { apply (Z.pow_lt_mono_r_iff 2); [lia | lia |]. eapply Z.le_lt_trans; eassumption. }
  assert (Z.pos (digits2_pos p) - 1 < d).
  { apply (Z.pow_lt_mono_r_iff 2); [lia | lia |]. eapply Z.le_lt_trans; eassumption. }
  lia.
Qed.

Lemma iter_xO_Z (m d : positive) : Z.pos (Pos.iter xO m d) = Z.pos m * 2 ^ Z.pos d.
Proof.
  induction d as [|d IH] using Pos.peano_ind.
  - cbn. lia.
  - rewrite Pos.iter_succ, Pos2Z.inj_xO, IH, Pos2Z.inj_succ, Z.pow_succ_r by lia. ring.
Qed.

Lemma iter_pos_iter {A} (f : A -> A) (n : positive) (x : A) :
  SpecFloat.iter_pos f n x = Pos.iter f x n.
Proof.
  revert x. induction n as [n IH|n IH|]; intros x; cbn [SpecFloat.iter_pos Pos.iter].
  - rewrite !IH, <- !Pos.iter_swap. reflexivity.
  - rewrite !IH. reflexivity.
  - reflexivity.
Qed.

Lemma iter_shr_exact (n m : positive) :
  SpecFloat.iter_pos shr_1 n {| shr_m := Z.pos (Pos.iter xO m n); shr_r := false; shr_s := false |}
  = {| shr_m := Z.pos m; shr_r := false; shr_s := false |}.
Proof.
  rewrite iter_pos_iter.
  induction n as [|n IH] using Pos.peano_ind.
  - reflexivity.
  - rewrite Pos.iter_succ_r, Pos.iter_succ. cbn [shr_1 orb]. exact IH.
Qed.

Lemma shl_align_fst (m : positive) (e ez : Z) :
  ez <= e -> Z.pos (fst (shl_align m e ez)) = Z.pos m * 2 ^ (e - ez).
Proof.
  intros H. unfold shl_align.
  destruct (ez - e) as [|d|d] eqn:E; try lia.
  - replace (e - ez) with 0 by lia. cbn [fst]. lia.
  - cbn [fst]. rewrite iter_xO_Z. f_equal. f_equal. lia.
Qed.

(** Rounding a mantissa that fits in 53 bits once its trailing zeros are
    dropped is exact. *)
Lemma binary_round_exact (sx : bool) (M : positive) (e A k : Z) :
  Z.pos M = A * 2 ^ k -> 0 < A < 2 ^ 53 -> 0 <= k ->
  -1022 <= e -> e + k <= 971 ->
  exists m' ec,
    binary_round prec emax sx M e = S754_finite sx m' ec
    /\ 2 ^ 52 <= Z.pos m' < 2 ^ 53
    /\ -1074 <= ec <= 971
    /\ sval (Z.pos m') ec = sval (Z.pos M) e.
Proof.
  intros HM HA Hk He Hek.
  pose proof (digits2_bounds M) as [Hlo Hhi].
  set (d := Z.pos (digits2_pos M)) in *.
  assert (Hd : 0 < d <= 53 + k).
  { split; [unfold d; lia |].
    destruct (Z_le_gt_dec d (53 + k)) as [|Hgt]; [assumption | exfalso].
    assert (2 ^ (53 + k) <= 2 ^ (d - 1)) by (apply Z.pow_le_mono_r; lia).
    rewrite Z.pow_add_r in H by lia.
    assert (0 < 2 ^ k) by (apply Z.pow_pos_nonneg; lia). nia. }
  unfold binary_round, fexp, SpecFloat.emin, prec, emax. fold d.
  replace (Z.max (d + e - 53) (3 - 1024 - 53)) with (e + (d - 53)) by lia.
  set (ec := e + (d - 53)).
  assert (Haux : forall mz : positive, 2 ^ 52 <= Z.pos mz < 2 ^ 53 ->
            binary_round_aux prec emax sx (Z.pos mz) ec loc_Exact = S754_finite sx mz ec).
  { intros mz Hmz.
    assert (Hdz : Z.pos (digits2_pos mz) = 53) by (apply digits2_unique; exact Hmz).
    unfold binary_round_aux, shr_fexp, Zdigits2, fexp, SpecFloat.emin, prec, emax.
    cbn [shr_record_of_loc]. rewrite Hdz.
    replace (Z.max (53 + ec - 53) (3 - 1024 - 53) - ec) with 0 by (unfold ec; lia).
    cbn [shr round_nearest_even loc_of_shr_record shr_m Zdigits2].
    rewrite Hdz.
    replace (Z.max (53 + ec - 53) (3 - 1024 - 53) - ec) with 0 by (unfold ec; lia).
    cbn [shr shr_m].
    replace (ec <=? 1024 - 53) with true by (symmetry; apply Z.leb_le; unfold ec; lia).
    reflexivity. }
  destruct (Z.compare_spec d 53) as [E|E|E].
  - (* exactly 53 digits *)
    unfold shl_align. replace (ec - e) with 0 by (unfold ec; lia).
    assert (Hb : 2 ^ 52 <= Z.pos M < 2 ^ 53).
    { rewrite E in Hlo, Hhi. exact (conj Hlo Hhi). }
    assert (Ee : ec = e) by (unfold ec; lia).
    exists M, ec. split; [| split; [exact Hb | split; [lia |]]].
    + rewrite <- (Haux M Hb), Ee. reflexivity.
    + rewrite Ee. reflexivity.
  - (* fewer: shift left *)
    unfold shl_align. destruct (ec - e) as [|q|q] eqn:Eq; try (unfold ec in Eq; lia).
    assert (Hq : Z.pos q = 53 - d) by (unfold ec in Eq; lia).
    set (mz := Pos.iter xO M q).
    assert (Hmz : Z.pos mz = Z.pos M * 2 ^ (53 - d)).
    { unfold mz. rewrite iter_xO_Z, Hq. reflexivity. }
    assert (Hb : 2 ^ 52 <= Z.pos mz < 2 ^ 53).
    { assert (E52 : 2 ^ 52 = 2 ^ (d - 1) * 2 ^ (53 - d))
        by (rewrite <- Z.pow_add_r by lia; f_equal; lia).
      assert (E53 : 2 ^ 53 = 2 ^ d * 2 ^ (53 - d))
        by (rewrite <- Z.pow_add_r by lia; f_equal; lia).
      rewrite Hmz, E52, E53.
      assert (0 < 2 ^ (53 - d)) by (apply Z.pow_pos_nonneg; lia). nia. }
    exists mz, ec. split; [apply Haux; exact Hb |]. split; [exact Hb |].
    split; [unfold ec; lia |].
    unfold sval. rewrite Hmz. unfold ec.
    replace (e + 1100) with ((e + (d - 53) + 1100) + (53 - d)) by lia.
    rewrite (Z.pow_add_r 2 (e + (d - 53) + 1100)) by lia. ring.
  - (* more: shift right, the bits dropped are zeros *)
    unfold shl_align. destruct (ec - e) as [|q|q] eqn:Eq; try (unfold ec in Eq; lia).
    assert (Hq : Z.pos q = d - 53) by (unfold ec in Eq; lia).
    set (mq := A * 2 ^ (k - (d - 53))).
    assert (Hmq : Z.pos M = mq * 2 ^ (d - 53)).
    { unfold mq. rewrite <- Z.mul_assoc, <- Z.pow_add_r by lia.
      replace (k - (d - 53) + (d - 53)) with k by lia. exact HM. }
    assert (Hpos : 0 < mq).
    { assert (0 < 2 ^ (d - 53)) by (apply Z.pow_pos_nonneg; lia). nia. }
    destruct mq as [|m'|m'] eqn:Emq; try lia.
    assert (HMi : M = Pos.iter xO m' q).
    { apply Pos2Z.inj. rewrite iter_xO_Z, Hq. exact Hmq. }
    assert (Hb : 2 ^ 52 <= Z.pos m' < 2 ^ 53).
    { assert (0 < 2 ^ (d - 53)) by (apply Z.pow_pos_nonneg; lia).
      assert (E52 : 2 ^ (d - 1) = 2 ^ 52 * 2 ^ (d - 53))
        by (rewrite <- Z.pow_add_r by lia; f_equal; lia).
      assert (E53 : 2 ^ d = 2 ^ 53 * 2 ^ (d - 53))
        by (rewrite <- Z.pow_add_r by lia; f_equal; lia).
      rewrite E52 in Hlo. rewrite E53 in Hhi. rewrite Hmq in Hlo, Hhi. nia. }
    assert (Hdz : Z.pos (digits2_pos m') = 53) by (apply digits2_unique; exact Hb).
    exists m', ec. split; [| split; [exact Hb | split; [unfold ec; lia |]]].
    + unfold binary_round_aux, shr_fexp, Zdigits2, fexp, SpecFloat.emin, prec, emax.
      cbn [shr_record_of_loc]. fold d.
      replace (Z.max (d + e - 53) (3 - 1024 - 53) - e) with (Z.pos q) by lia.
      assert (Hit : SpecFloat.iter_pos shr_1 q
                      {| shr_m := Z.pos M; shr_r := false; shr_s := false |}
                    = {| shr_m := Z.pos m'; shr_r := false; shr_s := false |}).
      { rewrite HMi. apply iter_shr_exact. }
      cbn [shr]. rewrite !Hit.
      cbn [round_nearest_even loc_of_shr_record shr_m Zdigits2]. rewrite Hdz.
      replace (e + Z.pos q) with ec by (unfold ec; lia).
      replace (Z.max (53 + ec - 53) (3 - 1024 - 53) - ec) with 0 by (unfold ec; lia).
      cbn [shr shr_m].
      replace (ec <=? 1024 - 53) with true by (symmetry; apply Z.leb_le; unfold ec; lia).
      reflexivity.
    + unfold sval. rewrite Hmq. unfold ec.
      replace (e + (d - 53) + 1100) with ((e + 1100) + (d - 53)) by lia.
      rewrite (Z.pow_add_r 2 (e + 1100)) by lia. ring.
Qed.

Lemma repr_exponent (m : positive) (e K : Z) :
  2 ^ 52 <= Z.pos m < 2 ^ 53 -> -1074 <= e -> 0 < K < 2 ^ 53 ->
  sval (Z.pos m) e = K * 2 ^ 1092 -> -60 <= e <= -8.
Proof.
  unfold sval. intros Hm He HK Hv.
  assert (Hp : 0 < 2 ^ (e + 1100)) by (apply Z.pow_pos_nonneg; lia).
  assert (Hq : 0 < 2 ^ 1092) by (apply Z.pow_pos_nonneg; lia).
  split.
  - destruct (Z_le_gt_dec (-60) e) as [|Hlt]; [assumption | exfalso].
    assert (H1 : 2 ^ (e + 1100) * 2 ^ 53 <= 2 ^ 1092).
    { rewrite <- Z.pow_add_r by lia. apply Z.pow_le_mono_r; lia. }
    nia.
  - destruct (Z_le_gt_dec e (-8)) as [|Hgt]; [assumption | exfalso].
    assert (H1 : 2 ^ 1092 * 2 ^ 1 <= 2 ^ (e + 1100)).
    { rewrite <- Z.pow_add_r by lia. apply Z.pow_le_mono_r; lia. }
    assert (H2 : 2 ^ 52 * (2 ^ 1092 * 2 ^ 1) <= Z.pos m * 2 ^ (e + 1100)) by nia.
    rewrite Hv in H2.
    assert (H3 : K * 2 ^ 1092 < 2 ^ 53 * 2 ^ 1092) by nia.
    change (2 ^ 1) with 2 in H2. change (2 ^ 53) with (2 ^ 52 * 2) in H3. nia.
Qed.

Lemma sval_aligned (M : positive) (ez K : Z) :
  -1074 <= ez <= -8 -> sval (Z.pos M) ez = K * 2 ^ 1092 ->
  Z.pos M = K * 2 ^ (-8 - ez).
Proof.
  unfold sval. intros He Hv.
  assert (Hp : 0 < 2 ^ (ez + 1100)) by (apply Z.pow_pos_nonneg; lia).
  assert (E : 2 ^ 1092 = 2 ^ (-8 - ez) * 2 ^ (ez + 1100)).
  { rewrite <- Z.pow_add_r by lia. f_equal. lia. }
  rewrite E in Hv. rewrite Z.mul_assoc in Hv.
  apply Z.mul_reg_r in Hv; [exact Hv | lia].
Qed.

Lemma sval_shl (m : positive) (e ez : Z) :
  -1100 <= ez <= e ->
  sval (Z.pos (fst (shl_align m e ez))) ez = sval (Z.pos m) e.
Proof.
  intros H. unfold sval. rewrite shl_align_fst by lia.
  rewrite <- Z.mul_assoc, <- Z.pow_add_r by lia. f_equal. f_equal. lia.
Qed.

Lemma normalize_repr (D ez K : Z) :
  -60 <= ez <= -8 -> Z.abs K < 2 ^ 53 -> (D <? 0) = (K <? 0) ->
  sval (Z.abs D) ez = Z.abs K * 2 ^ 1092 ->
  repr (binary_normalize prec emax D ez false) K.
Proof.
  intros He HK Hs Hv.
  assert (Hp : 0 < 2 ^ (ez + 1100)) by (apply Z.pow_pos_nonneg; lia).
  assert (Hq : 0 < 2 ^ 1092) by (apply Z.pow_pos_nonneg; lia).
  destruct D as [|p|p]; cbn [binary_normalize repr].
  - unfold sval in Hv. change (Z.abs 0) with 0 in Hv. nia.
  - change (Z.abs (Z.pos p)) with (Z.pos p) in Hv.
    assert (HKn : K <> 0).
    { intros ->. unfold sval in Hv. change (Z.abs 0) with 0 in Hv. nia. }
    assert (HKs : (K <? 0) = false) by (rewrite <- Hs; reflexivity).
    destruct (binary_round_exact false p ez (Z.abs K) (-8 - ez))
      as (m' & ec & Hr & Hb & Hec & Hv'); try lia.
    { apply sval_aligned; [lia | exact Hv]. }
    rewrite Hr. cbn [repr]. rewrite HKs, Hv', Hv. repeat split; try lia; congruence.
  - change (Z.abs (Z.neg p)) with (Z.pos p) in Hv.
    assert (HKn : K <> 0).
    { intros ->. unfold sval in Hv. change (Z.abs 0) with 0 in Hv. nia. }
    assert (HKs : (K <? 0) = true) by (rewrite <- Hs; reflexivity).
    destruct (binary_round_exact true p ez (Z.abs K) (-8 - ez))
      as (m' & ec & Hr & Hb & Hec & Hv'); try lia.
    { apply sval_aligned; [lia | exact Hv]. }
    rewrite Hr. cbn [repr]. rewrite HKs, Hv', Hv. repeat split; try lia; congruence.
Qed.

Lemma add_repr (x y : spec_float) (K1 K2 : Z) :
  repr x K1 -> repr y K2 -> 0 <= K1 -> 0 <= K2 -> K1 + K2 < 2 ^ 53 ->
  repr (SF64add x y) (K1 + K2).
Proof.
  intros Hx Hy H1 H2 Hlt.
  destruct x as [sx| | |sx mx ex], y as [sy| | |sy my ey]; cbn [repr] in Hx, Hy; try tauto.
  - subst. cbn. destruct sx, sy; reflexivity.
  - subst K1. cbn [SF64add SFadd repr Z.add]. exact Hy.
  - subst K2. rewrite Z.add_0_r. cbn [SF64add SFadd repr]. exact Hx.
  - destruct Hx as (Hn1 & Hs1 & Hb1 & He1 & Hv1), Hy as (Hn2 & Hs2 & Hb2 & He2 & Hv2).
    rewrite Z.abs_eq in Hv1, Hv2 by lia.
    replace (K1 <? 0) with false in Hs1 by (symmetry; apply Z.ltb_ge; lia).
    replace (K2 <? 0) with false in Hs2 by (symmetry; apply Z.ltb_ge; lia).
    subst sx sy.
    pose proof (repr_exponent mx ex K1 Hb1 He1 ltac:(lia) Hv1) as Hex.
    pose proof (repr_exponent my ey K2 Hb2 He2 ltac:(lia) Hv2) as Hey.
    unfold SF64add, SFadd. cbv zeta. cbn [cond_Zopp].
    set (ez := Z.min ex ey).
    apply normalize_repr; [unfold ez; lia | lia | |].
    + cbn [Z.add Z.ltb Z.compare]. symmetry. apply Z.ltb_ge. lia.
    + rewrite Z.abs_eq by lia. rewrite Z.abs_eq by lia.
      unfold sval at 1. rewrite Z.mul_add_distr_r. fold (sval (Z.pos (fst (shl_align mx ex ez))) ez).
      fold (sval (Z.pos (fst (shl_align my ey ez))) ez).
      rewrite !sval_shl by (unfold ez; lia). rewrite Hv1, Hv2. ring.
Qed.

Lemma sub_repr (x y : spec_float) (K1 K2 : Z) :
  repr x K1 -> repr y K2 -> 0 <= K1 < 2 ^ 53 -> 0 < K2 < 2 ^ 53 ->
  repr (SF64sub x y) (K1 - K2).
Proof.
  intros Hx Hy H1 H2.
  destruct x as [sx| | |sx mx ex], y as [sy| | |sy my ey]; cbn [repr] in Hx, Hy;
    try tauto; try lia.
  - subst K1. destruct Hy as (Hn2 & Hs2 & Hb2 & He2 & Hv2).
    cbn [SF64sub SFsub repr]. rewrite Z.sub_0_l, Z.abs_opp.
    replace (K2 <? 0) with false in Hs2 by (symmetry; apply Z.ltb_ge; lia). subst sy.
    replace (- K2 <? 0) with true by (symmetry; apply Z.ltb_lt; lia).
    repeat split; try lia; assumption.
  - destruct Hx as (Hn1 & Hs1 & Hb1 & He1 & Hv1), Hy as (Hn2 & Hs2 & Hb2 & He2 & Hv2).
    rewrite Z.abs_eq in Hv1, Hv2 by lia.
    replace (K1 <? 0) with false in Hs1 by (symmetry; apply Z.ltb_ge; lia).
    replace (K2 <? 0) with false in Hs2 by (symmetry; apply Z.ltb_ge; lia).
    subst sx sy.
    pose proof (repr_exponent mx ex K1 Hb1 He1 ltac:(lia) Hv1) as Hex.
    pose proof (repr_exponent my ey K2 Hb2 He2 ltac:(lia) Hv2) as Hey.
    unfold SF64sub, SFsub. cbv zeta. cbn [cond_Zopp].
    set (ez := Z.min ex ey).
    pose proof (sval_shl mx ex ez ltac:(unfold ez; lia)) as Ex.
    pose proof (sval_shl my ey ez ltac:(unfold ez; lia)) as Ey.
    rewrite Hv1 in Ex. rewrite Hv2 in Ey. unfold sval in Ex, Ey.
    set (a := Z.pos (fst (shl_align mx ex ez))) in *.
    set (b := Z.pos (fst (shl_align my ey ez))) in *.
    assert (Hp : 0 < 2 ^ (ez + 1100)) by (apply Z.pow_pos_nonneg; unfold ez; lia).
    assert (Hq : 0 < 2 ^ 1092) by (apply Z.pow_pos_nonneg; lia).
    set (P := 2 ^ (ez + 1100)) in *. set (Q := 2 ^ 1092) in *.
    assert (E : (a - b) * P = (K1 - K2) * Q) by lia.
    assert (Hsign : a - b < 0 <-> K1 - K2 < 0) by (split; intros; nia).
    apply normalize_repr; [unfold ez; lia | lia | |].
    + destruct (Z.ltb_spec (a - b) 0), (Z.ltb_spec (K1 - K2) 0); try reflexivity; lia.
    + unfold sval. fold P.
      destruct (Z_lt_le_dec (a - b) 0) as [Hneg|Hpos'].
      * rewrite (Z.abs_neq (a - b)), (Z.abs_neq (K1 - K2)) by lia. lia.
      * rewrite (Z.abs_eq (a - b)), (Z.abs_eq (K1 - K2)) by lia. lia.
Qed.

Lemma repr_value (x : spec_float) (K : Z) :
  repr x K -> Z.abs K < 2 ^ 53 ->
  exists q, F64.SF2Q x = Some q /\ (q == Qmake K 256)%Q.
Proof.
  intros Hx HK. unfold F64.SF2Q.
  destruct x as [s| | |s m e]; cbn [repr] in Hx; try tauto.
  - subst K. exists 0%Q. split; reflexivity.
  - destruct Hx as (Hn & Hs & Hb & He & Hv).
    pose proof (repr_exponent m e (Z.abs K) Hb He ltac:(lia) Hv) as Hex.
    destruct e as [|pe|pe]; try lia.
    eexists. split; [reflexivity |].
    unfold Qeq. cbn [Qnum Qden]. rewrite Pos2Z.inj_pow.
    apply sval_aligned in Hv; [| lia].
    replace (-8 - Z.neg pe) with (Z.pos pe - 8) in Hv by lia.
    assert (E : 2 ^ Z.pos pe = 2 ^ (Z.pos pe - 8) * 256).
    { change 256 with (2 ^ 8). rewrite <- Z.pow_add_r by lia. f_equal. lia. }
    rewrite E. subst s.
    destruct (Z.ltb_spec K 0).
    + rewrite <- Pos2Z.opp_pos, Hv, Z.abs_neq by lia. ring.
    + rewrite Hv, Z.abs_eq by lia. ring.
Qed.

Lemma Prim2SF_normal (x fr : float) (se : int) :
  PrimFloat.is_nan x = false -> PrimFloat.is_zero x = false ->
  PrimFloat.is_infinity x = false ->
  PrimFloat.frshiftexp x = (fr, se) ->
  2 ^ 52 <= Uint63.to_Z (PrimFloat.normfr_mantissa fr) < 2 ^ 53 ->
  -1074 <= Uint63.to_Z se - 2154 ->
  Prim2SF x = S754_finite (PrimFloat.get_sign x)
                (Z.to_pos (Uint63.to_Z (PrimFloat.normfr_mantissa fr)))
                (Uint63.to_Z se - 2154).
Proof.
  intros Hn Hz Hi Hfr Hm He.
  unfold Prim2SF. rewrite Hn, Hz, Hi. unfold Z.frexp. rewrite Hfr.
  remember (Uint63.to_Z (PrimFloat.normfr_mantissa fr)) as m eqn:Em.
  destruct m as [|p|p]; try lia.
  unfold shr_fexp, Zdigits2. rewrite (digits2_unique p 53 Hm).
  unfold fexp, SpecFloat.emin, emax, prec.
  change FloatOps.shift with 2101.
  set (e := Uint63.to_Z se - 2101 - 53).
  assert (En : Z.max (53 + e - 53) (3 - 1024 - 53) - e = 0) by lia.
  rewrite En. simpl. f_equal. lia.
Qed.

Lemma dyadic_repr (a off : int) (x : float) :
  Uint63.to_Z a < 2 ^ 24 -> 2146 <= Uint63.to_Z off <= 2154 ->
  dyadic a off x = true ->
  repr (Prim2SF x) (Uint63.to_Z a * 2 ^ (Uint63.to_Z off - 2146)).
Proof.
  intros Ha Hoff. unfold dyadic.
  rewrite andb_true_iff, negb_true_iff. intros [Hnan H].
  pose proof (Uint63.to_Z_bounded a) as Hab.
  destruct (a =? 0)%uint63 eqn:Ea.
  - apply Uint63.eqb_spec in Ea. subst a.
    unfold Prim2SF. rewrite Hnan, H. cbn [repr]. reflexivity.
  - destruct (PrimFloat.frshiftexp x) as [fr se] eqn:Efr.
    repeat rewrite andb_true_iff in H.
    destruct H as [[[[[[[[Hz Hi] Hs] Hlo] Hhi] Hse1] Hse2] Hshr] Hshl].
    rewrite negb_true_iff in Hz, Hi, Hs.
    apply Uint63.leb_spec in Hlo, Hse1, Hse2. apply Uint63.ltb_spec in Hhi.
    apply Uint63.eqb_spec in Hshr, Hshl.
    change (Uint63.to_Z 4503599627370496) with (2 ^ 52) in Hlo.
    change (Uint63.to_Z 9007199254740992) with (2 ^ 53) in Hhi.
    change (Uint63.to_Z 62) with 62 in Hse2.
    set (mi := PrimFloat.normfr_mantissa fr) in *.
    pose proof (Uint63.to_Z_bounded se) as Hseb.
    assert (Hs63 : Uint63.to_Z (off - se) = Uint63.to_Z off - Uint63.to_Z se).
    { rewrite Uint63.sub_spec. apply Z.mod_small.
      change wB with 9223372036854775808. lia. }
    rewrite Hs63 in Hse2.
    assert (Hne : 0 < Uint63.to_Z a).
    { apply Uint63.eqb_false_spec in Ea.
      destruct (Z.eq_dec (Uint63.to_Z a) 0) as [E|]; [| lia].
      exfalso. apply Ea. apply Uint63.to_Z_inj. exact E. }
    set (s := Uint63.to_Z off - Uint63.to_Z se) in *.
    assert (Hmul : Uint63.to_Z mi = Uint63.to_Z a * 2 ^ s).
    { pose proof (f_equal Uint63.to_Z Hshr) as E1.
      pose proof (f_equal Uint63.to_Z Hshl) as E2.
      rewrite Uint63.lsr_spec, Hs63 in E1. rewrite Uint63.lsl_spec, Hs63 in E2.
      fold s in E1, E2.
      assert (0 < 2 ^ s) by (apply Z.pow_pos_nonneg; lia).
      pose proof (Z.mul_div_le (Uint63.to_Z mi) (2 ^ s) ltac:(lia)).
      rewrite Z.mod_small in E2; [lia |].
      change wB with 9223372036854775808.
      change (2 ^ 53) with 9007199254740992 in Hhi. nia. }
    rewrite (Prim2SF_normal x fr se Hnan Hz Hi Efr) by (fold mi; lia).
    fold mi. rewrite Hs. cbn [repr].
    set (K := Uint63.to_Z a * 2 ^ (Uint63.to_Z off - 2146)).
    assert (Hp : 0 < 2 ^ (Uint63.to_Z off - 2146)) by (apply Z.pow_pos_nonneg; lia).
    assert (HK : 0 < K) by (unfold K; nia).
    rewrite Z2Pos.id by lia.
    split; [lia |]. split; [symmetry; apply Z.ltb_ge; lia |].
    split; [lia |]. split; [lia |].
    rewrite Z.abs_eq by lia. unfold sval, K. rewrite Hmul.
    rewrite <- !Z.mul_assoc, <- !Z.pow_add_r by lia. f_equal. f_equal. unfold s. lia.
Qed.

Lemma all_from_spec (f : int -> bool) (k : nat) (i : int) :
  all_from k i f = true ->
  forall j : Z, 0 <= j < Z.of_nat k -> f (i + Uint63.of_Z j)%uint63 = true.
Proof.
  revert i. induction k as [|k IH]; intros i H j Hj; [lia |].
  cbn [all_from] in H. apply andb_true_iff in H as [H0 H1].
  destruct (Z.eq_dec j 0) as [->|Hne].
  - replace (i + Uint63.of_Z 0)%uint63 with i; [exact H0 |].
    apply Uint63.to_Z_inj. rewrite Uint63.add_spec.
    change (Uint63.to_Z (Uint63.of_Z 0)) with 0. rewrite Z.add_0_r.
    symmetry. apply Z.mod_small, Uint63.to_Z_bounded.
  - specialize (IH _ H1 (j - 1) ltac:(lia)).
    replace (i + Uint63.of_Z j)%uint63 with (i + 1 + Uint63.of_Z (j - 1))%uint63;
      [exact IH |].
    apply Uint63.to_Z_inj.
    rewrite !Uint63.add_spec, !Uint63.of_Z_spec.
    change (Uint63.to_Z 1) with 1.
    rewrite Zplus_mod_idemp_l, Zplus_mod_idemp_r, Zplus_mod_idemp_r.
    f_equal. lia.
Qed.

(** The two tables: [r * 256 + g] on 65536 byte pairs and [b / 256] on
    256 bytes are the exact integers and fractions. *)
Lemma high_bytes_exact :
  all_from 256 0%uint63 (fun r =>
  all_from 256 0%uint63 (fun g =>
    dyadic (r * 256 + g)%uint63 2154%uint63
      (PrimFloat.of_uint63 r * 256 + PrimFloat.of_uint63 g)%float))
  = true.
Proof. vm_compute. reflexivity. Qed.

Lemma low_byte_exact :
  all_from 256 0%uint63 (fun b =>
    dyadic b 2146%uint63 (PrimFloat.of_uint63 b / 256)%float)
  = true.
Proof. vm_compute. reflexivity. Qed.

Lemma add_zero_l (i : int) : (0 + i)%uint63 = i.
Proof.
  apply Uint63.to_Z_inj. rewrite Uint63.add_spec.
  change (Uint63.to_Z 0) with 0. rewrite Z.add_0_l.
  apply Z.mod_small, Uint63.to_Z_bounded.
Qed.

Lemma to_Z_of_byte (z : Z) : 0 <= z <= 255 -> Uint63.to_Z (Uint63.of_Z z) = z.
Proof.
  intros H. rewrite Uint63.of_Z_spec. apply Z.mod_small.
  change wB with 9223372036854775808. lia.
Qed.

Lemma decode_repr (R G B : Z) :
  0 <= R <= 255 -> 0 <= G <= 255 -> 0 <= B <= 255 ->
  repr (Prim2SF (decode (PrimFloat.of_uint63 (Uint63.of_Z R))
                   (PrimFloat.of_uint63 (Uint63.of_Z G))
                   (PrimFloat.of_uint63 (Uint63.of_Z B))))
    (65536 * R + 256 * G + B - 8388608).
Proof.
  intros HR HG HB. unfold decode.
  rewrite FloatAxioms.sub_spec, FloatAxioms.add_spec.
  assert (Z.of_nat 256 = 256) by reflexivity.
  pose proof (all_from_spec _ _ _ high_bytes_exact R ltac:(lia)) as H1. cbv beta in H1.
  pose proof (all_from_spec _ _ _ H1 G ltac:(lia)) as H2. cbv beta in H2.
  pose proof (all_from_spec _ _ _ low_byte_exact B ltac:(lia)) as H3. cbv beta in H3.
  rewrite (add_zero_l (Uint63.of_Z R)), (add_zero_l (Uint63.of_Z G)) in H2.
  rewrite (add_zero_l (Uint63.of_Z B)) in H3. clear H1.
  apply dyadic_repr in H2, H3.
  - change (Uint63.to_Z 2154 - 2146) with 8 in H2.
    change (Uint63.to_Z 2146 - 2146) with 0 in H3.
    rewrite Uint63.add_spec, Uint63.mul_spec, !to_Z_of_byte in H2 by lia.
    change (Uint63.to_Z 256) with 256 in H2. change wB with 9223372036854775808 in H2.
    rewrite (Z.mod_small (R * 256)) in H2 by lia. rewrite Z.mod_small in H2 by lia.
    rewrite to_Z_of_byte in H3 by lia.
    change (2 ^ 8) with 256 in H2. change (2 ^ 0) with 1 in H3. rewrite Z.mul_1_r in H3.
    replace (65536 * R + 256 * G + B - 8388608)
      with (((R * 256 + G) * 256 + B) - 8388608) by ring.
    apply sub_repr.
    + apply add_repr; [exact H2 | exact H3 | lia | lia |].
      change (2 ^ 53) with 9007199254740992. lia.
    + cbn [repr]. vm_compute. repeat split; discriminate.
    + change (2 ^ 53) with 9007199254740992. lia.
    + change (2 ^ 53) with 9007199254740992. lia.
  - rewrite to_Z_of_byte by lia. change (2 ^ 24) with 16777216. lia.
  - change (Uint63.to_Z 2146) with 2146. lia.
  - rewrite Uint63.add_spec, Uint63.mul_spec, !to_Z_of_byte by lia.
    change (Uint63.to_Z 256) with 256. change wB with 9223372036854775808.
    rewrite (Z.mod_small (R * 256)) by lia. rewrite Z.mod_small by lia.
    change (2 ^ 24) with 16777216. lia.
  - change (Uint63.to_Z 2154) with 2154. lia.
Qed.

(** ** The decode is exact on bytes *)

Lemma decode_pixel (R G B : Z) :
  0 <= R <= 255 -> 0 <= G <= 255 -> 0 <= B <= 255 ->
  decodes_to R G B
    (inject_Z R * 256 + inject_Z G + inject_Z B / 256 - 32768)%Q.
Proof.
  intros HR HG HB.
  pose proof (decode_repr R G B HR HG HB) as H.
  apply repr_value in H; [| change (2 ^ 53) with 9007199254740992; lia].
  destruct H as (q & Hq & Eq). exists q. split; [exact Hq |].
  rewrite Eq, Qmake_Qdiv. unfold Zminus.
  rewrite !inject_Z_plus, !inject_Z_mult, inject_Z_opp.
  change (inject_Z 65536) with 65536%Q. change (inject_Z 256) with 256%Q.
  change (inject_Z (Z.pos 256)) with 256%Q. change (inject_Z 8388608) with 8388608%Q.
  field.
Qed.

Lemma elevation_of_at (r g b : grid float) (i j : nat) (x y z : float) :
  Np.at_ r i j = Some x -> Np.at_ g i j = Some y -> Np.at_ b i j = Some z ->
  Np.at_ (elevation_of r g b) i j = Some (decode x y z).
Proof.
  unfold Np.at_, elevation_of, Np.map, Np.map2. intros Hr Hg Hb.
  destruct (r !! i) as [rr|] eqn:Er; [| discriminate].
  destruct (g !! i) as [gr|] eqn:Eg; [| discriminate].
  destruct (b !! i) as [br|] eqn:Eb; [| discriminate].
  cbn in Hr, Hg, Hb.
  rewrite list_lookup_fmap, !lookup_zip_with, !list_lookup_fmap, Er, Eg, Eb.
  cbn. rewrite list_lookup_fmap, !lookup_zip_with, !list_lookup_fmap, Hr, Hg, Hb.
  reflexivity.
Qed.

Lemma astype_float_at (a : grid Z) (i j : nat) (v : Z) :
  Np.at_ a i j = Some v ->
  Np.at_ (Np.astype_float (ArrU8 a)) i j = Some (F64.of_byte v).
Proof.
  unfold Np.at_, Np.astype_float, Np.map. intros H.
  destruct (a !! i) as [row|] eqn:Ea; [| discriminate]. cbn in H.
  rewrite list_lookup_fmap, Ea. cbn. rewrite list_lookup_fmap, H. reflexivity.
Qed.

(** C1 (amended): on every pixel of a byte raster [run] computes
    [decode R G B], and for every byte triple that binary64 value is
    exactly the rational [R*256 + G + B/256 - 32768]; in particular
    decode(128,0,0) = 0, decode(0,0,0) = -32768 and
    decode(255,255,255) = 32767.99609375. *)
Theorem decode_correct :
  (forall (r g b : grid Z) (i j : nat) (R G B : Z),
      Np.at_ r i j = Some R -> Np.at_ g i j = Some G -> Np.at_ b i j = Some B ->
      0 <= R <= 255 -> 0 <= G <= 255 -> 0 <= B <= 255 ->
      Np.at_ (elevation_of (Np.astype_float (ArrU8 r)) (Np.astype_float (ArrU8 g))
                (Np.astype_float (ArrU8 b))) i j
      = Some (decode (F64.of_byte R) (F64.of_byte G) (F64.of_byte B))
      /\ decodes_to R G B
           (inject_Z R * 256 + inject_Z G + inject_Z B / 256 - 32768)%Q)
  /\ decodes_to 128 0 0 0%Q
  /\ decodes_to 0 0 0 (-32768)%Q
  /\ decodes_to 255 255 255 (32767 + 255 / 256)%Q.
Proof.
  split; [| split; [| split]].
  - intros r g b i j R G B Hr Hg Hb HR HG HB. split.
    + apply elevation_of_at; apply astype_float_at; assumption.
    + apply decode_pixel; assumption.
  - destruct (decode_pixel 128 0 0) as (q & Hq & Eq); try lia.
    exists q. split; [exact Hq |]. rewrite Eq. reflexivity.
  - destruct (decode_pixel 0 0 0) as (q & Hq & Eq); try lia.
    exists q. split; [exact Hq |]. rewrite Eq. reflexivity.
  - destruct (decode_pixel 255 255 255) as (q & Hq & Eq); try lia.
    exists q. split; [exact Hq |]. rewrite Eq. reflexivity.
Qed.

Lemma decode_correct_witness :
  Np.at_ (elevation_of (Np.astype_float (ArrU8 [[128; 0; 255]]))
            (Np.astype_float (ArrU8 [[0; 0; 255]]))
            (Np.astype_float (ArrU8 [[0; 0; 255]]))) 0 2
  = Some (decode (F64.of_byte 255) (F64.of_byte 255) (F64.of_byte 255))
  /\ decodes_to 255 255 255
       (inject_Z 255 * 256 + inject_Z 255 + inject_Z 255 / 256 - 32768)%Q.
Proof.
  apply (proj1 decode_correct [[128; 0; 255]] [[0; 0; 255]] [[0; 0; 255]] 0%nat 2%nat);
    first [reflexivity | lia].
Defined.

(** C1 as stated fails on its third example: decode(255,255,255) is not
    65278.996... *)
Lemma decode_255_not_65278 :
  ~ (exists q, decodes_to 255 255 255 q /\ (65278996 # 1000 <= q)%Q /\ (q < 65278997 # 1000)%Q).
Proof.
  intros (q & (q' & Hq' & Eq) & Hlo & _).
  assert (E : F64.value (decode (F64.of_byte 255) (F64.of_byte 255) (F64.of_byte 255))
              = Some (9007198180999168 # 274877906944)) by (vm_compute; reflexivity).
  rewrite E in Hq'. injection Hq' as <-.
  rewrite <- Eq in Hlo. revert Hlo. unfold Qle. cbn. lia.
Qed.

(** ** Reasoning about the state-and-exception monad *)

Lemma bind_unfold {A B} (m : M A) (k : A -> M B) (w : World) :
  (m ≫= k) w =
  match m w with
  | (Return a, w') => k a w'
  | (Raise e, w') => (Raise e, w')
  | (OutOfFuel, w') => (OutOfFuel, w')
  end.
Proof. reflexivity. Qed.

Lemma bind_return {A B} (m : M A) (k : A -> M B) (w w' : World) (a : A) :
  m w = (Return a, w') -> (m ≫= k) w = k a w'.
Proof. intros H. rewrite bind_unfold, H. reflexivity. Qed.

Lemma bind_raise {A B} (m : M A) (k : A -> M B) (w w' : World) (e : exn) :
  m w = (Raise e, w') -> (m ≫= k) w = (Raise e, w').
Proof. intros H. rewrite bind_unfold, H. reflexivity. Qed.

Lemma schedule_app (t1 t2 : list Event) :
  schedule (t1 ++ t2) = schedule t1 ++ schedule t2.
Proof.
  induction t1 as [|e t1 IH]; [reflexivity |].
  destruct e; cbn [app schedule]; rewrite ?IH; reflexivity.
Qed.

Lemma logged_app (t1 t2 : list Event) :
  logged (t1 ++ t2) = logged t1 ++ logged t2.
Proof.
  induction t1 as [|e t1 IH]; [reflexivity |].
  destruct e as [m| | | | | | | | | | |]; cbn [app logged]; rewrite ?IH; try reflexivity.
  destruct m; cbn [app]; rewrite ?IH; reflexivity.
Qed.

(** ** The descriptor builder *)

(** C8: with no [source] key, [_generate_vrt] fails on the lookup (the
    [KeyError] is the configuration error of this code) and leaves the
    files and the trace as they were: no descriptor is written. *)
Theorem generate_vrt_without_source (eng : Engine) (self : OpenDEM) (w : World) :
  config self !! "source" = None ->
  _generate_vrt eng self w = (Raise (KeyError "source"), w)
  /\ acquire eng self w = (Raise (KeyError "source"), w)
  /\ run eng self w = (Raise (KeyError "source"), w).
Proof.
  intros H.
  assert (E : _generate_vrt eng self w = (Raise (KeyError "source"), w)).
  { unfold _generate_vrt. rewrite bind_unfold. unfold lift, Py.getitem.
    rewrite H. reflexivity. }
  split; [exact E |].
  assert (E' : acquire eng self w = (Raise (KeyError "source"), w)).
  { unfold acquire. apply bind_raise. exact E. }
  split; [exact E' |].
  unfold run. apply bind_raise. exact E'.
Qed.

Lemma generate_vrt_without_source_witness :
  _generate_vrt Sample.engine {| config := ∅; cache_dir := "./cache" |} Sample.fresh
    = (Raise (KeyError "source"), Sample.fresh)
  /\ acquire Sample.engine {| config := ∅; cache_dir := "./cache" |} Sample.fresh
    = (Raise (KeyError "source"), Sample.fresh)
  /\ run Sample.engine {| config := ∅; cache_dir := "./cache" |} Sample.fresh
    = (Raise (KeyError "source"), Sample.fresh).
Proof.
  apply (generate_vrt_without_source Sample.engine
           {| config := ∅; cache_dir := "./cache" |} Sample.fresh).
  reflexivity.
Defined.

(** ** The progress relay *)

Lemma progress_callback_spec (c : float) (p : Z) (w : World) :
  percent_is c p -> progress_callback c w = (Return 1, relay_step p w).
Proof.
  unfold percent_is. intros Hp.
  unfold progress_callback, relay_step, last_seen.
  unfold mbind, M_bind, mret, M_ret, lift, get_world, log, emit, set_last_gdal_p.
  rewrite Hp. destruct w as [t fs [l|]]; cbn [_last_gdal_p trace files default from_option id].
  - destruct (l <? p) eqn:Elt.
    + rewrite (Z.max_r l p) by (apply Z.ltb_lt in Elt; lia).
      destruct (p `mod` 5 =? 0); cbn; rewrite ?app_nil_r; reflexivity.
    + rewrite (Z.max_l l p) by (apply Z.ltb_ge in Elt; lia).
      cbn. rewrite app_nil_r. reflexivity.
  - destruct (-1 <? p) eqn:Elt.
    + rewrite (Z.max_r (-1) p) by (apply Z.ltb_lt in Elt; lia).
      destruct (p `mod` 5 =? 0); cbn; rewrite ?app_nil_r; reflexivity.
    + rewrite (Z.max_l (-1) p) by (apply Z.ltb_ge in Elt; lia).
      cbn. rewrite app_nil_r. reflexivity.
Qed.

Lemma relay_steps_cons p ps w : relay_steps (p :: ps) w = relay_steps ps (relay_step p w).
Proof. reflexivity. Qed.

Lemma report_progress_spec (cs : list float) (ps : list Z) (w : World) :
  Forall2 percent_is cs ps ->
  report_progress cs w = (Return tt, relay_steps ps w).
Proof.
  intros H. revert w. induction H as [|c p cs ps Hc _ IH]; intros w; [reflexivity |].
  cbn [report_progress]. rewrite relay_steps_cons.
  rewrite (bind_return _ _ _ _ _ (progress_callback_spec c p w Hc)).
  apply IH.
Qed.

Lemma valid_fractions_percents (cs : list float) :
  Forall valid_fraction cs -> exists ps, Forall2 percent_is cs ps.
Proof.
  induction 1 as [|c cs [p Hp] _ [ps IH]].
  - exists []. constructor.
  - exists (p :: ps). constructor; assumption.
Qed.


Lemma relay_step_last p w : last_seen (relay_step p w) = Z.max (last_seen w) p.
Proof. reflexivity. Qed.

Lemma relay_step_schedule p w : schedule (trace (relay_step p w)) = schedule (trace w).
Proof.
  unfold relay_step; cbn [trace]. rewrite schedule_app.
  destruct (_ && _); cbn; apply app_nil_r.
Qed.

Lemma relay_step_logged p w :
  logged (trace (relay_step p w))
  = logged (trace w) ++ (if (last_seen w <? p) && (p `mod` 5 =? 0) then [p] else []).
Proof.
  unfold relay_step; cbn [trace]. rewrite logged_app.
  destruct (_ && _); reflexivity.
Qed.

Lemma relay_steps_files ps w : files (relay_steps ps w) = files w.
Proof. revert w; induction ps as [|p ps IH]; intros w; [reflexivity |].
  rewrite relay_steps_cons, IH. reflexivity. Qed.

Lemma relay_steps_schedule ps w : schedule (trace (relay_steps ps w)) = schedule (trace w).
Proof. revert w; induction ps as [|p ps IH]; intros w; [reflexivity |].
  rewrite relay_steps_cons, IH. apply relay_step_schedule. Qed.

Lemma relay_steps_trace ps w :
  exists logs, trace (relay_steps ps w) = trace w ++ logs /\ Forall is_progress_log logs.
Proof.
  revert w; induction ps as [|p ps IH]; intros w.
  - exists []. split; [symmetry; apply app_nil_r | constructor].
  - rewrite relay_steps_cons. destruct (IH (relay_step p w)) as (logs & E & Hl).
    rewrite E. unfold relay_step at 1; cbn [trace].
    destruct (_ && _).
    + exists (Log (MsgWarpProgress p) :: logs). rewrite <- app_assoc. split; [reflexivity |].
      constructor; [eexists; reflexivity | exact Hl].
    + exists logs. rewrite app_nil_r. split; [reflexivity | exact Hl].
Qed.

(** The last-seen percent after a run of calls is the largest percent
    seen so far. *)
Lemma relay_steps_last ps w :
  last_seen (relay_steps ps w) = fold_left Z.max ps (last_seen w).
Proof. revert w; induction ps as [|p ps IH]; intros w; [reflexivity |].
  rewrite relay_steps_cons, IH. reflexivity. Qed.

Lemma fold_max_lt (ps : list Z) (a p : Z) :
  fold_left Z.max ps a < p <-> a < p /\ Forall (fun q => q < p) ps.
Proof.
  revert a. induction ps as [|q ps IH]; intros a; cbn.
  - split; [intros H; split; [exact H | constructor] | intros [H _]; exact H].
  - rewrite IH. split.
    + intros [H1 H2]. split; [lia |]. constructor; [lia | exact H2].
    + intros [H1 H2]. inversion H2; subst. split; [lia | assumption].
Qed.

(** C7 (amended): from a fresh relay, after any calls with whole
    percents [ps], a call with whole percent [p] returns 1, and it logs
    exactly when [p] exceeds every percent seen before and is a multiple
    of 5, provided the fractions are ones [int] is defined on and their
    whole percents are not negative, as the engine's are. *)
Theorem relay_logs_iff (cs : list float) (ps : list Z) (c : float) (p : Z) (w : World) :
  _last_gdal_p w = None ->
  Forall2 percent_is cs ps -> percent_is c p ->
  Forall (fun q => 0 <= q) ps -> 0 <= p ->
  exists w1 w2,
    report_progress cs w = (Return tt, w1)
    /\ progress_callback c w1 = (Return 1, w2)
    /\ (Forall (fun q => q < p) ps /\ p `mod` 5 = 0 ->
        trace w2 = trace w1 ++ [Log (MsgWarpProgress p)])
    /\ (~ (Forall (fun q => q < p) ps /\ p `mod` 5 = 0) -> trace w2 = trace w1).
Proof.
  intros Hfresh Hcs Hc Hps Hp.
  exists (relay_steps ps w), (relay_step p (relay_steps ps w)).
  split; [apply report_progress_spec; exact Hcs |].
  split; [apply progress_callback_spec; exact Hc |].
  assert (Hlast : last_seen (relay_steps ps w) < p <-> Forall (fun q => q < p) ps).
  { rewrite relay_steps_last, fold_max_lt. unfold last_seen. rewrite Hfresh. cbn.
    split; [intros [_ H]; exact H | intros H; split; [lia | exact H]]. }
  set (w1 := relay_steps ps w) in *.
  unfold relay_step; cbn [trace].
  split.
  - intros [H1 H2]. apply Hlast, Z.ltb_lt in H1. apply Z.eqb_eq in H2.
    rewrite H1, H2. reflexivity.
  - intros Hn.
    destruct (last_seen w1 <? p) eqn:E1;
      destruct (p `mod` 5 =? 0) eqn:E2; cbn [andb]; try apply app_nil_r.
    exfalso. apply Hn. split; [apply Hlast, Z.ltb_lt, E1 | apply Z.eqb_eq, E2].
Qed.

Lemma relay_logs_iff_witness :
  exists w1 w2,
    report_progress [0; 0.25; 0.5]%float Sample.fresh = (Return tt, w1)
    /\ progress_callback 0.75%float w1 = (Return 1, w2)
    /\ (Forall (fun q => q < 75) [0; 25; 50] /\ 75 `mod` 5 = 0 ->
        trace w2 = trace w1 ++ [Log (MsgWarpProgress 75)])
    /\ (~ (Forall (fun q => q < 75) [0; 25; 50] /\ 75 `mod` 5 = 0) -> trace w2 = trace w1).
Proof.
  apply (relay_logs_iff [0; 0.25; 0.5]%float [0; 25; 50] 0.75%float 75 Sample.fresh).
  - reflexivity.
  - repeat constructor; vm_compute; reflexivity.
  - vm_compute; reflexivity.
  - repeat constructor; lia.
  - lia.
Defined.

(** C7 as stated fails below zero and on NaN.  On a relay that has seen
    nothing, the fraction -0.25 has whole percent -25, a multiple of 5
    that exceeds every percent seen before (there is none); the call
    returns 1 but logs nothing, since the attribute starts at -1.  And
    on a NaN fraction the call does not return at all: [int] raises. *)
Lemma relay_silent_below_zero :
  percent_is (-0.25)%float (-25)
  /\ (-25) `mod` 5 = 0
  /\ Forall (fun q => q < -25) ([] : list Z)
  /\ report_progress [] Sample.fresh = (Return tt, Sample.fresh)
  /\ (exists w2, progress_callback (-0.25)%float Sample.fresh = (Return 1, w2)
                 /\ trace w2 = trace Sample.fresh)
  /\ fst (progress_callback PrimFloat.nan Sample.fresh)
     = Raise (ValueError "cannot convert float NaN to integer").
Proof.
  assert (Hp : percent_is (-0.25)%float (-25)) by (vm_compute; reflexivity).
  split; [exact Hp |]. split; [reflexivity |]. split; [constructor |].
  split; [reflexivity |]. split.
  - eexists. split; [apply progress_callback_spec; exact Hp |].
    unfold relay_step. cbn. reflexivity.
  - vm_compute. reflexivity.
Qed.

(** ** The relay is never reset *)

Lemma advances_refl (w : World) : advances w w.
Proof. split; [lia | tauto]. Qed.

Lemma advances_trans (w1 w2 w3 : World) :
  advances w1 w2 -> advances w2 w3 -> advances w1 w3.
Proof. intros (H1 & H2 & H3) (H4 & H5 & H6). split; [lia | tauto]. Qed.

Lemma advances_same (w w' : World) :
  logged (trace w') = logged (trace w) -> _last_gdal_p w' = _last_gdal_p w ->
  advances w w'.
Proof.
  intros Hl Hp. unfold advances, relay_ok, last_seen. rewrite Hl, Hp.
  split; [lia | tauto].
Qed.

Lemma advances_relay_step (p : Z) (w : World) : advances w (relay_step p w).
Proof.
  split; [rewrite relay_step_last; lia |].
  split; [intros _; eexists; reflexivity |].
  unfold relay_ok. rewrite relay_step_logged, relay_step_last. intros [Hs Hb].
  destruct ((last_seen w <? p) && (p `mod` 5 =? 0)) eqn:E.
  - apply andb_true_iff in E as [E _]. apply Z.ltb_lt in E. split.
    + clear -Hs Hb E. induction Hs as [|q l Hs IH Hq]; cbn.
      * repeat constructor.
      * inversion Hb; subst. constructor; [apply IH; assumption |].
        apply Forall_app. split; [exact Hq |]. constructor; [lia | constructor].
    + apply Forall_app. split.
      * eapply Forall_impl; [exact Hb |]. cbn. intros; lia.
      * constructor; [lia | constructor].
  - rewrite app_nil_r. split; [exact Hs |].
    eapply Forall_impl; [exact Hb |]. cbn. intros; lia.
Qed.

Lemma steady_ret {A} (a : A) : steady (mret a : M A).
Proof. intros w. apply advances_refl. Qed.

Lemma steady_raise {A} (e : exn) : steady (raise e : M A).
Proof. intros w. apply advances_refl. Qed.

Lemma steady_out_of_fuel {A} : steady (out_of_fuel : M A).
Proof. intros w. apply advances_refl. Qed.

Lemma steady_lift {A} (o : outcome A) : steady (lift o).
Proof. intros w. apply advances_refl. Qed.

Lemma steady_get_world : steady get_world.
Proof. intros w. apply advances_refl. Qed.

Lemma steady_set_file (path : string) (a : Artifact) : steady (set_file path a).
Proof. intros w. apply advances_same; reflexivity. Qed.

Lemma steady_remove_file (path : string) : steady (remove_file path).
Proof. intros w. apply advances_same; reflexivity. Qed.

Lemma steady_leave (path : string) (left : option Artifact) : steady (leave path left).
Proof. destruct left; [apply steady_set_file | apply steady_ret]. Qed.

Lemma steady_emit (e : Event) : logged [e] = [] -> steady (emit e).
Proof.
  intros H w. apply advances_same; [| reflexivity].
  cbn [emit snd trace]. rewrite logged_app, H. apply app_nil_r.
Qed.

Lemma steady_bind {A B} (m : M A) (k : A -> M B) :
  steady m -> (forall a, steady (k a)) -> steady (m ≫= k).
Proof.
  intros Hm Hk w. rewrite bind_unfold. specialize (Hm w).
  destruct (m w) as [[a|e|] w']; cbn [snd] in *; [| exact Hm | exact Hm].
  eapply advances_trans; [exact Hm | apply Hk].
Qed.

Lemma steady_try {A} (body : M A) (handler : string -> M A) :
  steady body -> (forall e, steady (handler e)) ->
  steady (try_except_RuntimeError body handler).
Proof.
  intros Hb Hh w. unfold try_except_RuntimeError. specialize (Hb w).
  destruct (body w) as [[a|e|] w']; cbn [snd] in *; try exact Hb.
  destruct e; try exact Hb.
  eapply advances_trans; [exact Hb | apply Hh].
Qed.

Lemma steady_progress_callback (c : float) : steady (progress_callback c).
Proof.
  intros w. destruct (percent_of c) as [p|e|] eqn:E.
  - rewrite (progress_callback_spec c p w E). apply advances_relay_step.
  - unfold progress_callback. rewrite bind_unfold. unfold lift. rewrite E.
    apply advances_refl.
  - unfold progress_callback. rewrite bind_unfold. unfold lift. rewrite E.
    apply advances_refl.
Qed.

Lemma steady_report_progress (cs : list float) : steady (report_progress cs).
Proof.
  induction cs as [|c cs IH]; cbn [report_progress].
  - apply steady_ret.
  - apply steady_bind; [apply steady_progress_callback | intros _; exact IH].
Qed.

(** One step in showing a computation steady: a primitive, a bind, or a
    case split on what the code branches on. *)
Ltac steady_step :=
  lazymatch goal with
  | |- steady (mret _) => apply steady_ret
  | |- steady (raise _) => apply steady_raise
  | |- steady out_of_fuel => apply steady_out_of_fuel
  | |- steady (lift _) => apply steady_lift
  | |- steady get_world => apply steady_get_world
  | |- steady (set_file _ _) => apply steady_set_file
  | |- steady (remove_file _) => apply steady_remove_file
  | |- steady (leave _ _) => apply steady_leave
  | |- steady (report_progress _) => apply steady_report_progress
  | |- steady (progress_callback _) => apply steady_progress_callback
  | |- steady (emit _) => apply steady_emit; reflexivity
  | |- steady (log _) => apply steady_emit; reflexivity
  | |- steady (_ ≫= _) => apply steady_bind; [| intros ?]
  | |- steady (try_except_RuntimeError _ _) => apply steady_try; [| intros ?]
  | |- steady (let _ := _ in _) => lazy zeta
  | |- steady (if ?b then _ else _) => destruct b
  | |- steady (match ?x with _ => _ end) => destruct x
  end.

Ltac steady := repeat steady_step.

Section Steady.

Context (eng : Engine).

Lemma steady_gdal_warp (a : WarpArgs) : steady (gdal_warp eng a).
Proof. unfold gdal_warp. steady. Qed.

Lemma steady_gdal_open (path : string) : steady (gdal_open path).
Proof. unfold gdal_open. steady. Qed.

Lemma steady_read_band (ds : Raster) (i : nat) : steady (read_band ds i).
Proof. unfold read_band. steady. Qed.

Lemma steady_call_save_raster data ds path kwargs :
  steady (call_save_raster data ds path kwargs).
Proof. unfold call_save_raster, _save_raster. steady. Qed.

Lemma steady_save_as_vector data ds path : steady (_save_as_vector eng data ds path).
Proof. unfold _save_as_vector, gdal_polygonize. steady. Qed.

Lemma steady_threshold mask_cfg key cmp data condition :
  steady (threshold mask_cfg key cmp data condition).
Proof. unfold threshold. steady. Qed.

Lemma steady_evaluate_mask mask_cfg data : steady (evaluate_mask mask_cfg data).
Proof.
  unfold evaluate_mask. steady; apply steady_threshold.
Qed.

Lemma steady_export mask_cfg output_name final_data current_nodata ds_proc :
  steady (export eng mask_cfg output_name final_data current_nodata ds_proc).
Proof.
  unfold export. steady;
    first [apply steady_save_as_vector | apply steady_call_save_raster].
Qed.

Lemma steady_execute_process self dem_path : steady (_execute_process eng self dem_path).
Proof.
  unfold _execute_process, _get_clipping_path, gdal_dem_processing. steady;
    first [apply steady_gdal_warp | apply steady_gdal_open | apply steady_read_band
          | apply steady_evaluate_mask | apply steady_export].
Qed.

Lemma steady_generate_vrt self : steady (_generate_vrt eng self).
Proof. unfold _generate_vrt. steady. Qed.

Lemma steady_warp_attempt self vrt_path temp_rgb attempt :
  steady (warp_attempt eng self vrt_path temp_rgb attempt).
Proof. unfold warp_attempt. steady; apply steady_gdal_warp. Qed.

Lemma steady_warp_loop fuel self vrt_path temp_rgb attempt success :
  steady (warp_loop eng fuel self vrt_path temp_rgb attempt success).
Proof.
  revert attempt success. induction fuel as [|fuel IH]; intros attempt success;
    cbn [warp_loop].
  - steady.
  - steady; [apply steady_warp_attempt | apply IH].
Qed.

Lemma steady_acquire self : steady (acquire eng self).
Proof.
  unfold acquire. steady; [apply steady_generate_vrt | apply steady_warp_loop].
Qed.

Lemma steady_run self : steady (run eng self).
Proof.
  unfold run. steady;
    first [apply steady_acquire | apply steady_gdal_open | apply steady_read_band
          | apply steady_call_save_raster | apply steady_execute_process].
Qed.

Lemma steady_init config_path loaded : steady (__init__ config_path loaded).
Proof. unfold __init__. steady. Qed.

Lemma steady_main config_path loaded : steady (main eng config_path loaded).
Proof. unfold main. steady; [apply steady_init | apply steady_run]. Qed.

End Steady.

Lemma relay_steps_quiet (ps : list Z) (w : World) (l : Z) :
  Forall (fun p => p <= l) ps -> l <= last_seen w ->
  logged (trace (relay_steps ps w)) = logged (trace w).
Proof.
  intros H. revert w. induction H as [|p ps Hp _ IH]; intros w Hl; [reflexivity |].
  rewrite relay_steps_cons, IH by (rewrite relay_step_last; lia).
  rewrite relay_step_logged.
  replace (last_seen w <? p) with false by (symmetry; apply Z.ltb_ge; lia).
  apply app_nil_r.
Qed.

Lemma bounded_fractions_percents (cs : list float) (l : Z) :
  Forall (fun c => exists p, percent_is c p /\ p <= l) cs ->
  exists ps, Forall2 percent_is cs ps /\ Forall (fun p => p <= l) ps.
Proof.
  induction 1 as [|c cs (p & Hp & Hle) _ (ps & IH1 & IH2)].
  - exists []. split; constructor.
  - exists (p :: ps). split; constructor; assumption.
Qed.

Lemma save_as_vector_quiet (eng : Engine) (data : ndarray) (source_ds : Raster)
    (output_path : string) (w : World) (l : Z) :
  (forall r, Forall (fun c => exists p, percent_is c p /\ p <= l)
               (poly_progress (gdal_Polygonize eng r))) ->
  l <= last_seen w ->
  logged (trace (snd (_save_as_vector eng data source_ds output_path w)))
  = logged (trace w).
Proof.
  intros Hq Hl. unfold _save_as_vector. lazy zeta.
  set (tmp_ds := {| RasterXSize := _ |}) in *.
  set (layer := {| LayerName := _ |}) in *.
  destruct (bounded_fractions_percents _ _ (Hq tmp_ds)) as (ps & Hps & Hle).
  rewrite bind_unfold. unfold get_world.
  assert (Hpoly : forall w1, l <= last_seen w1 ->
            logged (trace (snd (gdal_polygonize eng tmp_ds output_path layer w1)))
            = logged (trace w1)).
  { intros w1 Hl1. unfold gdal_polygonize. lazy zeta.
    rewrite bind_unfold. unfold emit at 1. cbv beta iota.
    set (w2 := {| trace := trace w1 ++ _ |}).
    rewrite (bind_return _ _ _ _ _ (report_progress_spec _ _ w2 Hps)).
    assert (E : logged (trace (relay_steps ps w2)) = logged (trace w1)).
    { rewrite (relay_steps_quiet ps w2 l Hle) by exact Hl1.
      unfold w2; cbn [trace]. rewrite logged_app. apply app_nil_r. }
    destruct (poly_result (gdal_Polygonize eng tmp_ds)); exact E. }
  destruct (bool_decide (is_Some (files w !! output_path))).
  - unfold mbind, M_bind, emit, remove_file, set_file. cbv beta iota.
    rewrite Hpoly by exact Hl. cbn [trace]. rewrite !logged_app. cbn. rewrite !app_nil_r.
    reflexivity.
  - unfold mbind, M_bind, emit, remove_file, set_file, mret, M_ret. cbv beta iota.
    rewrite Hpoly by exact Hl. cbn [trace]. rewrite !logged_app. cbn. rewrite !app_nil_r.
    reflexivity.
Qed.

(** C9: the relay's last-seen percent is set on first use and never
    reset: over the whole of [main] (and of [run]) it never goes down
    and, once set, stays set, so the percentages one run logs increase
    strictly; and once 100 has been seen the callback of the polygon
    extraction logs nothing (its fractions are the engine's: whole
    percents of at most 100). *)
Theorem relay_never_reset (eng : Engine) :
  (forall config_path loaded, steady (main eng config_path loaded))
  /\ (forall self, steady (run eng self))
  /\ (forall config_path loaded w,
      _last_gdal_p w = None -> logged (trace w) = [] ->
      StronglySorted Z.lt (logged (trace (snd (main eng config_path loaded w)))))
  /\ (forall self w,
      _last_gdal_p w = None -> logged (trace w) = [] ->
      StronglySorted Z.lt (logged (trace (snd (run eng self w)))))
  /\ (forall data source_ds output_path w,
      (forall r, Forall (fun c => exists p, percent_is c p /\ p <= 100)
                   (poly_progress (gdal_Polygonize eng r))) ->
      100 <= last_seen w ->
      logged (trace (snd (_save_as_vector eng data source_ds output_path w)))
      = logged (trace w)).
Proof.
  assert (Hfresh : forall w, _last_gdal_p w = None -> logged (trace w) = [] -> relay_ok w).
  { intros w H1 H2. unfold relay_ok. rewrite H2. split; constructor. }
  split; [intros; apply steady_main |].
  split; [intros; apply steady_run |].
  split; [| split].
  - intros config_path loaded w H1 H2.
    destruct (steady_main eng config_path loaded w) as (_ & _ & Hok).
    apply Hok, Hfresh; assumption.
  - intros self w H1 H2.
    destruct (steady_run eng self w) as (_ & _ & Hok).
    apply Hok, Hfresh; assumption.
  - intros data source_ds output_path w Hq Hl.
    apply (save_as_vector_quiet eng data source_ds output_path w 100 Hq Hl).
Qed.

Lemma relay_never_reset_witness :
  StronglySorted Z.lt
    (logged (trace (snd (main Sample.engine "config.yml"
                           (Sample.settings Sample.box (PyInt 30) "steep.gpkg"
                              (Some (PyDict {[ "min" := PyInt 10 ]}))) Sample.fresh))))
  /\ logged (trace (snd (_save_as_vector Sample.engine (ArrU8 [[0; 0; 1]]) Sample.slope
                           "steep.gpkg"
                           {| trace := [Log (MsgWarpProgress 100)]; files := ∅;
                              _last_gdal_p := Some 100 |})))
     = logged [Log (MsgWarpProgress 100)].
Proof.
  split.
  - apply (proj1 (proj2 (proj2 (relay_never_reset Sample.engine))) "config.yml"
             (Sample.settings Sample.box (PyInt 30) "steep.gpkg"
                (Some (PyDict {[ "min" := PyInt 10 ]}))) Sample.fresh);
      reflexivity.
  - apply (proj2 (proj2 (proj2 (proj2 (relay_never_reset Sample.engine))))
             (ArrU8 [[0; 0; 1]]) Sample.slope "steep.gpkg"
             {| trace := [Log (MsgWarpProgress 100)]; files := ∅;
                _last_gdal_p := Some 100 |}).
    + intros r. repeat constructor; [exists 50 | exists 100];
        (split; [vm_compute; reflexivity | lia]).
    + vm_compute. discriminate.
Defined.

(** ** The acquisition step *)

Lemma emit_note (e : Event) (w : World) : emit e w = (Return tt, note e w).
Proof. reflexivity. Qed.

Lemma warp_count_app (t1 t2 : list Event) :
  warp_count (t1 ++ t2) = (warp_count t1 + warp_count t2)%nat.
Proof.
  induction t1 as [|e t1 IH]; [reflexivity |].
  destruct e; cbn [app warp_count]; rewrite ?IH; reflexivity.
Qed.

Lemma leave_spec (path : string) (left : option Artifact) (w : World) :
  leave path left w = (Return tt, left_at path left w).
Proof. destruct left; reflexivity. Qed.

Lemma left_at_trace (path : string) (left : option Artifact) (w : World) :
  trace (left_at path left w) = trace w.
Proof. destruct left; reflexivity. Qed.

Lemma left_at_last_gdal_p (path : string) (left : option Artifact) (w : World) :
  _last_gdal_p (left_at path left w) = _last_gdal_p w.
Proof. destruct left; reflexivity. Qed.

Lemma note_left_at (e : Event) (path : string) (left : option Artifact) (w : World) :
  note e (left_at path left w) = left_at path left (note e w).
Proof. destruct left; reflexivity. Qed.

Lemma gdal_warp_spec (eng : Engine) (a : WarpArgs) (w : World) (ps : list Z) :
  callback a = true ->
  Forall2 percent_is (warp_progress (gdal_Warp eng (warp_count (trace w)) (files w) a)) ps ->
  gdal_warp eng a w =
  let resp := gdal_Warp eng (warp_count (trace w)) (files w) a in
  let w2 := relay_steps ps (note (Warp a) w) in
  match warp_result resp with
  | inl e => (Raise e, left_at (destName a) (warp_partial resp) w2)
  | inr r => (Return tt, with_file (destName a) (RasterFile r) w2)
  end.
Proof.
  intros Hcb Hps. unfold gdal_warp.
  rewrite bind_unfold. unfold get_world. cbv beta iota.
  rewrite bind_unfold, emit_note. cbv beta iota. rewrite Hcb.
  rewrite bind_unfold, (report_progress_spec _ _ _ Hps). cbv beta iota zeta.
  destruct (warp_result _); [| reflexivity].
  rewrite bind_unfold, leave_spec. reflexivity.
Qed.

Lemma generate_vrt_spec (eng : Engine) (self : OpenDEM) (w : World) (source : pyval) :
  config self !! "source" = Some source ->
  let vrt_path := Py.path_join (cache_dir self) "source.vrt" in
  let text := strip (vrt_template (py_str eng source) (os_abspath eng (cache_dir self))) in
  _generate_vrt eng self w
  = (Return vrt_path, with_file vrt_path (TextFile text) (note (WriteText vrt_path text) w)).
Proof.
  intros H. unfold _generate_vrt. lazy zeta.
  rewrite bind_unfold. unfold lift, Py.getitem. rewrite H. reflexivity.
Qed.

(** One turn of the retry loop, in full. *)
Lemma warp_attempt_spec (eng : Engine) (self : OpenDEM) (vrt_path temp_rgb : string)
    (attempt : Z) (w : World) (bounds resolution : pyval) (ps : list Z) :
  config self !! "bounds" = Some bounds ->
  config self !! "resolution" = Some resolution ->
  let a := acquisition_args temp_rgb vrt_path bounds resolution in
  let w1 := note (Log (MsgWarpAttempt (attempt + 1) max_retries)) w in
  let resp := gdal_Warp eng (warp_count (trace w)) (files w) a in
  Forall2 percent_is (warp_progress resp) ps ->
  let w2 := relay_steps ps (note (Warp a) w1) in
  let wf := left_at temp_rgb (warp_partial resp) w2 in
  warp_attempt eng self vrt_path temp_rgb attempt w =
  match warp_result resp with
  | inr r => (Return (attempt, true), with_file temp_rgb (RasterFile r) w2)
  | inl (RuntimeError e) =>
      if network_glitch e then
        let w3 := note (Log (MsgNetworkGlitch e)) wf in
        if attempt + 1 <? max_retries
        then (Return (attempt + 1, false), note (Sleep 10) (note (Log MsgRetrying) w3))
        else (Raise (RuntimeError e), note (Log MsgMaxRetries) w3)
      else (Raise (RuntimeError e), wf)
  | inl e => (Raise e, wf)
  end.
Proof.
  intros Hb Hr a w1 resp Hps w2 wf.
  assert (Hc : warp_count (trace w1) = warp_count (trace w)).
  { unfold w1, note; cbn [trace]. rewrite warp_count_app. cbn. lia. }
  unfold warp_attempt, try_except_RuntimeError.
  rewrite bind_unfold. unfold log. rewrite emit_note. cbv beta iota. fold w1.
  rewrite bind_unfold. unfold lift at 1, Py.getitem at 1. rewrite Hb. cbv beta iota.
  rewrite bind_unfold. unfold lift at 1, Py.getitem at 1. rewrite Hr. cbv beta iota.
  rewrite bind_unfold. fold a.
  rewrite (gdal_warp_spec eng a w1 ps eq_refl) by (rewrite Hc; exact Hps).
  rewrite Hc. change (files w1) with (files w). fold resp. cbv zeta. fold w2.
  change (destName a) with temp_rgb. fold wf.
  destruct (warp_result resp) as [e|r]; [| reflexivity].
  destruct e; try reflexivity.
  destruct (network_glitch msg); [| reflexivity].
  rewrite bind_unfold, emit_note. cbv beta iota.
  destruct (attempt + 1 <? max_retries); reflexivity.
Qed.

Lemma note_schedule_log (m : Message) (w : World) :
  schedule (trace (note (Log m) w)) = schedule (trace w).
Proof. unfold note; cbn [trace]. rewrite schedule_app. apply app_nil_r. Qed.

(** The loop when every warp fails with a network signature: with [S n]
    attempts left it makes them all, sleeping 10 seconds between two of
    them, and re-raises the last error after logging that the retries
    are exhausted. *)
Lemma warp_loop_down (eng : Engine) (self : OpenDEM) (vrt_path temp_rgb : string)
    (bounds resolution : pyval) :
  config self !! "bounds" = Some bounds ->
  config self !! "resolution" = Some resolution ->
  (forall k fs a, exists e,
      warp_result (gdal_Warp eng k fs a) = inl (RuntimeError e)
      /\ network_glitch e = true) ->
  (forall k fs a, Forall valid_fraction (warp_progress (gdal_Warp eng k fs a))) ->
  forall (n : nat) (fuel : nat) (attempt : Z) (w : World),
    attempt = max_retries - Z.of_nat (S n) -> (S n <= fuel)%nat ->
    exists e w',
      warp_loop eng fuel self vrt_path temp_rgb attempt false w
      = (Raise (RuntimeError e), w')
      /\ network_glitch e = true
      /\ schedule (trace w') = schedule (trace w) ++ retries n ++ [Attempt]
      /\ last (trace w') = Some (Log MsgMaxRetries).
Proof.
  intros Hb Hr Hdown Hvalid.
  induction n as [|n IH]; intros fuel attempt w Hatt Hfuel.
  - destruct fuel as [|fuel]; [lia |].
    subst attempt. change (max_retries - Z.of_nat 1) with 4.
    cbn [warp_loop]. change ((4 <? max_retries) && negb false) with true. cbv iota.
    set (a := acquisition_args temp_rgb vrt_path bounds resolution).
    destruct (Hdown (warp_count (trace w)) (files w) a) as (e & He & Hg).
    destruct (valid_fractions_percents _ (Hvalid (warp_count (trace w)) (files w) a))
      as (ps & Hps).
    rewrite bind_unfold.
    rewrite (warp_attempt_spec eng self vrt_path temp_rgb 4 w bounds resolution ps Hb Hr Hps).
    fold a. rewrite He, Hg. change (4 + 1 <? max_retries) with false. cbv iota zeta.
    eexists e, _. split; [reflexivity |]. split; [exact Hg |].
    split.
    + rewrite !note_schedule_log, left_at_trace, relay_steps_schedule.
      unfold note at 1; cbn [trace]. rewrite schedule_app, note_schedule_log. reflexivity.
    + unfold note at 1; cbn [trace]. apply last_snoc.
  - destruct fuel as [|fuel]; [lia |].
    assert (Hlt : attempt + 1 < max_retries) by (unfold max_retries in *; lia).
    cbn [warp_loop].
    replace (attempt <? max_retries) with true by (symmetry; apply Z.ltb_lt; lia).
    cbn [andb negb].
    set (a := acquisition_args temp_rgb vrt_path bounds resolution).
    destruct (Hdown (warp_count (trace w)) (files w) a) as (e & He & Hg).
    destruct (valid_fractions_percents _ (Hvalid (warp_count (trace w)) (files w) a))
      as (ps & Hps).
    rewrite bind_unfold.
    rewrite (warp_attempt_spec eng self vrt_path temp_rgb attempt w bounds resolution ps
               Hb Hr Hps).
    fold a. rewrite He, Hg.
    replace (attempt + 1 <? max_retries) with true by (symmetry; apply Z.ltb_lt; lia).
    cbv iota zeta. cbn [fst snd].
    match goal with |- context [warp_loop _ _ _ _ _ _ _ ?w0] => set (w4 := w0) end.
    destruct (IH fuel (attempt + 1) w4) as (e' & w' & Hrun & Hg' & Hs & Hlast);
      [lia | lia |].
    exists e', w'. split; [exact Hrun |]. split; [exact Hg' |].
    split; [| exact Hlast].
    rewrite Hs. unfold w4.
    unfold note at 1; cbn [trace]. rewrite schedule_app, !note_schedule_log.
    rewrite left_at_trace, relay_steps_schedule.
    unfold note at 1; cbn [trace]. rewrite schedule_app, note_schedule_log.
    cbn [retries schedule]. rewrite <- !app_assoc. reflexivity.
Qed.

(** C2: when every warp fails with a network signature (the engine's
    fractions being ones [int] is defined on), the acquisition makes
    exactly 5 attempts with a 10-second sleep between consecutive ones (4
    sleeps), logs that the retries are exhausted and re-raises the last
    network error; when the first warp fails with any other error, that
    error propagates after this one attempt, with no sleep. *)
Theorem retry_bound (eng : Engine) (self : OpenDEM) (w : World)
    (source bounds resolution : pyval) :
  config self !! "source" = Some source ->
  config self !! "bounds" = Some bounds ->
  config self !! "resolution" = Some resolution ->
  ((forall k fs a, exists e,
       warp_result (gdal_Warp eng k fs a) = inl (RuntimeError e)
       /\ network_glitch e = true) ->
   (forall k fs a, Forall valid_fraction (warp_progress (gdal_Warp eng k fs a))) ->
   exists e w',
     acquire eng self w = (Raise (RuntimeError e), w')
     /\ network_glitch e = true
     /\ schedule (trace w')
        = schedule (trace w)
          ++ [Attempt; Delay 10; Attempt; Delay 10; Attempt; Delay 10;
              Attempt; Delay 10; Attempt]
     /\ last (trace w') = Some (Log MsgMaxRetries))
  /\ (forall e,
       transient e = false ->
       (forall fs a,
           warp_result (gdal_Warp eng (warp_count (trace w)) fs a) = inl e
           /\ Forall valid_fraction
                (warp_progress (gdal_Warp eng (warp_count (trace w)) fs a))) ->
       exists w',
         acquire eng self w = (Raise e, w')
         /\ schedule (trace w') = schedule (trace w) ++ [Attempt]).
Proof.
  intros Hsrc Hb Hr.
  set (vrt_path := Py.path_join (cache_dir self) "source.vrt").
  set (temp_rgb := Py.path_join (cache_dir self) "temp_rgb.tif").
  pose proof (generate_vrt_spec eng self w source Hsrc) as Hvrt. cbv zeta in Hvrt.
  fold vrt_path in Hvrt.
  match type of Hvrt with _ = (_, ?w0) => set (w1 := w0) in * end.
  assert (Hs1 : schedule (trace w1) = schedule (trace w)).
  { unfold w1, with_file, note; cbn [trace]. rewrite schedule_app. apply app_nil_r. }
  split.
  - intros Hdown Hvalid.
    destruct (warp_loop_down eng self vrt_path temp_rgb bounds resolution Hb Hr Hdown Hvalid
                4%nat (Z.to_nat max_retries) 0 w1 eq_refl)
      as (e & w' & Hrun & Hg & Hs & Hlast);
      [change (Z.to_nat max_retries) with 5%nat; lia |].
    exists e, w'. split; [| split; [exact Hg | split; [| exact Hlast]]].
    + unfold acquire. rewrite (bind_return _ _ _ _ _ Hvrt). cbv zeta.
      fold temp_rgb. apply bind_raise. exact Hrun.
    + rewrite Hs, Hs1. reflexivity.
  - intros e Hnt Hfirst.
    assert (Hc : warp_count (trace w1) = warp_count (trace w)).
    { unfold w1, with_file, note; cbn [trace]. rewrite warp_count_app. cbn. lia. }
    set (a := acquisition_args temp_rgb vrt_path bounds resolution).
    destruct (Hfirst (files w1) a) as [He Hv].
    destruct (valid_fractions_percents _ Hv) as (ps & Hps).
    rewrite <- Hc in He, Hps.
    pose proof (warp_attempt_spec eng self vrt_path temp_rgb 0 w1 bounds resolution ps
                  Hb Hr Hps) as Hatt.
    cbv zeta in Hatt. fold a in Hatt. rewrite He in Hatt.
    match type of Hatt with
    | context [left_at ?p ?l ?w0] => set (w2 := left_at p l w0) in *
    end.
    assert (Hatt' : warp_attempt eng self vrt_path temp_rgb 0 w1 = (Raise e, w2)).
    { rewrite Hatt. destruct e; try reflexivity. cbn in Hnt. rewrite Hnt. reflexivity. }
    exists w2. split.
    + unfold acquire. rewrite (bind_return _ _ _ _ _ Hvrt). cbv zeta. fold temp_rgb.
      apply bind_raise. cbn [Z.to_nat max_retries Pos.to_nat Pos.iter_op Nat.add warp_loop].
      change ((0 <? 5) && negb false) with true. cbv iota.
      apply bind_raise. exact Hatt'.
    + unfold w2. rewrite left_at_trace, relay_steps_schedule.
      unfold note at 1; cbn [trace]. rewrite schedule_app, note_schedule_log, Hs1.
      reflexivity.
Qed.

Lemma retry_bound_witness :
  (exists e w',
      acquire (Sample.failing (RuntimeError "Could not resolve host: example.org"))
        (Sample.app "slope.tif" None) Sample.fresh
      = (Raise (RuntimeError e), w')
      /\ network_glitch e = true
      /\ schedule (trace w')
         = schedule (trace Sample.fresh)
           ++ [Attempt; Delay 10; Attempt; Delay 10; Attempt; Delay 10;
               Attempt; Delay 10; Attempt]
      /\ last (trace w') = Some (Log MsgMaxRetries))
  /\ (exists w',
      acquire (Sample.failing (RuntimeError "No space left on device"))
        (Sample.app "slope.tif" None) Sample.fresh
      = (Raise (RuntimeError "No space left on device"), w')
      /\ schedule (trace w') = schedule (trace Sample.fresh) ++ [Attempt]).
Proof.
  split.
  - apply (proj1 (retry_bound
                    (Sample.failing (RuntimeError "Could not resolve host: example.org"))
                    (Sample.app "slope.tif" None) Sample.fresh
                    (PyStr "https://example.org/terrarium/${z}/${x}/${y}.png")
                    Sample.box (PyInt 30) eq_refl eq_refl eq_refl)).
    + intros k fs a. eexists. split; [reflexivity | vm_compute; reflexivity].
    + intros k fs a. constructor; [exists 0; vm_compute; reflexivity | constructor].
  - apply (proj2 (retry_bound
                    (Sample.failing (RuntimeError "No space left on device"))
                    (Sample.app "slope.tif" None) Sample.fresh
                    (PyStr "https://example.org/terrarium/${z}/${x}/${y}.png")
                    Sample.box (PyInt 30) eq_refl eq_refl eq_refl)
                 (RuntimeError "No space left on device")).
    + vm_compute; reflexivity.
    + intros fs a. split; [reflexivity |].
      constructor; [exists 0; vm_compute; reflexivity | constructor].
Defined.

(** ** No validation of [bounds] and [resolution] *)

(** [__init__] on a configuration whose [cache_dir], when given, is a
    string other than the empty one. *)
Lemma init_spec (config_path : string) (loaded : gmap string pyval) (w : World) :
  (forall v, loaded !! "cache_dir" = Some v -> exists s, v = PyStr s /\ s <> "") ->
  exists dir,
    dir <> ""
    /\ __init__ config_path loaded w
       = (Return {| config := loaded; cache_dir := dir |},
          note (Log (MsgInitialized config_path))
            (note (SetConfigOption "GDAL_HTTP_CACHE_DIRECTORY" dir)
               (note (SetConfigOption "GDAL_HTTP_CACHE" "YES")
                  (note (Makedirs dir) w)))).
Proof.
  intros H. unfold __init__.
  assert (Hgo : forall dir, dir <> "" ->
            (dir ← (mret dir : M string);
             emit (Makedirs dir);;
             (if String.eqb dir "" then raise (FileNotFoundError dir) else mret tt);;
             emit (SetConfigOption "GDAL_HTTP_CACHE" "YES");;
             emit (SetConfigOption "GDAL_HTTP_CACHE_DIRECTORY" dir);;
             log (MsgInitialized config_path);;
             mret {| config := loaded; cache_dir := dir |}) w
            = (Return {| config := loaded; cache_dir := dir |},
               note (Log (MsgInitialized config_path))
                 (note (SetConfigOption "GDAL_HTTP_CACHE_DIRECTORY" dir)
                    (note (SetConfigOption "GDAL_HTTP_CACHE" "YES")
                       (note (Makedirs dir) w))))).
  { intros dir Hne. rewrite bind_unfold. unfold mret at 1, M_ret at 1.
    cbv beta iota. rewrite bind_unfold, emit_note. cbv beta iota.
    destruct (String.eqb_spec dir "") as [E|_]; [contradiction | reflexivity]. }
  destruct (loaded !! "cache_dir") as [v|].
  - destruct (H v eq_refl) as (s & -> & Hne). exists s. split; [exact Hne |].
    apply Hgo, Hne.
  - exists "./cache". split; [discriminate |]. apply Hgo. discriminate.
Qed.

(** C10: whatever values [bounds] and [resolution] hold, in a
    configuration whose [cache_dir] is absent or any directory name (a
    string other than the empty one, on which no instance is created),
    [__init__] stores them as loaded and the acquisition hands them to
    the warp unchanged; when the engine accepts the call the step
    returns, so the pipeline itself raises nothing on a resolution that
    is not positive or on bounds whose minimum is not below the maximum. *)
Theorem bounds_resolution_unchecked (eng : Engine) (config_path : string)
    (loaded : gmap string pyval) (w : World) (source bounds resolution : pyval) :
  (forall v, loaded !! "cache_dir" = Some v -> exists s, v = PyStr s /\ s <> "") ->
  loaded !! "source" = Some source ->
  loaded !! "bounds" = Some bounds ->
  loaded !! "resolution" = Some resolution ->
  (forall k fs a, exists r,
      warp_result (gdal_Warp eng k fs a) = inr r
      /\ Forall valid_fraction (warp_progress (gdal_Warp eng k fs a))) ->
  exists self w0 w' logs,
    __init__ config_path loaded w = (Return self, w0)
    /\ config self = loaded
    /\ acquire eng self w0 = (Return (Py.path_join (cache_dir self) "temp_rgb.tif"), w')
    /\ trace w'
       = trace w0
         ++ [WriteText (Py.path_join (cache_dir self) "source.vrt")
               (strip (vrt_template (py_str eng source)
                         (os_abspath eng (cache_dir self))));
             Log (MsgWarpAttempt 1 max_retries);
             Warp {| destName := Py.path_join (cache_dir self) "temp_rgb.tif";
                     srcDS := Py.path_join (cache_dir self) "source.vrt";
                     outputBounds := Some bounds;
                     outputBoundsSRS := Some "EPSG:4326";
                     xRes := Some resolution;
                     yRes := Some resolution;
                     dstSRS := Some "EPSG:3857";
                     cutlineDSName := None; cropToCutline := false;
                     dstNodata := None; callback := true |}]
         ++ logs
    /\ Forall is_progress_log logs.
Proof.
  intros Hcd Hsrc Hb Hr Hok.
  destruct (init_spec config_path loaded w Hcd) as (dir & _ & Hinit).
  set (self := {| config := loaded; cache_dir := dir |}) in *.
  match type of Hinit with _ = (_, ?wx) => set (w0 := wx) in * end.
  clearbody w0. exists self, w0.
  set (vrt_path := Py.path_join (cache_dir self) "source.vrt").
  set (temp_rgb := Py.path_join (cache_dir self) "temp_rgb.tif").
  pose proof (generate_vrt_spec eng self w0 source Hsrc) as Hvrt. cbv zeta in Hvrt.
  fold vrt_path in Hvrt.
  set (text := strip (vrt_template (py_str eng source) (os_abspath eng (cache_dir self)))) in *.
  match type of Hvrt with _ = (_, ?wx) => set (w1 := wx) in * end.
  set (a := acquisition_args temp_rgb vrt_path bounds resolution).
  destruct (Hok (warp_count (trace w1)) (files w1) a) as (r & Hres & Hv).
  destruct (valid_fractions_percents _ Hv) as (ps & Hps).
  pose proof (warp_attempt_spec eng self vrt_path temp_rgb 0 w1 bounds resolution ps
                Hb Hr Hps) as Hatt.
  cbv zeta in Hatt. fold a in Hatt. rewrite Hres in Hatt.
  match type of Hatt with _ = (_, with_file _ _ (relay_steps _ ?w3)) => set (w2 := w3) in * end.
  destruct (relay_steps_trace ps w2) as (logs & Htr & Hlogs).
  eexists _, logs. split; [exact Hinit |]. split; [reflexivity |].
  split; [| split; [| exact Hlogs]].
  - unfold acquire. rewrite (bind_return _ _ _ _ _ Hvrt). cbv zeta. fold temp_rgb.
    change (Z.to_nat max_retries) with 5%nat. cbn [warp_loop].
    change ((0 <? max_retries) && negb false) with true. cbv iota.
    rewrite bind_unfold, (bind_return _ _ _ _ _ Hatt). cbn [fst snd warp_loop].
    change ((0 <? max_retries) && negb true) with false. cbv iota. reflexivity.
  - cbn [trace with_file]. rewrite Htr. unfold w2, w1.
    cbn [trace note with_file]. rewrite <- !app_assoc. reflexivity.
Qed.

Lemma bounds_resolution_unchecked_witness :
  exists self w0 w' logs,
    __init__ "config.yml"
      (<[ "cache_dir" := PyStr "/tmp/dem" ]>
         (Sample.settings (PyList [PyFloat 10; PyFloat 50; PyFloat (-10); PyFloat 40])
            (PyInt (-30)) "slope.tif" None)) Sample.fresh
    = (Return self, w0)
    /\ config self
       = <[ "cache_dir" := PyStr "/tmp/dem" ]>
           (Sample.settings (PyList [PyFloat 10; PyFloat 50; PyFloat (-10); PyFloat 40])
              (PyInt (-30)) "slope.tif" None)
    /\ acquire Sample.engine self w0
       = (Return (Py.path_join (cache_dir self) "temp_rgb.tif"), w')
    /\ trace w'
       = trace w0
         ++ [WriteText (Py.path_join (cache_dir self) "source.vrt")
               (strip (vrt_template
                         (py_str Sample.engine
                            (PyStr "https://example.org/terrarium/${z}/${x}/${y}.png"))
                         (os_abspath Sample.engine (cache_dir self))));
             Log (MsgWarpAttempt 1 max_retries);
             Warp {| destName := Py.path_join (cache_dir self) "temp_rgb.tif";
                     srcDS := Py.path_join (cache_dir self) "source.vrt";
                     outputBounds :=
                       Some (PyList [PyFloat 10; PyFloat 50; PyFloat (-10); PyFloat 40]);
                     outputBoundsSRS := Some "EPSG:4326";
                     xRes := Some (PyInt (-30));
                     yRes := Some (PyInt (-30));
                     dstSRS := Some "EPSG:3857";
                     cutlineDSName := None; cropToCutline := false;
                     dstNodata := None; callback := true |}]
         ++ logs
    /\ Forall is_progress_log logs.
Proof.
  apply (bounds_resolution_unchecked Sample.engine "config.yml"
           (<[ "cache_dir" := PyStr "/tmp/dem" ]>
              (Sample.settings (PyList [PyFloat 10; PyFloat 50; PyFloat (-10); PyFloat 40])
                 (PyInt (-30)) "slope.tif" None))
           Sample.fresh
           (PyStr "https://example.org/terrarium/${z}/${x}/${y}.png")
           (PyList [PyFloat 10; PyFloat 50; PyFloat (-10); PyFloat 40])
           (PyInt (-30))).
  - intros v Hv. exists "/tmp/dem". split; [| discriminate].
    rewrite lookup_insert_eq in Hv. congruence.
  - vm_compute. reflexivity.
  - vm_compute. reflexivity.
  - vm_compute. reflexivity.
  - intros k fs a. exists Sample.rgb. split; [reflexivity |].
    repeat constructor; [exists 0 | exists 50 | exists 100]; vm_compute; reflexivity.
Defined.

(** ** The mask evaluator and the exporter *)

Lemma np_map2_map {A B C D} (f : B -> C -> D) (g : A -> B) (h : A -> C) (a : grid A) :
  Np.map2 f (Np.map g a) (Np.map h a) = Np.map (fun x => f (g x) (h x)) a.
Proof.
  unfold Np.map2, Np.map.
  induction a as [|row a IH]; [reflexivity |].
  cbn [fmap list_fmap zip_with]. f_equal; [| exact IH].
  clear. induction row as [|x row IH]; [reflexivity |].
  cbn [fmap list_fmap zip_with]. f_equal. exact IH.
Qed.

Lemma np_map_map {A B C} (f : B -> C) (g : A -> B) (a : grid A) :
  Np.map f (Np.map g a) = Np.map (fun x => f (g x)) a.
Proof.
  unfold Np.map. rewrite <- list_fmap_compose. apply list_fmap_ext.
  intros _ row _. cbn. rewrite <- list_fmap_compose. reflexivity.
Qed.

Lemma np_map_ext {A B} (f g : A -> B) (a : grid A) :
  (forall x, f x = g x) -> Np.map f a = Np.map g a.
Proof.
  intros H. unfold Np.map. apply list_fmap_ext. intros _ row _.
  apply list_fmap_ext. intros _ x _. apply H.
Qed.

Lemma np_map_at {A B} (f : A -> B) (a : grid A) (i j : nat) :
  Np.at_ (Np.map f a) i j = f <$> Np.at_ a i j.
Proof.
  unfold Np.at_, Np.map. rewrite list_lookup_fmap.
  destruct (a !! i) as [row|]; [| reflexivity]. cbn. apply list_lookup_fmap.
Qed.

Lemma threshold_spec (d : gmap string pyval) (key : string)
    (cmp : float -> float -> bool) (data : grid float) (condition : grid bool)
    (o : option float) (w : World) :
  bound_of d key o ->
  threshold (PyDict d) key cmp data condition w
  = (Return (match o with
             | Some t => Np.map2 andb condition (Np.map (fun x => cmp x t) data)
             | None => condition
             end), w).
Proof.
  unfold bound_of, threshold. intros H.
  rewrite bind_unfold. unfold lift at 1, Py.has_key. cbv beta iota.
  destruct (d !! key) as [v|] eqn:E.
  - destruct H as (t & Ht & ->).
    rewrite bool_decide_eq_true_2 by eauto.
    rewrite bind_unfold. unfold lift at 1, Py.subscript, Py.getitem. rewrite E.
    cbv beta iota. rewrite bind_unfold. unfold lift. rewrite Ht. reflexivity.
  - subst o. rewrite bool_decide_eq_false_2; [reflexivity |].
    intros [x Hx]. discriminate.
Qed.

(** The binary branch on a non-empty mapping, and the continuous branch
    on anything falsy. *)
Lemma evaluate_mask_dict (d : gmap string pyval) (data : grid float) (w : World)
    (lo hi : option float) :
  d <> ∅ -> bound_of d "min" lo -> bound_of d "max" hi ->
  evaluate_mask (PyDict d) data w
  = (Return (ArrU8 (Np.map (fun v => if in_mask lo hi v then 1 else 0) data), 0),
     note (Log (MsgMaskDetected (PyDict d))) w).
Proof.
  intros Hne Hlo Hhi. unfold evaluate_mask.
  unfold Py.truthy. rewrite bool_decide_eq_false_2 by exact Hne. cbn [negb].
  rewrite bind_unfold. unfold log. rewrite emit_note. cbv beta iota zeta.
  rewrite bind_unfold, (threshold_spec d "min" _ data _ lo _ Hlo). cbv beta iota.
  rewrite bind_unfold, (threshold_spec d "max" _ data _ hi _ Hhi). cbv beta iota.
  unfold Np.ones_like, Np.where_1_0.
  assert (E : forall c : grid bool,
             c = Np.map (fun v => match lo with Some t => PrimFloat.leb t v | None => true end
                                  && match hi with Some t => PrimFloat.leb v t | None => true end)
                   data ->
             Np.map (fun x : bool => if x then 1 else 0)
               (Np.map2 andb c (Np.map not_nodata data))
             = Np.map (fun v => if in_mask lo hi v then 1 else 0) data).
  { intros c ->. rewrite np_map2_map, np_map_map. reflexivity. }
  unfold mret, M_ret.
  match goal with
  | |- (Return (ArrU8 ?X, 0), _) = _ =>
      replace X with (Np.map (fun v => if in_mask lo hi v then 1 else 0) data);
        [reflexivity |]
  end.
  symmetry. apply E.
  destruct lo as [tlo|], hi as [thi|]; rewrite ?np_map2_map; apply np_map_ext; intros x;
    cbn [andb]; rewrite ?andb_true_r; reflexivity.
Qed.

Lemma evaluate_mask_falsy (mask_cfg : pyval) (data : grid float) (w : World) :
  Py.truthy mask_cfg = false ->
  evaluate_mask mask_cfg data w
  = (Return (ArrF64 data, nodata_val), note (Log MsgNoMask) w).
Proof. intros H. unfold evaluate_mask. rewrite H. reflexivity. Qed.

(** C5 (amended): when [mask] is a non-empty mapping whose [min] and
    [max], where given, are numbers numpy can compare the grid with (a
    float, a boolean, or an integer that binary64 can hold without
    overflow), the evaluator returns the unsigned
    8-bit grid holding 1 exactly on the pixels that satisfy every given
    threshold and differ from -9999, and 0 elsewhere, with nodata 0; a
    pixel equal to -9999 is 0 whatever the thresholds. *)
Theorem mask_evaluator_binary (d : gmap string pyval) (data : grid float) (w : World)
    (lo hi : option float) :
  d <> ∅ -> bound_of d "min" lo -> bound_of d "max" hi ->
  exists out,
    evaluate_mask (PyDict d) data w
    = (Return (ArrU8 out, 0), note (Log (MsgMaskDetected (PyDict d))) w)
    /\ (forall i j v, Np.at_ data i j = Some v ->
          Np.at_ out i j = Some (if in_mask lo hi v then 1 else 0))
    /\ (forall i j v, Np.at_ data i j = Some v ->
          PrimFloat.eqb v (F64.of_Z nodata_val) = true -> Np.at_ out i j = Some 0)
    /\ (forall i j, Np.at_ data i j = None -> Np.at_ out i j = None).
Proof.
  intros Hne Hlo Hhi. eexists. split; [apply evaluate_mask_dict; eassumption |].
  split; [| split].
  - intros i j v Hv. rewrite np_map_at, Hv. reflexivity.
  - intros i j v Hv Hnd. rewrite np_map_at, Hv. cbn.
    unfold in_mask, not_nodata. rewrite Hnd, andb_false_r. reflexivity.
  - intros i j Hv. rewrite np_map_at, Hv. reflexivity.
Qed.

Lemma mask_evaluator_binary_witness :
  exists out,
    evaluate_mask (PyDict {[ "min" := PyInt 10 ]}) [[5; -9999; 12]]%float Sample.fresh
    = (Return (ArrU8 out, 0),
       note (Log (MsgMaskDetected (PyDict {[ "min" := PyInt 10 ]}))) Sample.fresh)
    /\ (forall i j v, Np.at_ [[5; -9999; 12]]%float i j = Some v ->
          Np.at_ out i j = Some (if in_mask (Some 10%float) None v then 1 else 0))
    /\ (forall i j v, Np.at_ [[5; -9999; 12]]%float i j = Some v ->
          PrimFloat.eqb v (F64.of_Z nodata_val) = true -> Np.at_ out i j = Some 0)
    /\ (forall i j, Np.at_ [[5; -9999; 12]]%float i j = None -> Np.at_ out i j = None).
Proof.
  apply (mask_evaluator_binary {[ "min" := PyInt 10 ]} [[5; -9999; 12]]%float
           Sample.fresh (Some 10%float) None).
  - apply insert_non_empty.
  - exists 10%float. split; [vm_compute; reflexivity | reflexivity].
  - reflexivity.
Defined.

(** C5 as stated fails on the empty mapping: [mask: {}] is configured,
    no threshold is given and 5.0 is not -9999, yet the evaluator returns
    the continuous grid, not a 1 in an unsigned 8-bit grid. *)
Lemma mask_empty_mapping_continuous :
  evaluate_mask (PyDict ∅) [[5%float]] Sample.fresh
  = (Return (ArrF64 [[5%float]], -9999), note (Log MsgNoMask) Sample.fresh)
  /\ ~ (exists out, fst (evaluate_mask (PyDict ∅) [[5%float]] Sample.fresh)
                    = Return (ArrU8 out, 0)).
Proof.
  assert (E : evaluate_mask (PyDict ∅) [[5%float]] Sample.fresh
              = (Return (ArrF64 [[5%float]], -9999), note (Log MsgNoMask) Sample.fresh)).
  { apply evaluate_mask_falsy. reflexivity. }
  split; [exact E |]. rewrite E. intros [out H]. discriminate.
Qed.

Lemma in_mask_max_le (lo : option float) (thi v : float) :
  (if in_mask lo (Some thi) v then 1 else 0) <= (if in_mask lo None v then 1 else 0).
Proof.
  unfold in_mask.
  destruct (match lo with Some t => PrimFloat.leb t v | None => true end),
    (PrimFloat.leb v thi), (not_nodata v); cbn; lia.
Qed.

Lemma np_map_le {A} (f g : A -> Z) (a : grid A) :
  (forall x, f x <= g x) -> Forall2 (Forall2 Z.le) (Np.map f a) (Np.map g a).
Proof.
  intros H. unfold Np.map. induction a as [|row a IH]; [constructor |].
  cbn [fmap list_fmap]. constructor; [| exact IH].
  clear IH. induction row as [|x row IH]; [constructor |].
  cbn [fmap list_fmap]. constructor; [apply H | exact IH].
Qed.

(** C6: on one grid, the mask computed with only [min] is pixelwise at
    least the mask computed with the same [min] and a [max], for every
    [min] and [max] numpy can compare the grid with; on any other value
    neither mask is produced. *)
Theorem mask_monotone (vmin vmax : pyval) (tmin tmax : float) (data : grid float)
    (w : World) :
  Py.scalar vmin = Return tmin -> Py.scalar vmax = Return tmax ->
  exists only_min both,
    fst (evaluate_mask (PyDict {[ "min" := vmin ]}) data w) = Return (ArrU8 only_min, 0)
    /\ fst (evaluate_mask (PyDict (<[ "max" := vmax ]> {[ "min" := vmin ]})) data w)
       = Return (ArrU8 both, 0)
    /\ Forall2 (Forall2 Z.le) both only_min
    /\ (forall i j, Np.at_ both i j = Some 1 -> Np.at_ only_min i j = Some 1).
Proof.
  intros Hmin Hmax.
  exists (Np.map (fun v => if in_mask (Some tmin) None v then 1 else 0) data),
         (Np.map (fun v => if in_mask (Some tmin) (Some tmax) v then 1 else 0) data).
  split; [| split; [| split]].
  - rewrite (evaluate_mask_dict _ data w (Some tmin) None); [reflexivity | | |].
    + apply insert_non_empty.
    + unfold bound_of. rewrite lookup_singleton_eq. eauto.
    + unfold bound_of. rewrite lookup_singleton_ne by discriminate. reflexivity.
  - rewrite (evaluate_mask_dict _ data w (Some tmin) (Some tmax)); [reflexivity | | |].
    + apply insert_non_empty.
    + unfold bound_of. rewrite lookup_insert_ne by discriminate.
      rewrite lookup_singleton_eq. eauto.
    + unfold bound_of. rewrite lookup_insert_eq. eauto.
  - apply np_map_le. intros v. apply in_mask_max_le.
  - intros i j. rewrite !np_map_at. destruct (Np.at_ data i j) as [v|]; [| discriminate].
    cbn. pose proof (in_mask_max_le (Some tmin) tmax v) as H.
    destruct (in_mask (Some tmin) (Some tmax) v); [| discriminate].
    destruct (in_mask (Some tmin) None v); [reflexivity | lia].
Qed.

Lemma mask_monotone_witness :
  exists only_min both,
    fst (evaluate_mask (PyDict {[ "min" := PyInt 10 ]}) [[5; -9999; 12; 40]]%float
           Sample.fresh) = Return (ArrU8 only_min, 0)
    /\ fst (evaluate_mask (PyDict (<[ "max" := PyFloat 30 ]> {[ "min" := PyInt 10 ]}))
              [[5; -9999; 12; 40]]%float Sample.fresh) = Return (ArrU8 both, 0)
    /\ Forall2 (Forall2 Z.le) both only_min
    /\ (forall i j, Np.at_ both i j = Some 1 -> Np.at_ only_min i j = Some 1).
Proof.
  apply (mask_monotone (PyInt 10) (PyFloat 30) 10%float 30%float
           [[5; -9999; 12; 40]]%float Sample.fresh).
  - vm_compute; reflexivity.
  - reflexivity.
Defined.

Lemma export_vector (eng : Engine) (mask_cfg : pyval) (name : string)
    (final_data : ndarray) (current_nodata : Z) (ds_proc : Raster) (w : World) :
  Py.endswith (Py.lower name) ".gpkg" = true ->
  export eng mask_cfg (PyStr name) final_data current_nodata ds_proc w
  = _save_as_vector eng final_data ds_proc name (note (Log (MsgExportVector (PyStr name))) w).
Proof. intros H. unfold export. rewrite H. reflexivity. Qed.

(** The temporary byte raster [_save_as_vector] polygonizes. *)
Lemma save_as_vector_polygonizes (eng : Engine) (data : ndarray) (source_ds : Raster)
    (output_path : string) (w : World) :
  In (Polygonize {| RasterXSize := RasterXSize source_ds;
                    RasterYSize := RasterYSize source_ds;
                    Projection := Projection source_ds;
                    GeoTransform := GeoTransform source_ds;
                    DataType := GDT_Byte;
                    NoDataValue := Some (PyInt 0);
                    Bands := [data] |} output_path)
     (trace (snd (_save_as_vector eng data source_ds output_path w))).
Proof.
  unfold _save_as_vector. lazy zeta.
  set (tmp_ds := {| RasterXSize := _ |}).
  set (layer := {| LayerName := _ |}).
  assert (Hpoly : forall w1,
            exists rest, trace (snd (gdal_polygonize eng tmp_ds output_path layer w1))
                         = trace w1 ++ Polygonize tmp_ds output_path :: rest).
  { intros w1. unfold gdal_polygonize. lazy zeta.
    rewrite bind_unfold, emit_note. cbv beta iota.
    pose proof (steady_report_progress (poly_progress (gdal_Polygonize eng tmp_ds))) as _.
    assert (Hgrow : forall cs w2, exists rest,
               trace (snd (report_progress cs w2)) = trace w2 ++ rest).
    { induction cs as [|c cs IH]; intros w2.
      - exists []. symmetry. apply app_nil_r.
      - cbn [report_progress]. rewrite bind_unfold.
        destruct (percent_of c) as [p|e|] eqn:Ep.
        + rewrite (progress_callback_spec c p w2 Ep).
          destruct (IH (relay_step p w2)) as (rest & Hrest). rewrite Hrest.
          unfold relay_step; cbn [trace]. rewrite <- app_assoc. eauto.
        + unfold progress_callback. rewrite bind_unfold. unfold lift. rewrite Ep.
          exists []. symmetry. apply app_nil_r.
        + unfold progress_callback. rewrite bind_unfold. unfold lift. rewrite Ep.
          exists []. symmetry. apply app_nil_r. }
    rewrite bind_unfold.
    destruct (Hgrow (poly_progress (gdal_Polygonize eng tmp_ds))
                (note (Polygonize tmp_ds output_path) w1)) as (rest & Hrest).
    destruct (report_progress _ _) as [[[]|e|] w3]; cbn [snd] in Hrest |- *.
    - exists rest.
      destruct (poly_result _); unfold mbind, M_bind, set_file, raise; cbn [snd trace];
        rewrite Hrest; cbn [note trace]; rewrite <- app_assoc; reflexivity.
    - exists rest. rewrite Hrest. cbn [note trace]. rewrite <- app_assoc. reflexivity.
    - exists rest. rewrite Hrest. cbn [note trace]. rewrite <- app_assoc. reflexivity. }
  rewrite bind_unfold. unfold get_world. cbv beta iota.
  destruct (bool_decide (is_Some (files w !! output_path)));
    unfold mbind, M_bind, emit, remove_file, set_file, mret, M_ret; cbv beta iota;
    match goal with
    | |- context [gdal_polygonize eng tmp_ds output_path layer ?w1] =>
        destruct (Hpoly w1) as (rest & Hrest)
    end;
    rewrite Hrest; apply in_or_app; right; left; reflexivity.
Qed.

(** C3 (amended): with an output path ending in .gpkg and no [mask], the
    evaluator returns the continuous float grid with nodata -9999 and the
    exporter passes that grid to the vector export, which writes it into a
    byte raster and polygonizes it; no error is raised for the
    combination. *)
Theorem vector_export_without_mask (eng : Engine) (self : OpenDEM) (name : string)
    (data : grid float) (ds_proc : Raster) (w : World) :
  config self !! "mask" = None ->
  config self !! "output" = Some (PyStr name) ->
  Py.endswith (Py.lower name) ".gpkg" = true ->
  let mask_cfg := Py.get (config self) "mask" in
  let output_name := Py.get (config self) "output" in
  let w1 := note (Log MsgNoMask) w in
  let w2 := note (Log (MsgExportVector (PyStr name))) w1 in
  evaluate_mask mask_cfg data w = (Return (ArrF64 data, nodata_val), w1)
  /\ export eng mask_cfg output_name (ArrF64 data) nodata_val ds_proc w1
     = _save_as_vector eng (ArrF64 data) ds_proc name w2
  /\ In (Polygonize {| RasterXSize := RasterXSize ds_proc;
                       RasterYSize := RasterYSize ds_proc;
                       Projection := Projection ds_proc;
                       GeoTransform := GeoTransform ds_proc;
                       DataType := GDT_Byte;
                       NoDataValue := Some (PyInt 0);
                       Bands := [ArrF64 data] |} name)
        (trace (snd (export eng mask_cfg output_name (ArrF64 data) nodata_val ds_proc w1))).
Proof.
  intros Hmask Hout Hext mask_cfg output_name w1 w2.
  assert (Em : mask_cfg = PyNone) by (unfold mask_cfg, Py.get; rewrite Hmask; reflexivity).
  assert (Eo : output_name = PyStr name)
    by (unfold output_name, Py.get; rewrite Hout; reflexivity).
  rewrite Em, Eo.
  split; [apply evaluate_mask_falsy; reflexivity |].
  rewrite (export_vector eng PyNone name _ _ _ w1 Hext). fold w2.
  split; [reflexivity | apply save_as_vector_polygonizes].
Qed.

Lemma vector_export_without_mask_witness :
  let self := Sample.app "steep.GPKG" None in
  let data := [[5; -9999; 12]]%float in
  let mask_cfg := Py.get (config self) "mask" in
  let output_name := Py.get (config self) "output" in
  let w1 := note (Log MsgNoMask) Sample.fresh in
  let w2 := note (Log (MsgExportVector (PyStr "steep.GPKG"))) w1 in
  evaluate_mask mask_cfg data Sample.fresh = (Return (ArrF64 data, nodata_val), w1)
  /\ export Sample.engine mask_cfg output_name (ArrF64 data) nodata_val Sample.slope w1
     = _save_as_vector Sample.engine (ArrF64 data) Sample.slope "steep.GPKG" w2
  /\ In (Polygonize {| RasterXSize := RasterXSize Sample.slope;
                       RasterYSize := RasterYSize Sample.slope;
                       Projection := Projection Sample.slope;
                       GeoTransform := GeoTransform Sample.slope;
                       DataType := GDT_Byte;
                       NoDataValue := Some (PyInt 0);
                       Bands := [ArrF64 data] |} "steep.GPKG")
        (trace (snd (export Sample.engine mask_cfg output_name (ArrF64 data) nodata_val
                       Sample.slope w1))).
Proof.
  apply (vector_export_without_mask Sample.engine (Sample.app "steep.GPKG" None)
           "steep.GPKG" [[5; -9999; 12]]%float Sample.slope Sample.fresh);
    reflexivity.
Defined.

(** C3 as stated fails: a whole run with output [steep.gpkg] and no
    [mask] raises nothing and leaves a vector file at the output path. *)
Lemma vector_export_without_mask_no_error :
  fst (run Sample.engine (Sample.app "steep.gpkg" None) Sample.fresh) = Return tt
  /\ ~ (exists e, fst (run Sample.engine (Sample.app "steep.gpkg" None) Sample.fresh)
                  = Raise e)
  /\ files (snd (run Sample.engine (Sample.app "steep.gpkg" None) Sample.fresh))
       !! "steep.gpkg"
     = Some (VectorFile
               {| LayerName := "mask"; LayerSRS := "EPSG:3857"; FieldNames := ["dn"];
                  Features := [ {| geometry := "POLYGON ((0 0,30 0,30 -30,0 -30,0 0))";
                                   dn := 1 |} ] |}).
Proof.
  assert (E : fst (run Sample.engine (Sample.app "steep.gpkg" None) Sample.fresh)
              = Return tt) by (vm_compute; reflexivity).
  split; [exact E |]. split.
  - rewrite E. intros [e H]. discriminate.
  - vm_compute. reflexivity.
Qed.

(** C4 (the code fails here): on an output path that does not end in
    .gpkg the exporter calls [_save_raster] with a [dtype] keyword the
    method does not declare, so the call is a [TypeError] and no raster
    is created, whatever the mask. *)
Theorem raster_export_type_error (eng : Engine) (mask_cfg : pyval) (name : string)
    (final_data : ndarray) (current_nodata : Z) (ds_proc : Raster) (w : World) :
  Py.endswith (Py.lower name) ".gpkg" = false ->
  export eng mask_cfg (PyStr name) final_data current_nodata ds_proc w
  = (Raise (TypeError "_save_raster() got an unexpected keyword argument 'dtype'"),
     note (Log (MsgExportRaster (PyStr name))) w).
Proof.
  intros H. unfold export. rewrite H.
  rewrite bind_unfold. unfold log. rewrite emit_note. cbv beta iota.
  unfold call_save_raster. rewrite bind_unfold. reflexivity.
Qed.

Lemma raster_export_type_error_witness :
  export Sample.engine PyNone (PyStr "slope.tif") (ArrF64 [[5; -9999; 12]]%float)
    nodata_val Sample.slope Sample.fresh
  = (Raise (TypeError "_save_raster() got an unexpected keyword argument 'dtype'"),
     note (Log (MsgExportRaster (PyStr "slope.tif"))) Sample.fresh).
Proof.
  apply (raster_export_type_error Sample.engine PyNone "slope.tif"
           (ArrF64 [[5; -9999; 12]]%float) nodata_val Sample.slope Sample.fresh).
  reflexivity.
Defined.

(** A whole run with a raster output stops on that [TypeError], masked
    or not, and leaves nothing at the output path. *)
Lemma raster_run_fails :
  fst (run Sample.engine (Sample.app "slope.tif" None) Sample.fresh)
  = Raise (TypeError "_save_raster() got an unexpected keyword argument 'dtype'")
  /\ files (snd (run Sample.engine (Sample.app "slope.tif" None) Sample.fresh))
       !! "slope.tif" = None
  /\ fst (run Sample.engine
            (Sample.app "steep.tif" (Some (PyDict {[ "min" := PyInt 10 ]}))) Sample.fresh)
     = Raise (TypeError "_save_raster() got an unexpected keyword argument 'dtype'")
  /\ files (snd (run Sample.engine
                   (Sample.app "steep.tif" (Some (PyDict {[ "min" := PyInt 10 ]})))
                   Sample.fresh))
       !! "steep.tif" = None.
Proof. repeat split; vm_compute; reflexivity. Qed.

(** ** The fuel of the retry loop is enough *)

Lemma terminates_ret {A} (a : A) : terminates (mret a : M A).
Proof. intros w. discriminate. Qed.

Lemma terminates_raise {A} (e : exn) : terminates (raise e : M A).
Proof. intros w. discriminate. Qed.

Lemma terminates_lift {A} (o : outcome A) : o <> OutOfFuel -> terminates (lift o).
Proof. intros H w. exact H. Qed.

Lemma terminates_get_world : terminates get_world.
Proof. intros w. discriminate. Qed.

Lemma terminates_emit (e : Event) : terminates (emit e).
Proof. intros w. discriminate. Qed.

Lemma terminates_set_file (path : string) (a : Artifact) : terminates (set_file path a).
Proof. intros w. discriminate. Qed.

Lemma terminates_remove_file (path : string) : terminates (remove_file path).
Proof. intros w. discriminate. Qed.

Lemma terminates_leave (path : string) (left : option Artifact) :
  terminates (leave path left).
Proof. intros w. destruct left; discriminate. Qed.

Lemma terminates_set_last (p : Z) : terminates (set_last_gdal_p p).
Proof. intros w. discriminate. Qed.

Lemma terminates_bind {A B} (m : M A) (k : A -> M B) :
  terminates m -> (forall a, terminates (k a)) -> terminates (m ≫= k).
Proof.
  intros Hm Hk w. rewrite bind_unfold. specialize (Hm w).
  destruct (m w) as [[a|e|] w']; cbn [fst] in *;
    [apply Hk | discriminate | exfalso; apply Hm; reflexivity].
Qed.

Lemma terminates_try {A} (body : M A) (handler : string -> M A) :
  terminates body -> (forall e, terminates (handler e)) ->
  terminates (try_except_RuntimeError body handler).
Proof.
  intros Hb Hh w. unfold try_except_RuntimeError. specialize (Hb w).
  destruct (body w) as [[a|e|] w']; cbn [fst] in *; try discriminate; [| exact Hb].
  destruct e; try discriminate. apply Hh.
Qed.

(** One step in showing that a computation terminates. *)
Ltac terminates_step :=
  lazymatch goal with
  | |- terminates (mret _) => apply terminates_ret
  | |- terminates (raise _) => apply terminates_raise
  | |- terminates get_world => apply terminates_get_world
  | |- terminates (set_file _ _) => apply terminates_set_file
  | |- terminates (remove_file _) => apply terminates_remove_file
  | |- terminates (leave _ _) => apply terminates_leave
  | |- terminates (set_last_gdal_p _) => apply terminates_set_last
  | |- terminates (emit _) => apply terminates_emit
  | |- terminates (log _) => apply terminates_emit
  | |- terminates (lift _) =>
      apply terminates_lift;
      unfold Py.has_key, Py.subscript, Py.getitem, Py.scalar, percent_of, Np.reduce,
        bind_keywords;
      repeat case_match; discriminate
  | |- terminates (_ ≫= _) => apply terminates_bind; [| intros ?]
  | |- terminates (try_except_RuntimeError _ _) => apply terminates_try; [| intros ?]
  | |- terminates (let _ := _ in _) => lazy zeta
  | |- terminates (if ?b then _ else _) => destruct b
  | |- terminates (match ?x with _ => _ end) => destruct x
  end.

Ltac terminates := repeat terminates_step.

Lemma bind_return_inv {A B} (m : M A) (k : A -> M B) (w w' : World) (b : B) :
  (m ≫= k) w = (Return b, w') ->
  exists a w1, m w = (Return a, w1) /\ k a w1 = (Return b, w').
Proof.
  rewrite bind_unfold. destruct (m w) as [[a|e|] w1]; try discriminate.
  intros H. exists a, w1. split; [reflexivity | exact H].
Qed.

Section Termination.

Context (eng : Engine).

Lemma terminates_progress_callback (c : float) : terminates (progress_callback c).
Proof. unfold progress_callback. terminates. Qed.

Lemma terminates_report_progress (cs : list float) : terminates (report_progress cs).
Proof.
induction cs as [|c cs IH]; cbn [report_progress]; terminates;
  [apply terminates_progress_callback | exact IH].
Qed.

Lemma terminates_gdal_warp (a : WarpArgs) : terminates (gdal_warp eng a).
Proof. unfold gdal_warp. terminates; apply terminates_report_progress. Qed.

Lemma terminates_gdal_open (path : string) : terminates (gdal_open path).
Proof. unfold gdal_open. terminates. Qed.

Lemma terminates_read_band (ds : Raster) (i : nat) : terminates (read_band ds i).
Proof. unfold read_band. terminates. Qed.

Lemma terminates_call_save_raster data ds path kwargs :
terminates (call_save_raster data ds path kwargs).
Proof. unfold call_save_raster, _save_raster. terminates. Qed.

Lemma terminates_save_as_vector data ds path :
terminates (_save_as_vector eng data ds path).
Proof.
unfold _save_as_vector, gdal_polygonize. terminates; apply terminates_report_progress.
Qed.

Lemma terminates_threshold mask_cfg key cmp data condition :
terminates (threshold mask_cfg key cmp data condition).
Proof. unfold threshold. terminates. Qed.

Lemma terminates_evaluate_mask mask_cfg data : terminates (evaluate_mask mask_cfg data).
Proof. unfold evaluate_mask. terminates; apply terminates_threshold. Qed.

Lemma terminates_export mask_cfg output_name final_data current_nodata ds_proc :
terminates (export eng mask_cfg output_name final_data current_nodata ds_proc).
Proof.
unfold export. terminates;
  first [apply terminates_save_as_vector | apply terminates_call_save_raster].
Qed.

Lemma terminates_execute_process self dem_path :
terminates (_execute_process eng self dem_path).
Proof.
unfold _execute_process, _get_clipping_path, gdal_dem_processing. terminates;
  first [apply terminates_gdal_warp | apply terminates_gdal_open
        | apply terminates_read_band | apply terminates_evaluate_mask
        | apply terminates_export].
Qed.

Lemma terminates_generate_vrt self : terminates (_generate_vrt eng self).
Proof. unfold _generate_vrt. terminates. Qed.

Lemma terminates_warp_attempt self vrt_path temp_rgb attempt :
terminates (warp_attempt eng self vrt_path temp_rgb attempt).
Proof. unfold warp_attempt. terminates; apply terminates_gdal_warp. Qed.

(** A turn that returns has succeeded, or has used up one attempt. *)
Lemma warp_attempt_returns self vrt_path temp_rgb attempt w st w' :
warp_attempt eng self vrt_path temp_rgb attempt w = (Return st, w') ->
st = (attempt, true) \/ st = (attempt + 1, false).
Proof.
unfold warp_attempt, try_except_RuntimeError.
match goal with |- context [match ?body w with _ => _ end] => destruct (body w) as [[a|e|] w1] eqn:Eb end.
- intros H. injection H as <- <-. left.
  repeat (apply bind_return_inv in Eb; destruct Eb as (? & ? & _ & Eb)).
  injection Eb as <- _. reflexivity.
- destruct e; try discriminate.
  destruct (network_glitch msg); [| discriminate].
  rewrite bind_unfold. unfold log. rewrite emit_note. cbv beta iota.
  destruct (attempt + 1 <? max_retries); [| discriminate].
  intros H. injection H as <- _. right. reflexivity.
- discriminate.
Qed.

Lemma terminates_warp_loop self vrt_path temp_rgb :
forall (fuel : nat) (attempt : Z) (success : bool),
  success = true \/ (Z.to_nat (max_retries - attempt) <= fuel)%nat ->
  terminates (warp_loop eng fuel self vrt_path temp_rgb attempt success).
Proof.
induction fuel as [|fuel IH]; intros attempt success Hf w.
- cbn [warp_loop]. destruct (attempt <? max_retries) eqn:E; [| discriminate].
  destruct success; [discriminate |]. exfalso.
  apply Z.ltb_lt in E. destruct Hf as [|Hf]; [discriminate | lia].
- cbn [warp_loop]. destruct ((attempt <? max_retries) && negb success) eqn:E;
    [| discriminate].
  apply andb_true_iff in E as [E Hs]. apply Z.ltb_lt in E.
  rewrite bind_unfold.
  destruct (warp_attempt eng self vrt_path temp_rgb attempt w) as [[st|e|] w1] eqn:Ea.
  + apply IH. apply warp_attempt_returns in Ea. destruct Ea as [-> | ->]; cbn [fst snd].
    * left. reflexivity.
    * right. destruct Hf as [Hf|Hf]; [subst success; discriminate | lia].
  + discriminate.
  + pose proof (terminates_warp_attempt self vrt_path temp_rgb attempt w) as H.
    rewrite Ea in H. exfalso. apply H. reflexivity.
Qed.

Lemma terminates_acquire self : terminates (acquire eng self).
Proof.
unfold acquire. terminates; [apply terminates_generate_vrt |].
apply terminates_warp_loop. right. rewrite Z.sub_0_r. lia.
Qed.

(** Whatever the engine answers, [run] and [main] return or raise. *)
Lemma terminates_run self : terminates (run eng self).
Proof.
unfold run. terminates;
  first [apply terminates_acquire | apply terminates_gdal_open
        | apply terminates_read_band | apply terminates_call_save_raster
        | apply terminates_execute_process].
Qed.

Lemma terminates_main config_path loaded : terminates (main eng config_path loaded).
Proof.
unfold main, __init__. terminates. apply terminates_run.
Qed.

End Termination.

(** ** What holds of every call of the pipeline *)

Section Follows.

Context (R : World -> World -> Prop).
Hypothesis R_refl : forall w, R w w.
Hypothesis R_trans : forall w1 w2 w3, R w1 w2 -> R w2 w3 -> R w1 w3.

Lemma follows_ret {A} (a : A) : follows R (mret a : M A).
Proof. intros w. apply R_refl. Qed.

Lemma follows_raise {A} (e : exn) : follows R (raise e : M A).
Proof. intros w. apply R_refl. Qed.

Lemma follows_out_of_fuel {A} : follows R (out_of_fuel : M A).
Proof. intros w. apply R_refl. Qed.

Lemma follows_lift {A} (o : outcome A) : follows R (lift o).
Proof. intros w. apply R_refl. Qed.

Lemma follows_get_world : follows R get_world.
Proof. intros w. apply R_refl. Qed.

Lemma follows_bind {A B} (m : M A) (k : A -> M B) :
  follows R m -> (forall a, follows R (k a)) -> follows R (m ≫= k).
Proof.
  intros Hm Hk w. rewrite bind_unfold. specialize (Hm w).
  destruct (m w) as [[a|e|] w']; cbn [snd] in *; [| exact Hm | exact Hm].
  eapply R_trans; [exact Hm | apply Hk].
Qed.

Lemma follows_try {A} (body : M A) (handler : string -> M A) :
  follows R body -> (forall e, follows R (handler e)) ->
  follows R (try_except_RuntimeError body handler).
Proof.
  intros Hb Hh w. unfold try_except_RuntimeError. specialize (Hb w).
  destruct (body w) as [[a|e|] w']; cbn [snd] in *; try exact Hb.
  destruct e; try exact Hb.
  eapply R_trans; [exact Hb | apply Hh].
Qed.

(** The pipeline follows [R] when its primitive steps do: the events
    other than the relay's log lines, the warps and the sleeps; the
    writes and deletions at the paths in [touch]; and the engine's
    progress reports. *)
Context (eng : Engine) (touch : string -> Prop).
Hypothesis R_event : forall e w, logged [e] = [] -> schedule [e] = [] -> R w (note e w).
Hypothesis R_warp : forall a w, R w (note (Warp a) w).
Hypothesis R_sleep : forall s w, R w (note (Sleep s) w).
Hypothesis R_write : forall path a w, touch path -> R w (with_file path a w).
Hypothesis R_delete : forall path w, touch path -> R w (without_file path w).
Hypothesis R_warp_progress : forall k fs a,
  follows R (report_progress (warp_progress (gdal_Warp eng k fs a))).
Hypothesis R_poly_progress : forall r,
  follows R (report_progress (poly_progress (gdal_Polygonize eng r))).

Lemma follows_emit (e : Event) :
  logged [e] = [] -> schedule [e] = [] -> follows R (emit e).
Proof. intros H1 H2 w. apply R_event; assumption. Qed.

Lemma follows_emit_warp (a : WarpArgs) : follows R (emit (Warp a)).
Proof. intros w. apply R_warp. Qed.

Lemma follows_emit_sleep (s : Z) : follows R (emit (Sleep s)).
Proof. intros w. apply R_sleep. Qed.

Lemma follows_set_file (path : string) (a : Artifact) :
  touch path -> follows R (set_file path a).
Proof. intros H w. apply R_write, H. Qed.

Lemma follows_remove_file (path : string) : touch path -> follows R (remove_file path).
Proof. intros H w. apply R_delete, H. Qed.

Lemma follows_leave (path : string) (left : option Artifact) :
  touch path -> follows R (leave path left).
Proof.
  intros H. destruct left; [apply follows_set_file, H | apply follows_ret].
Qed.

Ltac follows_step :=
  lazymatch goal with
  | |- follows _ (mret _) => apply follows_ret
  | |- follows _ (raise _) => apply follows_raise
  | |- follows _ out_of_fuel => apply follows_out_of_fuel
  | |- follows _ (lift _) => apply follows_lift
  | |- follows _ get_world => apply follows_get_world
  | |- follows _ (set_file _ _) => apply follows_set_file; assumption
  | |- follows _ (remove_file _) => apply follows_remove_file; assumption
  | |- follows _ (leave _ _) => apply follows_leave; assumption
  | |- follows _ (report_progress (warp_progress _)) => apply R_warp_progress
  | |- follows _ (report_progress (poly_progress _)) => apply R_poly_progress
  | |- follows _ (emit (Warp _)) => apply follows_emit_warp
  | |- follows _ (emit (Sleep _)) => apply follows_emit_sleep
  | |- follows _ (emit _) => apply follows_emit; reflexivity
  | |- follows _ (log _) => apply follows_emit; reflexivity
  | |- follows _ (_ ≫= _) => apply follows_bind; [| intros ?]
  | |- follows _ (try_except_RuntimeError _ _) => apply follows_try; [| intros ?]
  | |- follows _ (let _ := _ in _) => lazy zeta
  | |- follows _ (if ?b then _ else _) => destruct b
  | |- follows _ (match ?x with _ => _ end) => destruct x
  end.

Lemma follows_gdal_warp (a : WarpArgs) : touch (destName a) -> follows R (gdal_warp eng a).
Proof. intros H. unfold gdal_warp. repeat follows_step. Qed.

Lemma follows_gdal_open (path : string) : follows R (gdal_open path).
Proof. unfold gdal_open. repeat follows_step. Qed.

Lemma follows_read_band (ds : Raster) (i : nat) : follows R (read_band ds i).
Proof. unfold read_band. repeat follows_step. Qed.

Lemma follows_call_save_raster data ds path kwargs :
  touch path -> follows R (call_save_raster data ds path kwargs).
Proof. intros H. unfold call_save_raster, _save_raster. repeat follows_step. Qed.

Lemma follows_save_as_vector data ds path :
  touch path -> follows R (_save_as_vector eng data ds path).
Proof. intros H. unfold _save_as_vector, gdal_polygonize. repeat follows_step. Qed.

Lemma follows_threshold mask_cfg key cmp data condition :
  follows R (threshold mask_cfg key cmp data condition).
Proof. unfold threshold. repeat follows_step. Qed.

Lemma follows_evaluate_mask mask_cfg data : follows R (evaluate_mask mask_cfg data).
Proof. unfold evaluate_mask. repeat follows_step; apply follows_threshold. Qed.

Lemma follows_export mask_cfg output_name final_data current_nodata ds_proc :
  (forall name, output_name = PyStr name -> touch name) ->
  follows R (export eng mask_cfg output_name final_data current_nodata ds_proc).
Proof.
  intros H. unfold export. destruct output_name; try apply follows_raise.
  specialize (H s eq_refl).
  repeat follows_step;
    first [apply follows_save_as_vector | apply follows_call_save_raster]; exact H.
Qed.

Lemma follows_execute_process self dem_path :
  touch (Py.path_join (cache_dir self) "temp_proc.tif") ->
  touch (Py.path_join (cache_dir self) "final_clipped.tif") ->
  (forall name, Py.get (config self) "output" = PyStr name -> touch name) ->
  follows R (_execute_process eng self dem_path).
Proof.
  intros H1 H2 H3.
  unfold _execute_process, _get_clipping_path, gdal_dem_processing.
  repeat follows_step;
    first [apply follows_gdal_warp; exact H2 | apply follows_gdal_open
          | apply follows_read_band | apply follows_evaluate_mask
          | apply follows_export; exact H3].
Qed.

Lemma follows_generate_vrt self :
  touch (Py.path_join (cache_dir self) "source.vrt") -> follows R (_generate_vrt eng self).
Proof. intros H. unfold _generate_vrt. repeat follows_step. Qed.

Lemma follows_warp_attempt self vrt_path temp_rgb attempt :
  touch temp_rgb -> follows R (warp_attempt eng self vrt_path temp_rgb attempt).
Proof.
  intros H. unfold warp_attempt. repeat follows_step. apply follows_gdal_warp. exact H.
Qed.

Lemma follows_warp_loop fuel self vrt_path temp_rgb attempt success :
  touch temp_rgb ->
  follows R (warp_loop eng fuel self vrt_path temp_rgb attempt success).
Proof.
  intros H. revert attempt success.
  induction fuel as [|fuel IH]; intros attempt success; cbn [warp_loop].
  - repeat follows_step.
  - repeat follows_step; [apply follows_warp_attempt; exact H | apply IH].
Qed.

Lemma follows_acquire self :
  touch (Py.path_join (cache_dir self) "source.vrt") ->
  touch (Py.path_join (cache_dir self) "temp_rgb.tif") ->
  follows R (acquire eng self).
Proof.
  intros H1 H2. unfold acquire.
  repeat follows_step; [apply follows_generate_vrt; exact H1 | apply follows_warp_loop; exact H2].
Qed.

Lemma follows_run self :
  touch (Py.path_join (cache_dir self) "source.vrt") ->
  touch (Py.path_join (cache_dir self) "temp_rgb.tif") ->
  touch (Py.path_join (cache_dir self) "base_elevation.tif") ->
  touch (Py.path_join (cache_dir self) "temp_proc.tif") ->
  touch (Py.path_join (cache_dir self) "final_clipped.tif") ->
  (forall name, Py.get (config self) "output" = PyStr name -> touch name) ->
  follows R (run eng self).
Proof.
  intros H1 H2 H3 H4 H5 H6. unfold run.
  repeat follows_step;
    first [apply follows_acquire; assumption | apply follows_gdal_open
          | apply follows_read_band | apply follows_call_save_raster; assumption
          | apply follows_execute_process; assumption].
Qed.

Lemma follows_init config_path loaded : follows R (__init__ config_path loaded).
Proof. unfold __init__. repeat follows_step. Qed.

End Follows.

(** ** The relay's calls, whatever the fractions *)

Lemma progress_callback_cases (c : float) (w : World) :
  (exists p, percent_of c = Return p /\ progress_callback c w = (Return 1, relay_step p w))
  \/ (exists e, progress_callback c w = (Raise e, w)).
Proof.
  destruct (percent_of c) as [p|e|] eqn:E.
  - left. exists p. split; [reflexivity | apply progress_callback_spec, E].
  - right. exists e. unfold progress_callback. rewrite bind_unfold. unfold lift.
    rewrite E. reflexivity.
  - exfalso. revert E. unfold percent_of. repeat case_match; discriminate.
Qed.


Lemma report_progress_trace (cs : list float) (w : World) :
  exists logs, trace (snd (report_progress cs w)) = trace w ++ logs
               /\ Forall is_progress_log logs.
Proof.
  revert w. induction cs as [|c cs IH]; intros w.
  - exists []. split; [symmetry; apply app_nil_r | constructor].
  - cbn [report_progress]. rewrite bind_unfold.
    destruct (progress_callback_cases c w) as [(p & _ & E) | (e & E)]; rewrite E.
    + destruct (IH (relay_step p w)) as (logs & Ht & Hl). rewrite Ht.
      unfold relay_step; cbn [trace]. rewrite <- app_assoc.
      eexists. split; [reflexivity |].
      apply Forall_app. split; [| exact Hl].
      destruct (_ && _); repeat constructor. eexists; reflexivity.
    + exists []. split; [symmetry; apply app_nil_r | constructor].
Qed.

Lemma schedule_progress_logs (logs : list Event) :
  Forall is_progress_log logs -> schedule logs = [].
Proof.
  induction 1 as [|e logs [p ->] _ IH]; [reflexivity | exact IH].
Qed.

Lemma warp_count_progress_logs (logs : list Event) :
  Forall is_progress_log logs -> warp_count logs = O.
Proof.
  induction 1 as [|e logs [p ->] _ IH]; [reflexivity | exact IH].
Qed.

(** ** Which files a run can touch *)

Lemma prefix_append (a b : string) : String.prefix a (a +:+ b) = true.
Proof.
  induction a as [|c a IH]; simpl.
  - destruct b; reflexivity.
  - destruct (ascii_dec c c) as [_|N]; [exact IH | contradiction].
Qed.











(** ** How many lines the relay can log *)

Lemma relay_step_marks (p : Z) (w : World) :
  0 <= p <= 100 -> marks_only w -> marks_only (relay_step p w).
Proof.
  unfold marks_only. intros Hp Hw. rewrite relay_step_logged.
  apply Forall_app. split; [exact Hw |].
  destruct (last_seen w <? p); cbn [andb]; [| constructor].
  destruct (p `mod` 5 =? 0) eqn:E; [| constructor].
  apply Z.eqb_eq in E. repeat constructor; [exact E | lia | lia].
Qed.

Lemma report_progress_marks (cs : list float) (w : World) :
  Forall in_percent_range cs -> marks_only w -> marks_only (snd (report_progress cs w)).
Proof.
  intros H. revert w. induction H as [|c cs (p & Hp & Hr) _ IH]; intros w Hw; [exact Hw |].
  cbn [report_progress]. rewrite (bind_return _ _ _ _ _ (progress_callback_spec c p w Hp)).
  apply IH, relay_step_marks; assumption.
Qed.

(** Strictly increasing multiples of 5 from [5 * lo] to 100 are at most
    [21 - lo] many. *)
Lemma sorted_marks_length (l : list Z) :
  StronglySorted Z.lt l ->
  forall lo, 0 <= lo <= 21 ->
    Forall (fun p => progress_mark p /\ 5 * lo <= p) l ->
    Z.of_nat (length l) <= 21 - lo.
Proof.
  induction 1 as [|h l Hs IH Hh]; intros lo Hlo Hall.
  - cbn. lia.
  - inversion Hall as [|? ? [[Hm Hr] Hge] Hrest]; subst.
    cbn [length]. rewrite Nat2Z.inj_succ.
    assert (Hq : h = 5 * (h / 5)) by (rewrite (Z.div_mod h 5) at 1; lia).
    specialize (IH (h / 5 + 1) ltac:(lia)).
    enough (Z.of_nat (length l) <= 21 - (h / 5 + 1)) by lia.
    apply IH. rewrite Forall_forall in Hh, Hrest |- *.
    intros p Hp. destruct (Hrest p Hp) as [[Hpm Hpr] _]. specialize (Hh p Hp).
    split; [split; assumption |].
    assert (Hpq : p = 5 * (p / 5)) by (rewrite (Z.div_mod p 5) at 1; lia).
    lia.
Qed.

(** X3: When the engine reports fractions whose whole percents lie between 0
    and 100, a run started with no progress logged logs only multiples of 5
    between 0 and 100, each at most once: at most 21 progress lines over
    the warp and the polygon extraction together. *)
Theorem run_logs_at_most_21_lines (eng : Engine) (self : OpenDEM) (w : World) :
  (forall k fs a, Forall in_percent_range (warp_progress (gdal_Warp eng k fs a))) ->
  (forall r, Forall in_percent_range (poly_progress (gdal_Polygonize eng r))) ->
  logged (trace w) = [] ->
  Forall progress_mark (logged (trace (snd (run eng self w))))
  /\ (length (logged (trace (snd (run eng self w)))) <= 21)%nat.
Proof.
  intros Hwarp Hpoly Hnone.
  assert (Hmarks : marks_only (snd (run eng self w))).
  { apply (follows_run (fun w1 w2 => marks_only w1 -> marks_only w2)
             (fun _ H => H) (fun _ _ _ H1 H2 H => H2 (H1 H)) eng (fun _ => True)); auto.
    - intros e w0 He _. unfold marks_only, note; cbn [trace].
      rewrite logged_app, He, app_nil_r. auto.
    - intros a w0. unfold marks_only, note; cbn [trace].
      rewrite logged_app, app_nil_r. auto.
    - intros s w0. unfold marks_only, note; cbn [trace].
      rewrite logged_app, app_nil_r. auto.
    - intros k fs a w0. apply report_progress_marks, Hwarp.
    - intros r w0. apply report_progress_marks, Hpoly.
    - unfold marks_only. rewrite Hnone. constructor. }
  split; [exact Hmarks |].
  destruct (steady_run eng self w) as (_ & _ & Hok).
  destruct Hok as [Hsorted _].
  { unfold relay_ok. rewrite Hnone. split; constructor. }
  pose proof (sorted_marks_length _ Hsorted 0 ltac:(lia)) as Hlen.
  enough (Z.of_nat (length (logged (trace (snd (run eng self w))))) <= 21 - 0) by lia.
  apply Hlen. eapply Forall_impl; [exact Hmarks |].
  intros p [Hm Hr]. split; [split; assumption | lia].
Qed.

Lemma run_logs_at_most_21_lines_witness :
  Forall progress_mark
    (logged (trace (snd (run Sample.engine (Sample.app "steep.gpkg" None) Sample.fresh))))
  /\ (length (logged (trace (snd (run Sample.engine (Sample.app "steep.gpkg" None)
                                    Sample.fresh)))) <= 21)%nat.
Proof.
  apply (run_logs_at_most_21_lines Sample.engine (Sample.app "steep.gpkg" None)
           Sample.fresh).
  - intros k fs a. repeat constructor; [exists 0 | exists 50 | exists 100];
      (split; [vm_compute; reflexivity | lia]).
  - intros r. repeat constructor; [exists 50 | exists 100];
      (split; [vm_compute; reflexivity | lia]).
  - reflexivity.
Defined.

(** ** The retry loop, whatever the engine answers *)

Lemma gdal_warp_cases (eng : Engine) (a : WarpArgs) (w : World) :
  schedule (trace (snd (gdal_warp eng a w))) = schedule (trace w) ++ [Attempt]
  /\ ((exists r, fst (gdal_warp eng a w) = Return tt
                 /\ files (snd (gdal_warp eng a w)) !! destName a = Some (RasterFile r))
      \/ exists e, fst (gdal_warp eng a w) = Raise e).
Proof.
  unfold gdal_warp. rewrite bind_unfold. unfold get_world. cbv beta iota zeta.
  rewrite bind_unfold, emit_note. cbv beta iota.
  set (resp := gdal_Warp eng (warp_count (trace w)) (files w) a).
  set (w1 := note (Warp a) w).
  assert (Hs1 : schedule (trace w1) = schedule (trace w) ++ [Attempt]).
  { unfold w1, note; cbn [trace]. apply schedule_app. }
  rewrite bind_unfold.
  assert (Hrep : forall cs,
             exists o w2, report_progress cs w1 = (o, w2)
                          /\ schedule (trace w2) = schedule (trace w) ++ [Attempt]
                          /\ o <> OutOfFuel).
  { intros cs. destruct (report_progress cs w1) as [o w2] eqn:E.
    exists o, w2. split; [reflexivity |]. split.
    - destruct (report_progress_trace cs w1) as (logs & Ht & Hl).
      rewrite E in Ht. cbn [snd] in Ht.
      rewrite Ht, schedule_app, (schedule_progress_logs _ Hl), app_nil_r. exact Hs1.
    - pose proof (terminates_report_progress cs w1) as H. rewrite E in H. exact H. }
  destruct (callback a).
  - destruct (Hrep (warp_progress resp)) as (o & w2 & E & Hs & Hne). rewrite E.
    destruct o as [[]|e|]; [| cbn; eauto | contradiction].
    destruct (warp_result resp) as [e|r].
    + rewrite !bind_unfold, !leave_spec. cbn [raise fst snd].
      rewrite left_at_trace. split; [exact Hs | right; eauto].
    + cbn [set_file fst snd trace files].
      split; [exact Hs | left]. exists r. split; [reflexivity | apply lookup_insert_eq].
  - unfold mret, M_ret. cbv beta iota.
    destruct (warp_result resp) as [e|r].
    + rewrite !bind_unfold, !leave_spec. cbn [raise fst snd].
      rewrite left_at_trace. split; [exact Hs1 | right; eauto].
    + cbn [set_file fst snd trace files].
      split; [exact Hs1 | left]. exists r. split; [reflexivity | apply lookup_insert_eq].
Qed.

(** One turn of the loop ends in one of three ways: the warp succeeded;
    a network glitch is to be retried after a sleep, which only happens
    while attempts remain; or an exception leaves the loop. *)
Lemma warp_attempt_cases (eng : Engine) (self : OpenDEM) (vrt_path temp_rgb : string)
    (attempt : Z) (w : World) :
  let res := warp_attempt eng self vrt_path temp_rgb attempt w in
  (fst res = Return (attempt, true)
   /\ (exists r, files (snd res) !! temp_rgb = Some (RasterFile r))
   /\ schedule (trace (snd res)) = schedule (trace w) ++ [Attempt])
  \/ (fst res = Return (attempt + 1, false)
      /\ attempt + 1 < max_retries
      /\ schedule (trace (snd res)) = schedule (trace w) ++ [Attempt; Delay 10])
  \/ ((exists e, fst res = Raise e)
      /\ (schedule (trace (snd res)) = schedule (trace w)
          \/ schedule (trace (snd res)) = schedule (trace w) ++ [Attempt])).
Proof.
  cbv zeta. unfold warp_attempt, try_except_RuntimeError.
  rewrite bind_unfold. unfold log. rewrite emit_note. cbv beta iota.
  set (w1 := note (Log (MsgWarpAttempt (attempt + 1) max_retries)) w).
  assert (Hs1 : schedule (trace w1) = schedule (trace w)) by apply note_schedule_log.
  rewrite bind_unfold. unfold lift, Py.getitem.
  destruct (config self !! "bounds") as [bounds|]; cbv beta iota;
    [| right; right; cbn [fst snd]; split; [eauto | left; exact Hs1]].
  rewrite bind_unfold.
  destruct (config self !! "resolution") as [resolution|]; cbv beta iota;
    [| right; right; cbn [fst snd]; split; [eauto | left; exact Hs1]].
  rewrite bind_unfold.
  set (a := acquisition_args temp_rgb vrt_path bounds resolution).
  destruct (gdal_warp_cases eng a w1) as [Hs Hcase]. rewrite Hs1 in Hs.
  destruct (gdal_warp eng a w1) as [o w2]. cbn [fst snd] in Hs, Hcase.
  destruct Hcase as [(r & -> & Hf) | (e & ->)].
  - left. cbn [fst snd mret M_ret]. split; [reflexivity |]. split; [eauto | exact Hs].
  - destruct e; try (right; right; cbn [fst snd]; split; [eauto | right; exact Hs]).
    destruct (network_glitch msg);
      [| right; right; cbn [fst snd raise]; split; [eauto | right; exact Hs]].
    rewrite bind_unfold, emit_note. cbv beta iota.
    destruct (attempt + 1 <? max_retries) eqn:Elt.
    + right; left. apply Z.ltb_lt in Elt.
      rewrite bind_unfold, emit_note. cbv beta iota.
      rewrite bind_unfold, emit_note. cbv beta iota. cbn [fst snd mret M_ret].
      split; [reflexivity |]. split; [exact Elt |].
      unfold note at 1; cbn [trace]. rewrite schedule_app, !note_schedule_log, Hs.
      rewrite <- app_assoc. reflexivity.
    + right; right. rewrite bind_unfold, emit_note. cbv beta iota. cbn [fst snd raise].
      split; [eauto | right]. rewrite !note_schedule_log. exact Hs.
Qed.

Lemma warp_loop_cases (eng : Engine) (self : OpenDEM) (vrt_path temp_rgb : string) :
  forall (fuel : nat) (attempt : Z) (w : World),
    0 <= attempt < max_retries -> (Z.to_nat (max_retries - attempt) <= fuel)%nat ->
    let res := warp_loop eng fuel self vrt_path temp_rgb attempt false w in
    fst res <> OutOfFuel
    /\ (fst res = Return tt ->
        exists r, files (snd res) !! temp_rgb = Some (RasterFile r))
    /\ exists n tail,
         schedule (trace (snd res)) = schedule (trace w) ++ retries n ++ tail
         /\ Z.of_nat n <= max_retries - 1 - attempt
         /\ (tail = [] \/ tail = [Attempt]).
Proof.
  induction fuel as [|fuel IH]; intros attempt w Ha Hfuel; cbv zeta.
  - unfold max_retries in *. lia.
  - cbn [warp_loop].
    replace (attempt <? max_retries) with true by (symmetry; apply Z.ltb_lt; lia).
    cbn [andb negb]. rewrite bind_unfold.
    pose proof (warp_attempt_cases eng self vrt_path temp_rgb attempt w) as Hc.
    cbv zeta in Hc.
    destruct (warp_attempt eng self vrt_path temp_rgb attempt w) as [o w1].
    cbn [fst snd] in Hc.
    destruct Hc as [(-> & Hf & Hs) | [(-> & Hlt & Hs) | ((e & ->) & Hs)]].
    + cbn [fst snd]. destruct fuel as [|fuel']; cbn [warp_loop];
        rewrite andb_false_r; cbn [fst snd mret M_ret];
        (split; [discriminate |]); (split; [intros _; exact Hf |]);
        exists O, [Attempt]; cbn [retries app]; (split; [exact Hs |]);
        (split; [unfold max_retries in *; lia | right; reflexivity]).
    + cbn [fst snd].
      destruct (IH (attempt + 1) w1) as (Hne & Hret & n & tail & Hsched & Hn & Ht);
        [lia | unfold max_retries in *; lia |].
      split; [exact Hne |]. split; [exact Hret |].
      exists (S n), tail. split; [| split; [lia | exact Ht]].
      rewrite Hsched, Hs. cbn [retries]. rewrite <- !app_assoc. reflexivity.
    + cbn [fst snd]. split; [discriminate |]. split; [discriminate |].
      exists O. destruct Hs as [Hs | Hs].
      * exists []. cbn [retries app]. rewrite app_nil_r.
        split; [exact Hs |]. split; [unfold max_retries in *; lia | left; reflexivity].
      * exists [Attempt]. cbn [retries app].
        split; [exact Hs |]. split; [unfold max_retries in *; lia | right; reflexivity].
Qed.

Lemma generate_vrt_cases (eng : Engine) (self : OpenDEM) (w : World) :
  schedule (trace (snd (_generate_vrt eng self w))) = schedule (trace w)
  /\ (fst (_generate_vrt eng self w) = Return (Py.path_join (cache_dir self) "source.vrt")
      \/ fst (_generate_vrt eng self w) = Raise (KeyError "source")).
Proof.
  unfold _generate_vrt. lazy zeta. rewrite bind_unfold. unfold lift, Py.getitem.
  destruct (config self !! "source") as [source|]; cbv beta iota.
  - rewrite bind_unfold, emit_note. cbv beta iota.
    unfold mbind, M_bind, set_file, mret, M_ret. cbn [fst snd trace note].
    rewrite schedule_app.
    split; [apply app_nil_r | left; reflexivity].
  - split; [reflexivity | right; reflexivity].
Qed.

Lemma acquire_cases (eng : Engine) (self : OpenDEM) (w : World) :
  let res := acquire eng self w in
  fst res <> OutOfFuel
  /\ (forall p, fst res = Return p ->
        p = Py.path_join (cache_dir self) "temp_rgb.tif"
        /\ exists r, files (snd res) !! p = Some (RasterFile r))
  /\ exists n tail,
       schedule (trace (snd res)) = schedule (trace w) ++ retries n ++ tail
       /\ (n <= 4)%nat
       /\ (tail = [] \/ tail = [Attempt]).
Proof.
  cbv zeta. unfold acquire. rewrite bind_unfold.
  destruct (generate_vrt_cases eng self w) as [Hs Hv].
  destruct (_generate_vrt eng self w) as [o w1]. cbn [fst snd] in Hs, Hv.
  destruct Hv as [-> | ->].
  - cbv beta iota zeta. rewrite bind_unfold.
    set (vrt_path := Py.path_join (cache_dir self) "source.vrt").
    set (temp_rgb := Py.path_join (cache_dir self) "temp_rgb.tif").
    destruct (warp_loop_cases eng self vrt_path temp_rgb (Z.to_nat max_retries) 0 w1)
      as (Hne & Hret & n & tail & Hsched & Hn & Ht);
      [unfold max_retries; lia | rewrite Z.sub_0_r; lia |].
    destruct (warp_loop eng (Z.to_nat max_retries) self vrt_path temp_rgb 0 false w1)
      as [[[]|e|] w2]; cbv beta iota; unfold mret, M_ret; cbn [fst snd] in *.
    + split; [discriminate |]. split.
      * intros p [= <-]. split; [reflexivity | apply Hret; reflexivity].
      * exists n, tail. rewrite Hsched, Hs.
        split; [reflexivity | split; [unfold max_retries in Hn; lia | exact Ht]].
    + split; [discriminate |]. split; [discriminate |].
      exists n, tail. rewrite Hsched, Hs.
      split; [reflexivity | split; [unfold max_retries in Hn; lia | exact Ht]].
    + contradiction.
  - cbn [fst snd]. split; [discriminate |]. split; [discriminate |].
    exists O, []. cbn [retries app]. rewrite app_nil_r.
    split; [exact Hs | split; [lia | left; reflexivity]].
Qed.

(** X4: Whatever the engine answers and whatever the configuration holds,
    the acquisition ends (the loop never needs a sixth turn), and what it
    did is some retried attempts, each followed by a 10-second sleep, at
    most 4 of them, then at most one last attempt: never more than 5
    warps and 4 sleeps. *)
Theorem acquire_at_most_five_attempts (eng : Engine) (self : OpenDEM) (w : World) :
  fst (acquire eng self w) <> OutOfFuel
  /\ exists n tail,
       schedule (trace (snd (acquire eng self w)))
       = schedule (trace w) ++ retries n ++ tail
       /\ (n <= 4)%nat
       /\ (tail = [] \/ tail = [Attempt]).
Proof.
  destruct (acquire_cases eng self w) as (H1 & _ & H2). split; assumption.
Qed.

(** X5: The loop is never left by exhaustion: when the acquisition returns,
    it returns the path of [temp_rgb.tif] and the last warp has written a
    raster there, so the decode step always has its input. *)
Theorem acquire_returns_warped_raster (eng : Engine) (self : OpenDEM) (w : World)
    (p : string) :
  fst (acquire eng self w) = Return p ->
  p = Py.path_join (cache_dir self) "temp_rgb.tif"
  /\ exists r, files (snd (acquire eng self w)) !! p = Some (RasterFile r).
Proof.
  destruct (acquire_cases eng self w) as (_ & H & _). apply H.
Qed.

Lemma acquire_returns_warped_raster_witness :
  "./cache/temp_rgb.tif" = Py.path_join (cache_dir (Sample.app "steep.gpkg" None)) "temp_rgb.tif"
  /\ exists r, files (snd (acquire Sample.engine (Sample.app "steep.gpkg" None) Sample.fresh))
                 !! "./cache/temp_rgb.tif" = Some (RasterFile r).
Proof.
  apply (acquire_returns_warped_raster Sample.engine (Sample.app "steep.gpkg" None)
           Sample.fresh "./cache/temp_rgb.tif").
  vm_compute. reflexivity.
Defined.

Lemma relay_steps_warp_count (ps : list Z) (w : World) :
  warp_count (trace (relay_steps ps w)) = warp_count (trace w).
Proof.
  destruct (relay_steps_trace ps w) as (logs & E & Hl).
  rewrite E, warp_count_app, (warp_count_progress_logs _ Hl). lia.
Qed.

Lemma note_warp_count_log (m : Message) (w : World) :
  warp_count (trace (note (Log m) w)) = warp_count (trace w).
Proof. unfold note; cbn [trace]. rewrite warp_count_app. cbn. lia. Qed.

(** The loop when the next [k] warps fail with a network signature and
    the one after them succeeds. *)
Lemma warp_loop_recovers (eng : Engine) (self : OpenDEM) (vrt_path temp_rgb : string)
    (bounds resolution : pyval) (r : Raster) :
  config self !! "bounds" = Some bounds ->
  config self !! "resolution" = Some resolution ->
  (forall i fs a, Forall valid_fraction (warp_progress (gdal_Warp eng i fs a))) ->
  forall (k fuel : nat) (attempt : Z) (w : World),
    0 <= attempt -> attempt + Z.of_nat k < max_retries -> (k < fuel)%nat ->
    (forall i fs a, (i < k)%nat -> exists e,
        warp_result (gdal_Warp eng (warp_count (trace w) + i) fs a) = inl (RuntimeError e)
        /\ network_glitch e = true) ->
    (forall fs a, warp_result (gdal_Warp eng (warp_count (trace w) + k) fs a) = inr r) ->
    exists w',
      warp_loop eng fuel self vrt_path temp_rgb attempt false w = (Return tt, w')
      /\ schedule (trace w') = schedule (trace w) ++ retries k ++ [Attempt]
      /\ files w' !! temp_rgb = Some (RasterFile r).
Proof.
  intros Hb Hr Hvalid.
  induction k as [|k IH]; intros fuel attempt w Ha Hlt Hfuel Hglitch Hok.
  - destruct fuel as [|fuel]; [lia |].
    cbn [warp_loop].
    replace (attempt <? max_retries) with true by (symmetry; apply Z.ltb_lt; lia).
    cbn [andb negb].
    set (a := acquisition_args temp_rgb vrt_path bounds resolution).
    destruct (valid_fractions_percents _ (Hvalid (warp_count (trace w)) (files w) a))
      as (ps & Hps).
    rewrite bind_unfold.
    rewrite (warp_attempt_spec eng self vrt_path temp_rgb attempt w bounds resolution ps
               Hb Hr Hps).
    fold a. specialize (Hok (files w) a). rewrite Nat.add_0_r in Hok. rewrite Hok.
    cbv zeta. cbn [fst snd].
    eexists. split.
    + destruct fuel; cbn [warp_loop]; rewrite andb_false_r; reflexivity.
    + split.
      * cbn [with_file trace]. rewrite relay_steps_schedule.
        unfold note at 1; cbn [trace]. rewrite schedule_app, note_schedule_log.
        reflexivity.
      * cbn [with_file files]. apply lookup_insert_eq.
  - destruct fuel as [|fuel]; [lia |].
    cbn [warp_loop].
    replace (attempt <? max_retries) with true by (symmetry; apply Z.ltb_lt; lia).
    cbn [andb negb].
    set (a := acquisition_args temp_rgb vrt_path bounds resolution).
    destruct (valid_fractions_percents _ (Hvalid (warp_count (trace w)) (files w) a))
      as (ps & Hps).
    destruct (Hglitch O (files w) a ltac:(lia)) as (e & He & Hg).
    rewrite Nat.add_0_r in He.
    rewrite bind_unfold.
    rewrite (warp_attempt_spec eng self vrt_path temp_rgb attempt w bounds resolution ps
               Hb Hr Hps).
    fold a. rewrite He, Hg.
    replace (attempt + 1 <? max_retries) with true by (symmetry; apply Z.ltb_lt; lia).
    cbv iota zeta. cbn [fst snd].
    match goal with |- context [warp_loop _ _ _ _ _ _ _ ?w0] => set (w4 := w0) end.
    assert (Hc : warp_count (trace w4) = S (warp_count (trace w))).
    { unfold w4. unfold note at 1; cbn [trace]. rewrite warp_count_app.
      rewrite !note_warp_count_log, left_at_trace, relay_steps_warp_count.
      unfold note at 1; cbn [trace]. rewrite warp_count_app, note_warp_count_log.
      cbn. lia. }
    assert (Hs : schedule (trace w4) = schedule (trace w) ++ [Attempt; Delay 10]).
    { unfold w4. unfold note at 1; cbn [trace]. rewrite schedule_app, !note_schedule_log.
      rewrite left_at_trace, relay_steps_schedule.
      unfold note at 1; cbn [trace]. rewrite schedule_app, note_schedule_log.
      rewrite <- app_assoc. reflexivity. }
    destruct (IH fuel (attempt + 1) w4) as (w' & Hrun & Hsched & Hfile);
      [lia | lia | lia | | |].
    + intros i fs a0 Hi. rewrite Hc.
      replace (S (warp_count (trace w)) + i)%nat
        with (warp_count (trace w) + S i)%nat by lia.
      apply Hglitch. lia.
    + intros fs a0. rewrite Hc.
      replace (S (warp_count (trace w)) + k)%nat
        with (warp_count (trace w) + S k)%nat by lia.
      apply Hok.
    + exists w'. split; [exact Hrun |]. split; [| exact Hfile].
      rewrite Hsched, Hs. cbn [retries]. rewrite <- !app_assoc. reflexivity.
Qed.

(** X6: The loop recovers from transient failures: when the next [k] warps
    ([k] at most 4) fail with a network signature and the one after them
    succeeds, the acquisition makes exactly [k + 1] attempts with a
    10-second sleep after each failed one, returns the path of
    [temp_rgb.tif], and the raster of the successful warp is at that path. *)
Theorem acquire_recovers_after_glitches (eng : Engine) (self : OpenDEM) (w : World)
    (source bounds resolution : pyval) (k : nat) (r : Raster) :
  config self !! "source" = Some source ->
  config self !! "bounds" = Some bounds ->
  config self !! "resolution" = Some resolution ->
  (k <= 4)%nat ->
  (forall i fs a, (i < k)%nat -> exists e,
      warp_result (gdal_Warp eng (warp_count (trace w) + i) fs a) = inl (RuntimeError e)
      /\ network_glitch e = true) ->
  (forall fs a, warp_result (gdal_Warp eng (warp_count (trace w) + k) fs a) = inr r) ->
  (forall i fs a, Forall valid_fraction (warp_progress (gdal_Warp eng i fs a))) ->
  exists w',
    acquire eng self w = (Return (Py.path_join (cache_dir self) "temp_rgb.tif"), w')
    /\ schedule (trace w') = schedule (trace w) ++ retries k ++ [Attempt]
    /\ files w' !! Py.path_join (cache_dir self) "temp_rgb.tif" = Some (RasterFile r).
Proof.
  intros Hsrc Hb Hr Hk Hglitch Hok Hvalid.
  set (vrt_path := Py.path_join (cache_dir self) "source.vrt").
  set (temp_rgb := Py.path_join (cache_dir self) "temp_rgb.tif").
  pose proof (generate_vrt_spec eng self w source Hsrc) as Hvrt. cbv zeta in Hvrt.
  fold vrt_path in Hvrt.
  match type of Hvrt with _ = (_, ?w0) => set (w1 := w0) in * end.
  assert (Hs1 : schedule (trace w1) = schedule (trace w)).
  { unfold w1, with_file, note; cbn [trace]. rewrite schedule_app. apply app_nil_r. }
  assert (Hc : warp_count (trace w1) = warp_count (trace w)).
  { unfold w1, with_file, note; cbn [trace]. rewrite warp_count_app. cbn. lia. }
  destruct (warp_loop_recovers eng self vrt_path temp_rgb bounds resolution r Hb Hr Hvalid
              k (Z.to_nat max_retries) 0 w1) as (w' & Hrun & Hsched & Hfile).
  - lia.
  - unfold max_retries. lia.
  - change (Z.to_nat max_retries) with 5%nat. lia.
  - intros i fs a Hi. rewrite Hc. apply Hglitch, Hi.
  - intros fs a. rewrite Hc. apply Hok.
  - exists w'. split; [| split; [rewrite Hsched, Hs1; reflexivity | exact Hfile]].
    unfold acquire. rewrite (bind_return _ _ _ _ _ Hvrt). cbv zeta. fold temp_rgb.
    rewrite (bind_return _ _ _ _ _ Hrun). reflexivity.
Qed.

Lemma acquire_recovers_after_glitches_witness :
  exists w',
    acquire (flaky_engine 3) (Sample.app "steep.gpkg" None) Sample.fresh
    = (Return (Py.path_join (cache_dir (Sample.app "steep.gpkg" None)) "temp_rgb.tif"), w')
    /\ schedule (trace w')
       = schedule (trace Sample.fresh) ++ retries 3 ++ [Attempt]
    /\ files w' !! Py.path_join (cache_dir (Sample.app "steep.gpkg" None)) "temp_rgb.tif"
       = Some (RasterFile Sample.rgb).
Proof.
  apply (acquire_recovers_after_glitches (flaky_engine 3) (Sample.app "steep.gpkg" None)
           Sample.fresh (PyStr "https://example.org/terrarium/${z}/${x}/${y}.png")
           Sample.box (PyInt 30) 3 Sample.rgb eq_refl eq_refl eq_refl).
  - lia.
  - intros i fs a Hi. eexists. cbn [flaky_engine gdal_Warp Sample.fresh trace warp_count Nat.add].
    replace (i <? 3)%nat with true by (symmetry; apply Nat.ltb_lt; exact Hi).
    split; [reflexivity | vm_compute; reflexivity].
  - intros fs a. reflexivity.
  - intros i fs a. cbn [flaky_engine gdal_Warp]. destruct (i <? 3)%nat; cbn [warp_progress].
    + constructor; [exists 0; vm_compute; reflexivity |].
      constructor; [exists 25; vm_compute; reflexivity | constructor].
    + constructor; [exists 0; vm_compute; reflexivity |].
      constructor; [exists 50; vm_compute; reflexivity |].
      constructor; [exists 100; vm_compute; reflexivity | constructor].
Defined.

(** ** A missing [bounds] or [resolution] *)

(** X7: With [source] configured but no [bounds], the first turn of the loop
    fails on the lookup before the warp is called: the [KeyError] is not
    a [RuntimeError], so nothing is retried and nothing sleeps; with
    [bounds] but no [resolution] it is the same on [resolution].  The
    descriptor has been written by then. *)
Theorem acquire_without_bounds_or_resolution (eng : Engine) (self : OpenDEM) (w : World)
    (source : pyval) :
  config self !! "source" = Some source ->
  let vrt_path := Py.path_join (cache_dir self) "source.vrt" in
  let text := strip (vrt_template (py_str eng source) (os_abspath eng (cache_dir self))) in
  let w' := note (Log (MsgWarpAttempt 1 max_retries))
              (with_file vrt_path (TextFile text) (note (WriteText vrt_path text) w)) in
  (config self !! "bounds" = None ->
   acquire eng self w = (Raise (KeyError "bounds"), w')
   /\ run eng self w = (Raise (KeyError "bounds"), w'))
  /\ (forall bounds,
       config self !! "bounds" = Some bounds -> config self !! "resolution" = None ->
       acquire eng self w = (Raise (KeyError "resolution"), w')
       /\ run eng self w = (Raise (KeyError "resolution"), w'))
  /\ schedule (trace w') = schedule (trace w).
Proof.
  intros Hsrc vrt_path text w'.
  pose proof (generate_vrt_spec eng self w source Hsrc) as Hvrt. cbv zeta in Hvrt.
  fold vrt_path text in Hvrt.
  assert (Hloop : forall key,
             (config self !! "bounds" = None /\ key = "bounds")
             \/ (is_Some (config self !! "bounds") /\ config self !! "resolution" = None
                 /\ key = "resolution") ->
             acquire eng self w = (Raise (KeyError key), w')).
  { intros key Hkey. unfold acquire. rewrite (bind_return _ _ _ _ _ Hvrt). cbv zeta.
    apply bind_raise. change (Z.to_nat max_retries) with 5%nat. cbn [warp_loop].
    change ((0 <? max_retries) && negb false) with true. cbv iota.
    apply bind_raise. unfold warp_attempt, try_except_RuntimeError.
    rewrite bind_unfold. unfold log. rewrite emit_note. cbv beta iota.
    rewrite bind_unfold. unfold lift, Py.getitem.
    destruct Hkey as [[E ->] | ([b E] & E' & ->)]; rewrite E; cbv beta iota.
    - reflexivity.
    - rewrite bind_unfold, E'. reflexivity. }
  split; [| split].
  - intros E. assert (H := Hloop "bounds" ltac:(left; split; [exact E | reflexivity])).
    split; [exact H | unfold run; apply bind_raise; exact H].
  - intros bounds E E'.
    assert (H := Hloop "resolution" ltac:(right; split; [eauto | split; [exact E' | reflexivity]])).
    split; [exact H | unfold run; apply bind_raise; exact H].
  - unfold w'. rewrite note_schedule_log. unfold with_file, note; cbn [trace].
    rewrite schedule_app. apply app_nil_r.
Qed.

Lemma acquire_without_bounds_or_resolution_witness :
  fst (acquire Sample.engine
         {| config := <[ "source" := PyStr "https://example.org/tiles" ]> ∅;
            cache_dir := "./cache" |} Sample.fresh)
  = Raise (KeyError "bounds").
Proof.
  destruct (acquire_without_bounds_or_resolution Sample.engine
              {| config := <[ "source" := PyStr "https://example.org/tiles" ]> ∅;
                 cache_dir := "./cache" |} Sample.fresh
              (PyStr "https://example.org/tiles")) as [H _].
  - vm_compute. reflexivity.
  - destruct H as [H _].
    + vm_compute. reflexivity.
    + rewrite H. reflexivity.
Defined.

(** ** What a run that returns has done *)

Lemma gdal_polygonize_returns (eng : Engine) (tmp_ds : Raster) (path : string)
    (layer : VectorLayer) (w w' : World) :
  gdal_polygonize eng tmp_ds path layer w = (Return tt, w') ->
  exists fs,
    poly_result (gdal_Polygonize eng tmp_ds) = inr fs
    /\ files w' !! path
       = Some (VectorFile {| LayerName := LayerName layer; LayerSRS := LayerSRS layer;
                             FieldNames := FieldNames layer; Features := fs |}).
Proof.
  unfold gdal_polygonize. lazy zeta. intros H.
  apply bind_return_inv in H as ([] & w1 & _ & H).
  apply bind_return_inv in H as ([] & w2 & _ & H).
  destruct (poly_result (gdal_Polygonize eng tmp_ds)) as [e|fs]; [discriminate |].
  exists fs. split; [reflexivity |].
  unfold set_file in H. injection H as <-. cbn [files]. apply lookup_insert_eq.
Qed.

Lemma save_as_vector_returns (eng : Engine) (data : ndarray) (source_ds : Raster)
    (path : string) (w w' : World) :
  _save_as_vector eng data source_ds path w = (Return tt, w') ->
  exists fs,
    files w' !! path
    = Some (VectorFile {| LayerName := "mask"; LayerSRS := Projection source_ds;
                          FieldNames := ["dn"]; Features := fs |}).
Proof.
  unfold _save_as_vector. lazy zeta. intros H.
  apply bind_return_inv in H as (w0 & w1 & _ & H).
  apply bind_return_inv in H as ([] & w2 & _ & H).
  apply bind_return_inv in H as ([] & w3 & _ & H).
  apply bind_return_inv in H as ([] & w4 & _ & H).
  apply gdal_polygonize_returns in H as (fs & _ & H). exists fs. exact H.
Qed.

Lemma export_returns (eng : Engine) (mask_cfg output_name : pyval) (final_data : ndarray)
    (current_nodata : Z) (ds_proc : Raster) (w w' : World) :
  export eng mask_cfg output_name final_data current_nodata ds_proc w = (Return tt, w') ->
  exists name fs,
    output_name = PyStr name
    /\ Py.endswith (Py.lower name) ".gpkg" = true
    /\ files w' !! name
       = Some (VectorFile {| LayerName := "mask"; LayerSRS := Projection ds_proc;
                             FieldNames := ["dn"]; Features := fs |}).
Proof.
  unfold export. destruct output_name as [| | | |name| |]; try discriminate.
  destruct (Py.endswith (Py.lower name) ".gpkg") eqn:Eext; intros H.
  - apply bind_return_inv in H as ([] & w1 & _ & H).
    apply save_as_vector_returns in H as (fs & H). eauto.
  - apply bind_return_inv in H as ([] & w1 & _ & H). exfalso. revert H.
    unfold call_save_raster. rewrite bind_unfold. discriminate.
Qed.

Lemma execute_process_returns (eng : Engine) (self : OpenDEM) (dem_path : string)
    (w w' : World) :
  _execute_process eng self dem_path w = (Return tt, w') ->
  exists name layer,
    Py.get (config self) "output" = PyStr name
    /\ Py.endswith (Py.lower name) ".gpkg" = true
    /\ files w' !! name = Some (VectorFile layer)
    /\ LayerName layer = "mask" /\ FieldNames layer = ["dn"].
Proof.
  unfold _execute_process. lazy zeta. intros H.
  apply bind_return_inv in H as (clipping_path & w1 & _ & H).
  apply bind_return_inv in H as ([] & w2 & _ & H).
  apply bind_return_inv in H as ([] & w3 & _ & H).
  apply bind_return_inv in H as (process_source & w4 & _ & H).
  apply bind_return_inv in H as (ds_proc & w5 & _ & H).
  apply bind_return_inv in H as (data & w6 & _ & H).
  apply bind_return_inv in H as (res & w7 & _ & H).
  apply bind_return_inv in H as ([] & w8 & Hexp & H).
  apply export_returns in Hexp as (name & fs & Hname & Hext & Hfile).
  unfold log, emit in H. injection H as <-. cbn [files].
  eexists name, _. split; [exact Hname |]. split; [exact Hext |].
  split; [exact Hfile |]. split; reflexivity.
Qed.

Lemma warp_attempt_returns_keys (eng : Engine) (self : OpenDEM)
    (vrt_path temp_rgb : string) (attempt : Z) (w w' : World) (st : Z * bool) :
  warp_attempt eng self vrt_path temp_rgb attempt w = (Return st, w') ->
  is_Some (config self !! "bounds") /\ is_Some (config self !! "resolution").
Proof.
  unfold warp_attempt, try_except_RuntimeError.
  rewrite bind_unfold. unfold log. rewrite emit_note. cbv beta iota.
  rewrite bind_unfold. unfold lift, Py.getitem.
  destruct (config self !! "bounds") as [bounds|]; cbv beta iota; [| discriminate].
  rewrite bind_unfold.
  destruct (config self !! "resolution") as [resolution|]; cbv beta iota; [| discriminate].
  intros _. split; eauto.
Qed.

(** X8: A run can return only on a vector export.  If [run] returns, the
    configuration held [source], [bounds] and [resolution], its [output]
    is a string ending in .gpkg (in any letter case), and the file at
    that path is a vector layer named [mask] with the single field
    [dn]. *)
Theorem run_returns_only_with_vector_output (eng : Engine) (self : OpenDEM) (w : World) :
  fst (run eng self w) = Return tt ->
  is_Some (config self !! "source")
  /\ is_Some (config self !! "bounds")
  /\ is_Some (config self !! "resolution")
  /\ exists name layer,
       config self !! "output" = Some (PyStr name)
       /\ Py.endswith (Py.lower name) ".gpkg" = true
       /\ files (snd (run eng self w)) !! name = Some (VectorFile layer)
       /\ LayerName layer = "mask" /\ FieldNames layer = ["dn"].
Proof.
  destruct (run eng self w) as [o w'] eqn:E. cbn [fst snd]. intros ->.
  unfold run in E.
  apply bind_return_inv in E as (temp_rgb & w1 & Hacq & E).
  apply bind_return_inv in E as ([] & w2 & _ & E).
  apply bind_return_inv in E as (ds & w3 & _ & E).
  apply bind_return_inv in E as (r & w4 & _ & E).
  apply bind_return_inv in E as (g & w5 & _ & E).
  apply bind_return_inv in E as (b & w6 & _ & E).
  lazy zeta in E.
  apply bind_return_inv in E as (lo & w7 & _ & E).
  apply bind_return_inv in E as (hi & w8 & _ & E).
  apply bind_return_inv in E as ([] & w9 & _ & E).
  apply bind_return_inv in E as ([] & w10 & _ & E).
  apply execute_process_returns in E as (name & layer & Hname & Hext & Hfile & Hl & Hf).
  unfold acquire in Hacq.
  apply bind_return_inv in Hacq as (vrt_path & w0 & Hvrt & Hacq).
  lazy zeta in Hacq.
  apply bind_return_inv in Hacq as ([] & w0' & Hloop & _).
  assert (Hsrc : is_Some (config self !! "source")).
  { revert Hvrt. unfold _generate_vrt. lazy zeta. rewrite bind_unfold.
    unfold lift, Py.getitem. destruct (config self !! "source"); [eauto | discriminate]. }
  assert (Hkeys : is_Some (config self !! "bounds") /\ is_Some (config self !! "resolution")).
  { revert Hloop. change (Z.to_nat max_retries) with 5%nat. cbn [warp_loop].
    change ((0 <? max_retries) && negb false) with true. cbv iota. intros Hloop.
    apply bind_return_inv in Hloop as (st & wa & Hatt & _).
    eapply warp_attempt_returns_keys, Hatt. }
  split; [exact Hsrc |]. split; [apply Hkeys |]. split; [apply Hkeys |].
  exists name, layer. split; [| auto].
  revert Hname. unfold Py.get. destruct (config self !! "output") as [v|]; cbn.
  - intros ->. reflexivity.
  - discriminate.
Qed.

Lemma run_returns_only_with_vector_output_witness :
  is_Some (config (Sample.app "steep.gpkg" None) !! "source")
  /\ is_Some (config (Sample.app "steep.gpkg" None) !! "bounds")
  /\ is_Some (config (Sample.app "steep.gpkg" None) !! "resolution")
  /\ exists name layer,
       config (Sample.app "steep.gpkg" None) !! "output" = Some (PyStr name)
       /\ Py.endswith (Py.lower name) ".gpkg" = true
       /\ files (snd (run Sample.engine (Sample.app "steep.gpkg" None) Sample.fresh)) !! name
          = Some (VectorFile layer)
       /\ LayerName layer = "mask" /\ FieldNames layer = ["dn"].
Proof.
  apply (run_returns_only_with_vector_output Sample.engine (Sample.app "steep.gpkg" None)
           Sample.fresh).
  vm_compute. reflexivity.
Defined.

(** ** The vector writer *)

(** [_save_as_vector] in full, on fractions [int] is defined on. *)
Lemma save_as_vector_spec (eng : Engine) (data : ndarray) (source_ds : Raster)
    (path : string) (w : World) (ps : list Z) :
  let tmp_ds := mem_raster data source_ds in
  Forall2 percent_is (poly_progress (gdal_Polygonize eng tmp_ds)) ps ->
  let w1 := if bool_decide (is_Some (files w !! path))
            then without_file path (note (DeleteDataSource path) w) else w in
  let w2 := with_file path (VectorFile (mask_layer source_ds []))
              (note (CreateDataSource path (mask_layer source_ds [])) w1) in
  let w3 := relay_steps ps (note (Polygonize tmp_ds path) w2) in
  _save_as_vector eng data source_ds path w
  = match poly_result (gdal_Polygonize eng tmp_ds) with
    | inl e =>
        (Raise e,
         with_file path
           (VectorFile (mask_layer source_ds (poly_partial (gdal_Polygonize eng tmp_ds))))
           w3)
    | inr fs => (Return tt, with_file path (VectorFile (mask_layer source_ds fs)) w3)
    end.
Proof.
  intros tmp_ds Hps w1 w2 w3. unfold _save_as_vector. lazy zeta.
  fold (mem_raster data source_ds). fold tmp_ds. fold (mask_layer source_ds []).
  rewrite bind_unfold. unfold get_world. cbv beta iota.
  assert (E1 : (if bool_decide (is_Some (files w !! path))
                then emit (DeleteDataSource path) ≫= (fun _ => remove_file path)
                else mret tt) w = (Return tt, w1)).
  { unfold w1. destruct (bool_decide (is_Some (files w !! path))); reflexivity. }
  rewrite (bind_return _ _ _ _ _ E1).
  rewrite bind_unfold, emit_note. cbv beta iota.
  rewrite bind_unfold. unfold set_file at 1. cbv beta iota.
  fold (with_file path (VectorFile (mask_layer source_ds []))
          (note (CreateDataSource path (mask_layer source_ds [])) w1)). fold w2.
  unfold gdal_polygonize. lazy zeta.
  rewrite bind_unfold, emit_note. cbv beta iota.
  rewrite bind_unfold, (report_progress_spec _ _ _ Hps). cbv beta iota. fold w3.
  destruct (poly_result (gdal_Polygonize eng tmp_ds)); [| reflexivity].
  rewrite bind_unfold. reflexivity.
Qed.

Lemma with_file_lookup (path : string) (a : Artifact) (w : World) (q : string) :
  files (with_file path a w) !! q = if decide (path = q) then Some a else files w !! q.
Proof.
  unfold with_file; cbn [files]. destruct (decide (path = q)) as [->|Hne].
  - apply lookup_insert_eq.
  - apply lookup_insert_ne, Hne.
Qed.

(** X9: The vector export replaces whatever was at the output path.  When
    the polygon extraction succeeds, [_save_as_vector] returns, the file
    at the output path is the layer [mask] with the field [dn], the
    spatial reference of the source and the features the engine
    extracted from the in-memory byte raster; every other file is as it
    was; and an existing data source was deleted first, exactly when
    there was one. *)
Theorem save_as_vector_replaces_output (eng : Engine) (data : ndarray)
    (source_ds : Raster) (path : string) (w : World) (fs : list Feature) :
  poly_result (gdal_Polygonize eng (mem_raster data source_ds)) = inr fs ->
  Forall valid_fraction (poly_progress (gdal_Polygonize eng (mem_raster data source_ds))) ->
  exists w' logs,
    _save_as_vector eng data source_ds path w = (Return tt, w')
    /\ files w' !! path = Some (VectorFile (mask_layer source_ds fs))
    /\ (forall q, q <> path -> files w' !! q = files w !! q)
    /\ trace w'
       = trace w
         ++ (if bool_decide (is_Some (files w !! path))
             then [DeleteDataSource path] else [])
         ++ [CreateDataSource path (mask_layer source_ds []);
             Polygonize (mem_raster data source_ds) path]
         ++ logs
    /\ Forall is_progress_log logs.
Proof.
  intros Hres Hvalid.
  destruct (valid_fractions_percents _ Hvalid) as (ps & Hps).
  pose proof (save_as_vector_spec eng data source_ds path w ps Hps) as Hspec.
  cbv zeta in Hspec. rewrite Hres in Hspec.
  match type of Hspec with _ = (_, with_file _ _ (relay_steps _ ?w0)) => set (w3 := w0) in * end.
  destruct (relay_steps_trace ps w3) as (logs & Ht & Hl).
  eexists _, logs. split; [exact Hspec |]. split; [| split; [| split; [| exact Hl]]].
  - rewrite with_file_lookup. destruct (decide (path = path)); [reflexivity | contradiction].
  - intros q Hq. rewrite with_file_lookup.
    destruct (decide (path = q)) as [->|_]; [contradiction |].
    rewrite relay_steps_files. unfold w3. cbn [note files].
    rewrite with_file_lookup. destruct (decide (path = q)) as [->|Hne]; [contradiction |].
    cbn [note files].
    destruct (bool_decide (is_Some (files w !! path))); [| reflexivity].
    unfold without_file; cbn [files note]. apply lookup_delete_ne. congruence.
  - cbn [with_file trace]. rewrite Ht. unfold w3. cbn [note trace with_file].
    destruct (bool_decide (is_Some (files w !! path)));
      cbn [without_file note trace]; rewrite <- !app_assoc; reflexivity.
Qed.

Lemma save_as_vector_replaces_output_witness :
  exists w' logs,
    _save_as_vector Sample.engine (ArrU8 [[0; 0; 1]]) Sample.slope "steep.gpkg"
      {| trace := []; files := {[ "steep.gpkg" := TextFile "old" ]}; _last_gdal_p := None |}
    = (Return tt, w')
    /\ files w' !! "steep.gpkg"
       = Some (VectorFile (mask_layer Sample.slope
                             [ {| geometry := "POLYGON ((0 0,30 0,30 -30,0 -30,0 0))";
                                  dn := 1 |} ]))
    /\ (forall q, q <> "steep.gpkg" ->
          files w' !! q
          = files {| trace := []; files := {[ "steep.gpkg" := TextFile "old" ]};
                     _last_gdal_p := None |} !! q)
    /\ trace w'
       = trace {| trace := []; files := {[ "steep.gpkg" := TextFile "old" ]};
                  _last_gdal_p := None |}
         ++ (if bool_decide (is_Some (files {| trace := [];
                                               files := {[ "steep.gpkg" := TextFile "old" ]};
                                               _last_gdal_p := None |} !! "steep.gpkg"))
             then [DeleteDataSource "steep.gpkg"] else [])
         ++ [CreateDataSource "steep.gpkg" (mask_layer Sample.slope []);
             Polygonize (mem_raster (ArrU8 [[0; 0; 1]]) Sample.slope) "steep.gpkg"]
         ++ logs
    /\ Forall is_progress_log logs.
Proof.
  apply (save_as_vector_replaces_output Sample.engine (ArrU8 [[0; 0; 1]]) Sample.slope
           "steep.gpkg"
           {| trace := []; files := {[ "steep.gpkg" := TextFile "old" ]};
              _last_gdal_p := None |}).
  - reflexivity.
  - constructor; [exists 50; vm_compute; reflexivity |].
    constructor; [exists 100; vm_compute; reflexivity | constructor].
Defined.

(** X10: The vector export is not atomic.  When the polygon extraction
    raises, [_save_as_vector] raises the same exception and restores
    nothing: by then a data source found at the output path has been
    deleted and a new one created with an empty [mask] layer, so the
    path holds that new layer, with the features the extraction had put
    into it before failing, and not what was there before. *)
Theorem save_as_vector_failure_loses_previous (eng : Engine) (data : ndarray)
    (source_ds : Raster) (path : string) (w : World) (e : exn) :
  poly_result (gdal_Polygonize eng (mem_raster data source_ds)) = inl e ->
  Forall valid_fraction (poly_progress (gdal_Polygonize eng (mem_raster data source_ds))) ->
  exists w' logs,
    _save_as_vector eng data source_ds path w = (Raise e, w')
    /\ files w' !! path
       = Some (VectorFile
                 (mask_layer source_ds
                    (poly_partial (gdal_Polygonize eng (mem_raster data source_ds)))))
    /\ trace w'
       = trace w
         ++ (if bool_decide (is_Some (files w !! path))
             then [DeleteDataSource path] else [])
         ++ [CreateDataSource path (mask_layer source_ds []);
             Polygonize (mem_raster data source_ds) path]
         ++ logs
    /\ Forall is_progress_log logs.
Proof.
  intros Hres Hvalid.
  destruct (valid_fractions_percents _ Hvalid) as (ps & Hps).
  pose proof (save_as_vector_spec eng data source_ds path w ps Hps) as Hspec.
  cbv zeta in Hspec. rewrite Hres in Hspec.
  match type of Hspec with _ = (_, with_file _ _ (relay_steps _ ?w0)) => set (w3 := w0) in * end.
  destruct (relay_steps_trace ps w3) as (logs & Ht & Hl).
  eexists _, logs. split; [exact Hspec |]. split; [| split; [| exact Hl]].
  - rewrite with_file_lookup. destruct (decide (path = path)); [reflexivity | contradiction].
  - cbn [with_file trace]. rewrite Ht. unfold w3. cbn [note trace with_file].
    destruct (bool_decide (is_Some (files w !! path)));
      cbn [without_file note trace]; rewrite <- !app_assoc; reflexivity.
Qed.

Lemma save_as_vector_failure_loses_previous_witness :
  exists w' logs,
    _save_as_vector disk_full_engine (ArrU8 [[0; 0; 1]]) Sample.slope "steep.gpkg"
      {| trace := []; files := {[ "steep.gpkg" := TextFile "old" ]}; _last_gdal_p := None |}
    = (Raise (RuntimeError "No space left on device"), w')
    /\ files w' !! "steep.gpkg"
       = Some (VectorFile
                 (mask_layer Sample.slope
                    (poly_partial
                       (gdal_Polygonize disk_full_engine
                          (mem_raster (ArrU8 [[0; 0; 1]]) Sample.slope)))))
    /\ trace w'
       = trace {| trace := []; files := {[ "steep.gpkg" := TextFile "old" ]};
                  _last_gdal_p := None |}
         ++ (if bool_decide (is_Some (files {| trace := [];
                                               files := {[ "steep.gpkg" := TextFile "old" ]};
                                               _last_gdal_p := None |} !! "steep.gpkg"))
             then [DeleteDataSource "steep.gpkg"] else [])
         ++ [CreateDataSource "steep.gpkg" (mask_layer Sample.slope []);
             Polygonize (mem_raster (ArrU8 [[0; 0; 1]]) Sample.slope) "steep.gpkg"]
         ++ logs
    /\ Forall is_progress_log logs.
Proof.
  apply (save_as_vector_failure_loses_previous disk_full_engine (ArrU8 [[0; 0; 1]])
           Sample.slope "steep.gpkg"
           {| trace := []; files := {[ "steep.gpkg" := TextFile "old" ]};
              _last_gdal_p := None |} (RuntimeError "No space left on device")).
  - reflexivity.
  - constructor; [exists 50; vm_compute; reflexivity | constructor].
Defined.

(** ** The processing step *)

Lemma grew_quietly_refl (w : World) : grew_quietly w w.
Proof. exists []. split; [symmetry; apply app_nil_r | reflexivity]. Qed.

Lemma grew_quietly_trans (w1 w2 w3 : World) :
  grew_quietly w1 w2 -> grew_quietly w2 w3 -> grew_quietly w1 w3.
Proof.
  intros (r1 & E1 & S1) (r2 & E2 & S2). exists (r1 ++ r2).
  split; [rewrite E2, E1; symmetry; apply app_assoc |].
  rewrite schedule_app, S1, S2. reflexivity.
Qed.

Lemma grew_quietly_event (e : Event) (w : World) :
  logged [e] = [] -> schedule [e] = [] -> grew_quietly w (note e w).
Proof. intros _ H. exists [e]. split; [reflexivity | exact H]. Qed.

Lemma grew_quietly_write (path : string) (a : Artifact) (w : World) :
  grew_quietly w (with_file path a w).
Proof. exact (grew_quietly_refl w). Qed.

Lemma grew_quietly_delete (path : string) (w : World) :
  grew_quietly w (without_file path w).
Proof. exact (grew_quietly_refl w). Qed.

Lemma grew_quietly_progress (cs : list float) : follows grew_quietly (report_progress cs).
Proof.
  intros w. destruct (report_progress_trace cs w) as (logs & E & Hl).
  exists logs. split; [exact E | apply schedule_progress_logs, Hl].
Qed.

(** After the raster is opened, the rest of [_execute_process] calls
    neither the warp nor the sleep. *)
Lemma execute_process_tail_quiet (eng : Engine) (mask_cfg output_name : pyval)
    (ds_proc : Raster) :
  follows grew_quietly
    (read_band ds_proc 1 ≫= fun data =>
     evaluate_mask mask_cfg data ≫= fun res =>
     export eng mask_cfg output_name (fst res) (snd res) ds_proc ≫= fun _ =>
     log (MsgProcessComplete output_name)).
Proof.
  apply (follows_bind _ grew_quietly_trans);
    [apply (follows_read_band _ grew_quietly_refl) | intros data].
  apply (follows_bind _ grew_quietly_trans);
    [apply (follows_evaluate_mask _ grew_quietly_refl grew_quietly_trans
              grew_quietly_event)
    | intros res].
  apply (follows_bind _ grew_quietly_trans); [| intros _].
  - apply (follows_export _ grew_quietly_refl grew_quietly_trans eng (fun _ => True)
             grew_quietly_event
             (fun path a w _ => grew_quietly_write path a w)
             (fun path w _ => grew_quietly_delete path w)
             (fun r => grew_quietly_progress _)).
    intros; exact I.
  - apply (follows_emit _ grew_quietly_event); reflexivity.
Qed.

(** [_execute_process] up to the opening of the processed raster, when no
    clipping is configured. *)
Lemma execute_process_unclipped (eng : Engine) (self : OpenDEM) (dem_path : string)
    (w : World) (r : Raster) :
  Py.truthy (Py.get (config self) "clipping") = false ->
  gdal_DEMProcessing eng (files w) dem_path (Py.get (config self) "process") = inr r ->
  let process_type := Py.get (config self) "process" in
  let output_name := Py.get (config self) "output" in
  let mask_cfg := Py.get (config self) "mask" in
  let temp_proc := Py.path_join (cache_dir self) "temp_proc.tif" in
  let w1 := note (Open temp_proc)
              (with_file temp_proc (RasterFile r)
                 (note (DEMProcessing temp_proc dem_path process_type)
                    (note (Log (MsgRunningAnalysis process_type)) w))) in
  _execute_process eng self dem_path w
  = (read_band r 1 ≫= fun data =>
     evaluate_mask mask_cfg data ≫= fun res =>
     export eng mask_cfg output_name (fst res) (snd res) r ≫= fun _ =>
     log (MsgProcessComplete output_name)) w1.
Proof.
  intros Hclip Hdem process_type output_name mask_cfg temp_proc w1.
  unfold _execute_process. lazy zeta.
  fold process_type output_name mask_cfg temp_proc.
  assert (E0 : _get_clipping_path self w = (Return (Py.get (config self) "clipping"), w)).
  { unfold _get_clipping_path. lazy zeta. rewrite Hclip. reflexivity. }
  rewrite (bind_return _ _ _ _ _ E0).
  rewrite bind_unfold. unfold log at 1. rewrite emit_note. cbv beta iota.
  set (wa := note (Log (MsgRunningAnalysis process_type)) w).
  assert (E1 : gdal_dem_processing eng temp_proc dem_path process_type wa
               = (Return tt, with_file temp_proc (RasterFile r)
                               (note (DEMProcessing temp_proc dem_path process_type) wa))).
  { unfold gdal_dem_processing. rewrite bind_unfold. unfold get_world. cbv beta iota.
    rewrite bind_unfold, emit_note. cbv beta iota.
    change (files wa) with (files w). unfold process_type. rewrite Hdem. reflexivity. }
  rewrite (bind_return _ _ _ _ _ E1). rewrite Hclip.
  set (wb := with_file temp_proc (RasterFile r) _).
  rewrite bind_unfold. unfold mret at 1, M_ret at 1. cbv beta iota.
  assert (E2 : gdal_open temp_proc wb = (Return r, note (Open temp_proc) wb)).
  { unfold gdal_open. rewrite bind_unfold, emit_note. cbv beta iota.
    rewrite bind_unfold. unfold get_world. cbv beta iota.
    change (files (note (Open temp_proc) wb)) with (files wb).
    unfold wb. rewrite with_file_lookup.
    destruct (decide (temp_proc = temp_proc)); [reflexivity | contradiction]. }
  rewrite (bind_return _ _ _ _ _ E2). reflexivity.
Qed.

(** X11: Clipping decides whether the processing step warps.  Once the
    terrain analysis has produced its raster: with no clipping
    configured (absent, [None], or any falsy value) the raster opened is
    [temp_proc.tif] itself and the rest of the step calls neither the
    warp nor the sleep; with a non-empty clipping string the next call
    is one warp of [temp_proc.tif] into [final_clipped.tif], cut and
    cropped to the clipping path (behind [/vsicurl/] when it starts with
    [http]), with nodata -9999 and no progress callback. *)
Theorem clipping_decides_cutline (eng : Engine) (self : OpenDEM) (dem_path : string)
    (w : World) (r : Raster) :
  gdal_DEMProcessing eng (files w) dem_path (Py.get (config self) "process") = inr r ->
  let process_type := Py.get (config self) "process" in
  let temp_proc := Py.path_join (cache_dir self) "temp_proc.tif" in
  let started := [Log (MsgRunningAnalysis process_type);
                  DEMProcessing temp_proc dem_path process_type] in
  (Py.truthy (Py.get (config self) "clipping") = false ->
   exists rest,
     trace (snd (_execute_process eng self dem_path w))
     = trace w ++ started ++ [Open temp_proc] ++ rest
     /\ schedule rest = [])
  /\ (forall s,
       Py.get (config self) "clipping" = PyStr s -> s <> "" ->
       let cutline := PyStr (if Py.startswith s "http" then "/vsicurl/" +:+ s else s) in
       exists rest,
         trace (snd (_execute_process eng self dem_path w))
         = trace w ++ started
           ++ [Log (MsgApplyingCutline cutline);
               Warp {| destName := Py.path_join (cache_dir self) "final_clipped.tif";
                       srcDS := temp_proc;
                       outputBounds := None; outputBoundsSRS := None;
                       xRes := None; yRes := None; dstSRS := None;
                       cutlineDSName := Some cutline; cropToCutline := true;
                       dstNodata := Some (PyInt (-9999)); callback := false |}]
           ++ rest).
Proof.
  intros Hdem process_type temp_proc started. split.
  - intros Hclip.
    rewrite (execute_process_unclipped eng self dem_path w r Hclip Hdem).
    match goal with |- context [snd (?k ?w0)] => set (w1 := w0); set (tail := k) end.
    destruct (execute_process_tail_quiet eng (Py.get (config self) "mask")
                (Py.get (config self) "output") r w1) as (rest & E & Hq).
    fold tail in E. exists rest. split; [| exact Hq].
    rewrite E. unfold w1. cbn [note with_file trace]. unfold started.
    rewrite <- !app_assoc. reflexivity.
  - intros s Hs Hne cutline.
    assert (Hcut : Py.truthy cutline = true).
    { unfold cutline. destruct (Py.startswith s "http"); cbn; [reflexivity |].
      destruct s; [contradiction | reflexivity]. }
    unfold _execute_process. lazy zeta. fold process_type temp_proc.
    assert (E0 : _get_clipping_path self w = (Return cutline, w)).
    { unfold _get_clipping_path. lazy zeta. rewrite Hs.
      replace (Py.truthy (PyStr s)) with true
        by (destruct s; [contradiction | reflexivity]).
      unfold cutline. destruct (Py.startswith s "http"); reflexivity. }
    rewrite (bind_return _ _ _ _ _ E0).
    rewrite bind_unfold. unfold log at 1. rewrite emit_note. cbv beta iota.
    set (wa := note (Log (MsgRunningAnalysis process_type)) w).
    assert (E1 : gdal_dem_processing eng temp_proc dem_path process_type wa
                 = (Return tt, with_file temp_proc (RasterFile r)
                                 (note (DEMProcessing temp_proc dem_path process_type) wa))).
    { unfold gdal_dem_processing. rewrite bind_unfold. unfold get_world. cbv beta iota.
      rewrite bind_unfold, emit_note. cbv beta iota.
      change (files wa) with (files w). unfold process_type. rewrite Hdem. reflexivity. }
    rewrite (bind_return _ _ _ _ _ E1). rewrite Hcut.
    set (wb := with_file temp_proc (RasterFile r) _).
    set (a := {| destName := Py.path_join (cache_dir self) "final_clipped.tif" |}).
    set (wc := note (Warp a) (note (Log (MsgApplyingCutline cutline)) wb)).
    set (resp := gdal_Warp eng (warp_count (trace (note (Log (MsgApplyingCutline cutline)) wb)))
                   (files wb) a).
    assert (Ew : gdal_warp eng a (note (Log (MsgApplyingCutline cutline)) wb)
                 = match warp_result resp with
                   | inl e => (Raise e, left_at (destName a) (warp_partial resp) wc)
                   | inr r2 => (Return tt, with_file (destName a) (RasterFile r2) wc)
                   end).
    { unfold gdal_warp. rewrite bind_unfold. unfold get_world. cbv beta iota zeta.
      rewrite bind_unfold, emit_note. cbv beta iota. fold wc.
      change (callback a) with false. cbv iota.
      rewrite bind_unfold. unfold mret at 1, M_ret at 1. cbv beta iota.
      change (files (note (Log (MsgApplyingCutline cutline)) wb)) with (files wb).
      fold resp. destruct (warp_result resp); [| reflexivity].
      rewrite bind_unfold, leave_spec. reflexivity. }
    assert (Htr : trace wc = trace w ++ started
                             ++ [Log (MsgApplyingCutline cutline); Warp a]).
    { unfold wc, wb, wa, started. cbn [note with_file trace].
      rewrite <- !app_assoc. reflexivity. }
    rewrite bind_unfold.
    rewrite bind_unfold. unfold log at 1. rewrite emit_note.
    cbv beta iota. rewrite bind_unfold, Ew.
    destruct (warp_result resp) as [e|r2].
    + cbn [snd]. exists []. rewrite left_at_trace, Htr, app_nil_r. reflexivity.
    + cbv beta iota. unfold mret at 1, M_ret at 1. cbv beta iota.
      set (wd := with_file (destName a) (RasterFile r2) wc).
      match goal with |- context [snd (?k wd)] => set (tail := k) end.
      assert (Hg : grew_quietly wd (snd (tail wd))).
      { unfold tail. apply (follows_bind _ grew_quietly_trans); [| intros ds_proc].
        - apply (follows_gdal_open _ grew_quietly_refl grew_quietly_trans
                   grew_quietly_event).
        - apply execute_process_tail_quiet. }
      destruct Hg as (rest & E & _). exists rest. rewrite E.
      change (trace wd) with (trace wc). rewrite Htr, <- !app_assoc. reflexivity.
Qed.

Lemma clipping_decides_cutline_witness :
  exists rest,
    trace (snd (_execute_process Sample.engine (Sample.app "steep.gpkg" None)
                  "./cache/base_elevation.tif" Sample.fresh))
    = trace Sample.fresh
      ++ [Log (MsgRunningAnalysis (PyStr "slope"));
          DEMProcessing "./cache/temp_proc.tif" "./cache/base_elevation.tif" (PyStr "slope")]
      ++ [Open "./cache/temp_proc.tif"] ++ rest
    /\ schedule rest = [].
Proof.
  apply (proj1 (clipping_decides_cutline Sample.engine (Sample.app "steep.gpkg" None)
                  "./cache/base_elevation.tif" Sample.fresh Sample.slope eq_refl)).
  reflexivity.
Defined.

Lemma read_band_first (r : Raster) (band : ndarray) (w : World) :
  Bands r !! 0%nat = Some band -> read_band r 1 w = (Return (Np.astype_float band), w).
Proof.
  intros H. unfold read_band. change (1 - 1)%nat with 0%nat. rewrite H. reflexivity.
Qed.

Lemma note_schedule_quiet (e : Event) (w : World) :
  schedule [e] = [] -> schedule (trace (note e w)) = schedule (trace w).
Proof. intros H. unfold note; cbn [trace]. rewrite schedule_app, H. apply app_nil_r. Qed.

(** [_execute_process] in full on a mapping mask and a vector output,
    with no clipping, when the engine's calls succeed. *)
Lemma execute_process_masked_vector (eng : Engine) (self : OpenDEM)
    (dem_path : string) (w : World) (d : gmap string pyval) (name : string)
    (r : Raster) (band : ndarray) (lo hi : option float) (fs : list Feature) :
  Py.truthy (Py.get (config self) "clipping") = false ->
  config self !! "mask" = Some (PyDict d) -> d <> ∅ ->
  bound_of d "min" lo -> bound_of d "max" hi ->
  config self !! "output" = Some (PyStr name) ->
  Py.endswith (Py.lower name) ".gpkg" = true ->
  gdal_DEMProcessing eng (files w) dem_path (Py.get (config self) "process") = inr r ->
  Bands r !! 0%nat = Some band ->
  let mask :=
    ArrU8 (Np.map (fun v => if in_mask lo hi v then 1 else 0) (Np.astype_float band)) in
  poly_result (gdal_Polygonize eng (mem_raster mask r)) = inr fs ->
  Forall valid_fraction (poly_progress (gdal_Polygonize eng (mem_raster mask r))) ->
  exists w',
    _execute_process eng self dem_path w = (Return tt, w')
    /\ files w' !! name = Some (VectorFile (mask_layer r fs))
    /\ (forall q, q <> name ->
          files w' !! q
          = files (with_file (Py.path_join (cache_dir self) "temp_proc.tif")
                     (RasterFile r) w) !! q)
    /\ In (Polygonize (mem_raster mask r) name) (trace w')
    /\ schedule (trace w') = schedule (trace w)
    /\ last (trace w') = Some (Log (MsgProcessComplete (PyStr name))).
Proof.
  intros Hclip Hmask Hne Hlo Hhi Hout Hext Hdem Hband mask Hres Hvalid.
  rewrite (execute_process_unclipped eng self dem_path w r Hclip Hdem).
  assert (Em : Py.get (config self) "mask" = PyDict d)
    by (unfold Py.get; rewrite Hmask; reflexivity).
  assert (Eo : Py.get (config self) "output" = PyStr name)
    by (unfold Py.get; rewrite Hout; reflexivity).
  rewrite Em, Eo.
  match goal with |- context [(_ ≫= _) ?w0] => set (w1 := w0) end.
  rewrite (bind_return _ _ _ _ _ (read_band_first r band w1 Hband)).
  rewrite (bind_return _ _ _ _ _
             (evaluate_mask_dict d (Np.astype_float band) w1 lo hi Hne Hlo Hhi)).
  cbn [fst snd]. fold mask.
  set (w2 := note (Log (MsgMaskDetected (PyDict d))) w1).
  destruct (valid_fractions_percents _ Hvalid) as (ps & Hps).
  pose proof (save_as_vector_spec eng mask r name
                (note (Log (MsgExportVector (PyStr name))) w2) ps Hps) as Hspec.
  cbv zeta in Hspec. rewrite Hres in Hspec.
  match type of Hspec with _ = (_, with_file _ _ (relay_steps _ ?w0)) => set (w3 := w0) in * end.
  rewrite bind_unfold, (export_vector eng (PyDict d) name mask 0 r w2 Hext), Hspec.
  cbv beta iota. unfold log. rewrite emit_note.
  eexists. split; [reflexivity |].
  split; [| split; [| split; [| split]]].
  - cbn [note files]. rewrite with_file_lookup.
    destruct (decide (name = name)); [reflexivity | contradiction].
  - intros q Hq. cbn [note files]. rewrite with_file_lookup.
    destruct (decide (name = q)) as [->|_]; [contradiction |].
    rewrite relay_steps_files. unfold w3. cbn [note files].
    rewrite with_file_lookup. destruct (decide (name = q)) as [->|_]; [contradiction |].
    cbn [note files].
    destruct (bool_decide _); [| reflexivity].
    unfold without_file; cbn [files note]. rewrite lookup_delete_ne by congruence.
    reflexivity.
  - unfold note at 1; cbn [trace with_file].
    destruct (relay_steps_trace ps w3) as (logs & Ht & _). rewrite Ht.
    apply in_or_app. left. apply in_or_app. left.
    unfold w3, note at 1; cbn [trace]. apply in_or_app. right. left. reflexivity.
  - rewrite note_schedule_log. cbn [with_file trace]. rewrite relay_steps_schedule.
    unfold w3. rewrite note_schedule_quiet by reflexivity. cbn [with_file trace].
    rewrite note_schedule_quiet by reflexivity.
    assert (Hw2 : schedule (trace (note (Log (MsgExportVector (PyStr name))) w2))
                  = schedule (trace w)).
    { unfold w2, w1. rewrite !note_schedule_log.
      rewrite note_schedule_quiet by reflexivity. cbn [with_file trace].
      rewrite note_schedule_quiet by reflexivity. apply note_schedule_log. }
    destruct (bool_decide _); [| exact Hw2].
    cbn [without_file trace]. rewrite note_schedule_quiet by reflexivity. exact Hw2.
  - unfold note at 1; cbn [trace]. apply last_snoc.
Qed.

(** X12: The one path on which the processing step completes: a mask that is
    a non-empty mapping with numeric thresholds, and an output ending in
    .gpkg.  With no clipping configured, when the terrain analysis and
    the polygon extraction succeed, [_execute_process] returns; what it
    hands to the polygon extraction is the binary mask of band 1 of the
    analysed raster, georeferenced like that raster; the output path
    holds the [mask] layer with the extracted features; and the last
    line logged is "Process complete". *)
Theorem execute_process_polygonizes_mask (eng : Engine) (self : OpenDEM)
    (dem_path : string) (w : World) (d : gmap string pyval) (name : string)
    (r : Raster) (band : ndarray) (lo hi : option float) (fs : list Feature) :
  Py.truthy (Py.get (config self) "clipping") = false ->
  config self !! "mask" = Some (PyDict d) -> d <> ∅ ->
  bound_of d "min" lo -> bound_of d "max" hi ->
  config self !! "output" = Some (PyStr name) ->
  Py.endswith (Py.lower name) ".gpkg" = true ->
  gdal_DEMProcessing eng (files w) dem_path (Py.get (config self) "process") = inr r ->
  Bands r !! 0%nat = Some band ->
  let mask :=
    ArrU8 (Np.map (fun v => if in_mask lo hi v then 1 else 0) (Np.astype_float band)) in
  poly_result (gdal_Polygonize eng (mem_raster mask r)) = inr fs ->
  Forall valid_fraction (poly_progress (gdal_Polygonize eng (mem_raster mask r))) ->
  exists w',
    _execute_process eng self dem_path w = (Return tt, w')
    /\ files w' !! name = Some (VectorFile (mask_layer r fs))
    /\ In (Polygonize (mem_raster mask r) name) (trace w')
    /\ last (trace w') = Some (Log (MsgProcessComplete (PyStr name))).
Proof.
  intros Hclip Hmask Hne Hlo Hhi Hout Hext Hdem Hband mask Hres Hvalid.
  destruct (execute_process_masked_vector eng self dem_path w d name r band lo hi fs
              Hclip Hmask Hne Hlo Hhi Hout Hext Hdem Hband Hres Hvalid)
    as (w' & Hrun & Hfile & _ & Hpoly & _ & Hlast).
  exists w'. split; [exact Hrun |]. split; [exact Hfile |].
  split; [exact Hpoly | exact Hlast].
Qed.

Lemma execute_process_polygonizes_mask_witness :
  exists w',
    _execute_process Sample.engine
      (Sample.app "steep.gpkg" (Some (PyDict {[ "min" := PyInt 10 ]})))
      "./cache/base_elevation.tif" Sample.fresh = (Return tt, w')
    /\ files w' !! "steep.gpkg"
       = Some (VectorFile
                 (mask_layer Sample.slope
                    [ {| geometry := "POLYGON ((0 0,30 0,30 -30,0 -30,0 0))"; dn := 1 |} ]))
    /\ In (Polygonize
             (mem_raster
                (ArrU8 (Np.map (fun v => if in_mask (Some 10%float) None v then 1 else 0)
                          (Np.astype_float (ArrF64 [[5; -9999; 12]]%float))))
                Sample.slope) "steep.gpkg") (trace w')
    /\ last (trace w') = Some (Log (MsgProcessComplete (PyStr "steep.gpkg"))).
Proof.
  apply (execute_process_polygonizes_mask Sample.engine
           (Sample.app "steep.gpkg" (Some (PyDict {[ "min" := PyInt 10 ]})))
           "./cache/base_elevation.tif" Sample.fresh {[ "min" := PyInt 10 ]} "steep.gpkg"
           Sample.slope (ArrF64 [[5; -9999; 12]]%float) (Some 10%float) None).
  - reflexivity.
  - vm_compute. reflexivity.
  - apply insert_non_empty.
  - exists 10%float. split; [vm_compute; reflexivity | reflexivity].
  - reflexivity.
  - vm_compute. reflexivity.
  - vm_compute. reflexivity.
  - reflexivity.
  - reflexivity.
  - reflexivity.
  - constructor; [exists 50; vm_compute; reflexivity |].
    constructor; [exists 100; vm_compute; reflexivity | constructor].
Defined.

(** X13: A missing output is found only at the end.  With no [output] (or one
    that is not a string), no clipping and no mask, the terrain analysis
    runs, its raster is opened and read, and only then does the step
    fail, on [output_name.lower()]. *)
Theorem execute_process_without_output (eng : Engine) (self : OpenDEM)
    (dem_path : string) (w : World) (r : Raster) (band : ndarray) :
  Py.truthy (Py.get (config self) "clipping") = false ->
  Py.truthy (Py.get (config self) "mask") = false ->
  (forall name, Py.get (config self) "output" <> PyStr name) ->
  gdal_DEMProcessing eng (files w) dem_path (Py.get (config self) "process") = inr r ->
  Bands r !! 0%nat = Some band ->
  let process_type := Py.get (config self) "process" in
  let temp_proc := Py.path_join (cache_dir self) "temp_proc.tif" in
  exists w',
    _execute_process eng self dem_path w
    = (Raise (AttributeError "object has no attribute 'lower'"), w')
    /\ trace w'
       = trace w ++ [Log (MsgRunningAnalysis process_type);
                     DEMProcessing temp_proc dem_path process_type;
                     Open temp_proc; Log MsgNoMask]
    /\ files w' !! temp_proc = Some (RasterFile r).
Proof.
  intros Hclip Hmask Hout Hdem Hband process_type temp_proc.
  rewrite (execute_process_unclipped eng self dem_path w r Hclip Hdem).
  match goal with |- context [(_ ≫= _) ?w0] => set (w1 := w0) end.
  rewrite (bind_return _ _ _ _ _ (read_band_first r band w1 Hband)).
  rewrite (bind_return _ _ _ _ _
             (evaluate_mask_falsy _ (Np.astype_float band) w1 Hmask)).
  cbn [fst snd]. rewrite bind_unfold. unfold export.
  destruct (Py.get (config self) "output") as [| | | |name| |] eqn:Eo;
    try (eexists; split; [reflexivity |]; split;
         [unfold w1; cbn [note with_file trace]; rewrite <- !app_assoc; reflexivity
         | unfold w1; cbn [note with_file files]; apply lookup_insert_eq]).
  exfalso. apply (Hout name). reflexivity.
Qed.

Lemma execute_process_without_output_witness :
  let self := {| config := <[ "process" := PyStr "slope" ]> ∅; cache_dir := "./cache" |} in
  exists w',
    _execute_process Sample.engine self "./cache/base_elevation.tif" Sample.fresh
    = (Raise (AttributeError "object has no attribute 'lower'"), w')
    /\ trace w'
       = trace Sample.fresh
         ++ [Log (MsgRunningAnalysis (Py.get (config self) "process"));
             DEMProcessing (Py.path_join (cache_dir self) "temp_proc.tif")
               "./cache/base_elevation.tif" (Py.get (config self) "process");
             Open (Py.path_join (cache_dir self) "temp_proc.tif"); Log MsgNoMask]
    /\ files w' !! Py.path_join (cache_dir self) "temp_proc.tif"
       = Some (RasterFile Sample.slope).
Proof.
  cbv zeta.
  apply (execute_process_without_output Sample.engine
           {| config := <[ "process" := PyStr "slope" ]> ∅; cache_dir := "./cache" |}
           "./cache/base_elevation.tif" Sample.fresh Sample.slope
           (ArrF64 [[5; -9999; 12]]%float)).
  - reflexivity.
  - reflexivity.
  - intros name. vm_compute. discriminate.
  - reflexivity.
  - reflexivity.
Defined.

(** ** Comparing decoded values *)

Lemma sval_lt (m1 m2 : positive) (e1 e2 : Z) :
  Z.pos m1 < 2 ^ 53 -> 2 ^ 52 <= Z.pos m2 -> -1100 <= e1 < e2 ->
  sval (Z.pos m1) e1 < sval (Z.pos m2) e2.
Proof.
  unfold sval. intros H1 H2 He.
  replace (e2 + 1100) with ((e1 + 1100) + (e2 - e1)) by lia.
  rewrite (Z.pow_add_r 2 (e1 + 1100) (e2 - e1)) by lia.
  assert (HP : 0 < 2 ^ (e1 + 1100)) by (apply Z.pow_pos_nonneg; lia).
  assert (HQ : 2 ^ 1 <= 2 ^ (e2 - e1)) by (apply Z.pow_le_mono_r; lia).
  change (2 ^ 1) with 2 in HQ.
  change (2 ^ 53) with 9007199254740992 in H1.
  change (2 ^ 52) with 4503599627370496 in H2.
  set (P := 2 ^ (e1 + 1100)) in *. set (Q := 2 ^ (e2 - e1)) in *.
  assert (Ha : Z.pos m1 * P < 2 * Z.pos m2 * P) by (apply Z.mul_lt_mono_pos_r; lia).
  assert (Hb : 2 * Z.pos m2 * P <= Q * Z.pos m2 * P).
  { apply Z.mul_le_mono_nonneg_r; [lia |]. apply Z.mul_le_mono_nonneg_r; lia. }
  replace (Z.pos m2 * (P * Q)) with (Q * Z.pos m2 * P) by ring. lia.
Qed.

Lemma compare_abs_repr (m1 m2 : positive) (e1 e2 K1 K2 : Z) :
  2 ^ 52 <= Z.pos m1 < 2 ^ 53 -> 2 ^ 52 <= Z.pos m2 < 2 ^ 53 ->
  -1074 <= e1 -> -1074 <= e2 ->
  sval (Z.pos m1) e1 = Z.abs K1 * 2 ^ 1092 ->
  sval (Z.pos m2) e2 = Z.abs K2 * 2 ^ 1092 ->
  match e1 ?= e2 with
  | Lt => Lt
  | Gt => Gt
  | Eq => Pos.compare_cont Eq m1 m2
  end = (Z.abs K1 ?= Z.abs K2).
Proof.
  intros Hb1 Hb2 He1 He2 Hv1 Hv2.
  assert (HP : 0 < 2 ^ 1092) by (apply Z.pow_pos_nonneg; lia).
  set (P := 2 ^ 1092) in *.
  destruct (Z.compare_spec e1 e2) as [E|E|E].
  - subst e2. change (Pos.compare_cont Eq m1 m2) with (Z.pos m1 ?= Z.pos m2).
    unfold sval in Hv1, Hv2.
    assert (HS : 0 < 2 ^ (e1 + 1100)) by (apply Z.pow_pos_nonneg; lia).
    set (S := 2 ^ (e1 + 1100)) in *.
    destruct (Z.compare_spec (Z.pos m1) (Z.pos m2)) as [C|C|C]; symmetry.
    + apply Z.compare_eq_iff. rewrite C in Hv1. rewrite Hv1 in Hv2.
      apply Z.mul_reg_r in Hv2; lia.
    + apply Z.compare_lt_iff.
      assert (Z.pos m1 * S < Z.pos m2 * S) by (apply Z.mul_lt_mono_pos_r; lia).
      apply (Z.mul_lt_mono_pos_r P); lia.
    + apply Z.compare_gt_iff.
      assert (Z.pos m2 * S < Z.pos m1 * S) by (apply Z.mul_lt_mono_pos_r; lia).
      apply (Z.mul_lt_mono_pos_r P); lia.
  - pose proof (sval_lt m1 m2 e1 e2 ltac:(lia) ltac:(lia) ltac:(lia)) as H.
    rewrite Hv1, Hv2 in H. symmetry. apply Z.compare_lt_iff.
    apply (Z.mul_lt_mono_pos_r P); lia.
  - pose proof (sval_lt m2 m1 e2 e1 ltac:(lia) ltac:(lia) ltac:(lia)) as H.
    rewrite Hv1, Hv2 in H. symmetry. apply Z.compare_gt_iff.
    apply (Z.mul_lt_mono_pos_r P); lia.
Qed.

(** Two values standing for [K1 / 256] and [K2 / 256] compare as [K1]
    and [K2] do. *)
Lemma compare_repr (x y : spec_float) (K1 K2 : Z) :
  repr x K1 -> repr y K2 -> SFcompare x y = Some (K1 ?= K2).
Proof.
  intros Hx Hy.
  destruct x as [sx| | |sx mx ex], y as [sy| | |sy my ey]; cbn [repr] in Hx, Hy; try tauto.
  - subst. reflexivity.
  - subst K1. destruct Hy as (Hn & Hs & _). cbn [SFcompare]. subst sy. f_equal.
    destruct (Z.ltb_spec K2 0); symmetry;
      [apply Z.compare_gt_iff | apply Z.compare_lt_iff]; lia.
  - subst K2. destruct Hx as (Hn & Hs & _). cbn [SFcompare]. subst sx. f_equal.
    destruct (Z.ltb_spec K1 0); symmetry;
      [apply Z.compare_lt_iff | apply Z.compare_gt_iff]; lia.
  - destruct Hx as (Hn1 & Hs1 & Hb1 & He1 & Hv1), Hy as (Hn2 & Hs2 & Hb2 & He2 & Hv2).
    pose proof (compare_abs_repr mx my ex ey K1 K2 Hb1 Hb2 He1 He2 Hv1 Hv2) as Habs.
    cbn [SFcompare]. subst sx sy. f_equal.
    destruct (Z.ltb_spec K1 0), (Z.ltb_spec K2 0).
    + rewrite !Z.abs_neq in Habs by lia. rewrite Z.compare_opp in Habs.
      rewrite (Z.compare_antisym K2 K1), <- Habs.
      destruct (ex ?= ey); reflexivity.
    + symmetry. apply Z.compare_lt_iff. lia.
    + symmetry. apply Z.compare_gt_iff. lia.
    + rewrite !Z.abs_eq in Habs by lia. exact Habs.
Qed.

Lemma ltb_repr (x y : float) (K1 K2 : Z) :
  repr (Prim2SF x) K1 -> repr (Prim2SF y) K2 -> PrimFloat.ltb x y = (K1 <? K2).
Proof.
  intros Hx Hy. rewrite FloatAxioms.ltb_spec. unfold SFltb.
  rewrite (compare_repr _ _ _ _ Hx Hy). unfold Z.ltb. destruct (K1 ?= K2); reflexivity.
Qed.

Lemma leb_repr (x y : float) (K1 K2 : Z) :
  repr (Prim2SF x) K1 -> repr (Prim2SF y) K2 -> PrimFloat.leb x y = (K1 <=? K2).
Proof.
  intros Hx Hy. rewrite FloatAxioms.leb_spec. unfold SFleb.
  rewrite (compare_repr _ _ _ _ Hx Hy). unfold Z.leb. destruct (K1 ?= K2); reflexivity.
Qed.

Lemma eqb_repr (x y : float) (K1 K2 : Z) :
  repr (Prim2SF x) K1 -> repr (Prim2SF y) K2 -> PrimFloat.eqb x y = (K1 =? K2).
Proof.
  intros Hx Hy. rewrite FloatAxioms.eqb_spec. unfold SFeqb.
  rewrite (compare_repr _ _ _ _ Hx Hy).
  destruct (Z.compare_spec K1 K2); destruct (Z.eqb_spec K1 K2); try reflexivity; lia.
Qed.

Lemma is_nan_repr (x : float) (K : Z) : repr (Prim2SF x) K -> PrimFloat.is_nan x = false.
Proof.
  intros H. unfold PrimFloat.is_nan. rewrite (eqb_repr x x K K H H), Z.eqb_refl.
  reflexivity.
Qed.

(** The integer a byte triple stands for, in 256ths of a metre. *)
Lemma of_byte_decode_repr (R G B : Z) :
  0 <= R <= 255 -> 0 <= G <= 255 -> 0 <= B <= 255 ->
  repr (Prim2SF (decode (F64.of_byte R) (F64.of_byte G) (F64.of_byte B)))
    (65536 * R + 256 * G + B - 8388608).
Proof. apply decode_repr. Qed.

(** X14: On bytes the decode is strictly increasing in the 24-bit number
    [R * 65536 + G * 256 + B]: two triples compare as their numbers do,
    and only equal triples decode to equal elevations. *)
Theorem decode_strictly_increasing (R G B R' G' B' : Z) :
  0 <= R <= 255 -> 0 <= G <= 255 -> 0 <= B <= 255 ->
  0 <= R' <= 255 -> 0 <= G' <= 255 -> 0 <= B' <= 255 ->
  let x := decode (F64.of_byte R) (F64.of_byte G) (F64.of_byte B) in
  let y := decode (F64.of_byte R') (F64.of_byte G') (F64.of_byte B') in
  PrimFloat.ltb x y = (65536 * R + 256 * G + B <? 65536 * R' + 256 * G' + B')
  /\ (PrimFloat.eqb x y = true <-> R = R' /\ G = G' /\ B = B')
  /\ (x = y -> R = R' /\ G = G' /\ B = B').
Proof.
  intros HR HG HB HR' HG' HB' x y.
  pose proof (of_byte_decode_repr R G B HR HG HB) as Hx. fold x in Hx.
  pose proof (of_byte_decode_repr R' G' B' HR' HG' HB') as Hy. fold y in Hy.
  assert (Heq : PrimFloat.eqb x y = true <-> R = R' /\ G = G' /\ B = B').
  { rewrite (eqb_repr x y _ _ Hx Hy), Z.eqb_eq. split; [lia |].
    intros (-> & -> & ->). reflexivity. }
  split; [| split; [exact Heq |]].
  - rewrite (ltb_repr x y _ _ Hx Hy).
    destruct (Z.ltb_spec (65536 * R + 256 * G + B - 8388608)
                (65536 * R' + 256 * G' + B' - 8388608));
      symmetry; [apply Z.ltb_lt | apply Z.ltb_ge]; lia.
  - intros E. apply Heq. rewrite <- E.
    rewrite (eqb_repr x x _ _ Hx Hx). apply Z.eqb_refl.
Qed.

Lemma decode_strictly_increasing_witness :
  PrimFloat.ltb (decode (F64.of_byte 1) (F64.of_byte 255) (F64.of_byte 255))
    (decode (F64.of_byte 2) (F64.of_byte 0) (F64.of_byte 0))
  = (65536 * 1 + 256 * 255 + 255 <? 65536 * 2 + 256 * 0 + 0).
Proof.
  apply (decode_strictly_increasing 1 255 255 2 0 0); lia.
Defined.

(** X15: Every elevation decoded from bytes lies between -32768 m and
    32768 m, the upper bound excluded. *)
Theorem decode_range (R G B : Z) :
  0 <= R <= 255 -> 0 <= G <= 255 -> 0 <= B <= 255 ->
  PrimFloat.leb (-32768)%float (decode (F64.of_byte R) (F64.of_byte G) (F64.of_byte B)) = true
  /\ PrimFloat.ltb (decode (F64.of_byte R) (F64.of_byte G) (F64.of_byte B)) 32768%float = true.
Proof.
  intros HR HG HB.
  pose proof (of_byte_decode_repr R G B HR HG HB) as Hx.
  assert (Hlo : repr (Prim2SF (-32768)%float) (-8388608)).
  { vm_compute. repeat split; discriminate. }
  assert (Hhi : repr (Prim2SF 32768%float) 8388608).
  { vm_compute. repeat split; discriminate. }
  split.
  - rewrite (leb_repr _ _ _ _ Hlo Hx). apply Z.leb_le. lia.
  - rewrite (ltb_repr _ _ _ _ Hx Hhi). apply Z.ltb_lt. lia.
Qed.

Lemma decode_range_witness :
  PrimFloat.leb (-32768)%float
    (decode (F64.of_byte 255) (F64.of_byte 255) (F64.of_byte 255)) = true
  /\ PrimFloat.ltb (decode (F64.of_byte 255) (F64.of_byte 255) (F64.of_byte 255))
       32768%float = true.
Proof. apply (decode_range 255 255 255); lia. Defined.

(** ** The statistics [run] logs *)

Lemma np_map2_at {A B C} (f : A -> B -> C) (a : grid A) (b : grid B) (i j : nat) :
  Np.at_ (Np.map2 f a b) i j
  = (x ← Np.at_ a i j; y ← Np.at_ b i j; Some (f x y)).
Proof.
  unfold Np.at_, Np.map2. rewrite lookup_zip_with.
  destruct (a !! i) as [ra|]; [| reflexivity]. cbn.
  destruct (b !! i) as [rb|]; cbn.
  - rewrite lookup_zip_with. reflexivity.
  - destruct (ra !! j); reflexivity.
Qed.

Lemma in_concat_at {A} (a : grid A) (v : A) :
  In v (concat a) <-> exists i j, Np.at_ a i j = Some v.
Proof.
  rewrite in_concat. unfold Np.at_. split.
  - intros (row & Hrow & Hv).
    apply list_elem_of_In, list_elem_of_lookup in Hrow as [i Hi].
    apply list_elem_of_In, list_elem_of_lookup in Hv as [j Hj].
    exists i, j. rewrite Hi. exact Hj.
  - intros (i & j & H). destruct (a !! i) as [row|] eqn:Hi; [| discriminate].
    cbn in H. exists row. split; apply list_elem_of_In, list_elem_of_lookup; eauto.
Qed.

Lemma at_Forall {A} (P : A -> Prop) (a : grid A) (i j : nat) (v : A) :
  Forall (Forall P) a -> Np.at_ a i j = Some v -> P v.
Proof.
  unfold Np.at_. intros Ha H. destruct (a !! i) as [row|] eqn:Hi; [| discriminate].
  cbn in H. rewrite Forall_forall in Ha.
  specialize (Ha row (list_elem_of_lookup_2 _ _ _ Hi)).
  rewrite Forall_forall in Ha.
  apply Ha. apply (list_elem_of_lookup_2 _ _ _ H).
Qed.

(** Every pixel of the elevation grid of three byte bands is the decode
    of three bytes. *)
Lemma elevation_pixel_decoded (r g b : grid Z) (i j : nat) (v : float) :
  Forall (Forall (fun x => 0 <= x <= 255)) r ->
  Forall (Forall (fun x => 0 <= x <= 255)) g ->
  Forall (Forall (fun x => 0 <= x <= 255)) b ->
  Np.at_ (elevation_of (Np.astype_float (ArrU8 r)) (Np.astype_float (ArrU8 g))
            (Np.astype_float (ArrU8 b))) i j = Some v ->
  exists K, repr (Prim2SF v) K.
Proof.
  intros Hr Hg Hb. unfold elevation_of, Np.astype_float.
  rewrite np_map_at, !np_map2_at, !np_map_at.
  destruct (Np.at_ r i j) as [R|] eqn:ER; [| discriminate].
  destruct (Np.at_ g i j) as [G|] eqn:EG; [| discriminate].
  destruct (Np.at_ b i j) as [B|] eqn:EB; [| discriminate].
  cbn. intros [= <-].
  exists (65536 * R + 256 * G + B - 8388608).
  apply (of_byte_decode_repr R G B).
  - apply (at_Forall _ r i j R Hr ER).
  - apply (at_Forall _ g i j G Hg EG).
  - apply (at_Forall _ b i j B Hb EB).
Qed.

Lemma fmin_repr (x y : float) (K1 K2 : Z) :
  repr (Prim2SF x) K1 -> repr (Prim2SF y) K2 ->
  Np.fmin x y = if K2 <? K1 then y else x.
Proof.
  intros Hx Hy. unfold Np.fmin.
  rewrite (is_nan_repr x K1 Hx), (is_nan_repr y K2 Hy), (ltb_repr y x K2 K1 Hy Hx).
  reflexivity.
Qed.

Lemma fmax_repr (x y : float) (K1 K2 : Z) :
  repr (Prim2SF x) K1 -> repr (Prim2SF y) K2 ->
  Np.fmax x y = if K1 <? K2 then y else x.
Proof.
  intros Hx Hy. unfold Np.fmax.
  rewrite (is_nan_repr x K1 Hx), (is_nan_repr y K2 Hy), (ltb_repr x y K1 K2 Hx Hy).
  reflexivity.
Qed.

Lemma fold_fmin_repr (xs : list float) :
  forall (x : float) (K : Z),
    repr (Prim2SF x) K -> Forall (fun v => exists Kv, repr (Prim2SF v) Kv) xs ->
    exists Klo,
      repr (Prim2SF (fold_left Np.fmin xs x)) Klo
      /\ In (fold_left Np.fmin xs x) (x :: xs)
      /\ Klo <= K
      /\ Forall (fun v => exists Kv, repr (Prim2SF v) Kv /\ Klo <= Kv) xs.
Proof.
  induction xs as [|y xs IH]; intros x K Hx Hall.
  - exists K. cbn. repeat split; [exact Hx | left; reflexivity | lia | constructor].
  - inversion Hall as [|? ? [Ky Hy] Hrest]; subst. cbn [fold_left].
    rewrite (fmin_repr x y K Ky Hx Hy).
    destruct (Z.ltb_spec Ky K) as [Hlt|Hge].
    + destruct (IH y Ky Hy Hrest) as (Klo & H1 & H2 & H3 & H4).
      exists Klo. split; [exact H1 |]. split; [right; exact H2 |]. split; [lia |].
      constructor; [exists Ky; split; [exact Hy | lia] | exact H4].
    + destruct (IH x K Hx Hrest) as (Klo & H1 & H2 & H3 & H4).
      exists Klo. split; [exact H1 |].
      split; [destruct H2 as [H2|H2]; [left; exact H2 | right; right; exact H2] |].
      split; [lia |].
      constructor; [exists Ky; split; [exact Hy | lia] | exact H4].
Qed.

Lemma fold_fmax_repr (xs : list float) :
  forall (x : float) (K : Z),
    repr (Prim2SF x) K -> Forall (fun v => exists Kv, repr (Prim2SF v) Kv) xs ->
    exists Khi,
      repr (Prim2SF (fold_left Np.fmax xs x)) Khi
      /\ In (fold_left Np.fmax xs x) (x :: xs)
      /\ K <= Khi
      /\ Forall (fun v => exists Kv, repr (Prim2SF v) Kv /\ Kv <= Khi) xs.
Proof.
  induction xs as [|y xs IH]; intros x K Hx Hall.
  - exists K. cbn. repeat split; [exact Hx | left; reflexivity | lia | constructor].
  - inversion Hall as [|? ? [Ky Hy] Hrest]; subst. cbn [fold_left].
    rewrite (fmax_repr x y K Ky Hx Hy).
    destruct (Z.ltb_spec K Ky) as [Hlt|Hge].
    + destruct (IH y Ky Hy Hrest) as (Khi & H1 & H2 & H3 & H4).
      exists Khi. split; [exact H1 |]. split; [right; exact H2 |]. split; [lia |].
      constructor; [exists Ky; split; [exact Hy | lia] | exact H4].
    + destruct (IH x K Hx Hrest) as (Khi & H1 & H2 & H3 & H4).
      exists Khi. split; [exact H1 |].
      split; [destruct H2 as [H2|H2]; [left; exact H2 | right; right; exact H2] |].
      split; [lia |].
      constructor; [exists Ky; split; [exact Hy | lia] | exact H4].
Qed.

(** X16: On the elevation grid decoded from three byte bands with at least
    one pixel, the two reductions [run] logs as "Elevation stats" return
    the least and the greatest pixel: both are values of the grid, and
    every pixel lies between them. *)
Theorem elevation_stats_bound_every_pixel (r g b : grid Z) (i0 j0 : nat) (v0 : float) :
  Forall (Forall (fun x => 0 <= x <= 255)) r ->
  Forall (Forall (fun x => 0 <= x <= 255)) g ->
  Forall (Forall (fun x => 0 <= x <= 255)) b ->
  let elevation :=
    elevation_of (Np.astype_float (ArrU8 r)) (Np.astype_float (ArrU8 g))
      (Np.astype_float (ArrU8 b)) in
  Np.at_ elevation i0 j0 = Some v0 ->
  exists lo hi,
    Np.reduce Np.fmin elevation = Return lo
    /\ Np.reduce Np.fmax elevation = Return hi
    /\ (exists i j, Np.at_ elevation i j = Some lo)
    /\ (exists i j, Np.at_ elevation i j = Some hi)
    /\ forall i j v, Np.at_ elevation i j = Some v ->
         PrimFloat.leb lo v = true /\ PrimFloat.leb v hi = true.
Proof.
  intros Hr Hg Hb elevation H0.
  assert (Hall : Forall (fun v => exists Kv, repr (Prim2SF v) Kv) (concat elevation)).
  { apply Forall_forall. intros v Hv.
    apply list_elem_of_In, in_concat_at in Hv as (i & j & Hv).
    apply (elevation_pixel_decoded r g b i j v Hr Hg Hb Hv). }
  assert (Hin : In v0 (concat elevation)) by (apply in_concat_at; eauto).
  unfold Np.reduce.
  destruct (concat elevation) as [|x xs] eqn:Ec; [destruct Hin |].
  inversion Hall as [|? ? [K Hx] Hrest]; subst.
  destruct (fold_fmin_repr xs x K Hx Hrest) as (Klo & L1 & L2 & L3 & L4).
  destruct (fold_fmax_repr xs x K Hx Hrest) as (Khi & U1 & U2 & U3 & U4).
  exists (fold_left Np.fmin xs x), (fold_left Np.fmax xs x).
  split; [reflexivity |]. split; [reflexivity |].
  split; [apply in_concat_at; rewrite Ec; exact L2 |].
  split; [apply in_concat_at; rewrite Ec; exact U2 |].
  intros i j v Hv.
  assert (Hv' : In v (x :: xs)) by (rewrite <- Ec; apply in_concat_at; eauto).
  destruct Hv' as [<- | Hv'].
  - rewrite (leb_repr _ _ _ _ L1 Hx), (leb_repr _ _ _ _ Hx U1).
    split; apply Z.leb_le; lia.
  - rewrite Forall_forall in L4, U4. apply list_elem_of_In in Hv'.
    destruct (L4 v Hv') as (Kv & Hkv & Hle).
    destruct (U4 v Hv') as (Kv' & Hkv' & Hle').
    rewrite (leb_repr _ _ _ _ L1 Hkv), (leb_repr _ _ _ _ Hkv' U1).
    split; apply Z.leb_le; lia.
Qed.

Lemma elevation_stats_bound_every_pixel_witness :
  exists lo hi,
    Np.reduce Np.fmin
      (elevation_of (Np.astype_float (ArrU8 [[128; 0; 255]]))
         (Np.astype_float (ArrU8 [[0; 0; 255]])) (Np.astype_float (ArrU8 [[0; 0; 255]])))
    = Return lo
    /\ Np.reduce Np.fmax
         (elevation_of (Np.astype_float (ArrU8 [[128; 0; 255]]))
            (Np.astype_float (ArrU8 [[0; 0; 255]])) (Np.astype_float (ArrU8 [[0; 0; 255]])))
       = Return hi
    /\ (exists i j,
          Np.at_ (elevation_of (Np.astype_float (ArrU8 [[128; 0; 255]]))
                    (Np.astype_float (ArrU8 [[0; 0; 255]]))
                    (Np.astype_float (ArrU8 [[0; 0; 255]]))) i j = Some lo)
    /\ (exists i j,
          Np.at_ (elevation_of (Np.astype_float (ArrU8 [[128; 0; 255]]))
                    (Np.astype_float (ArrU8 [[0; 0; 255]]))
                    (Np.astype_float (ArrU8 [[0; 0; 255]]))) i j = Some hi)
    /\ forall i j v,
         Np.at_ (elevation_of (Np.astype_float (ArrU8 [[128; 0; 255]]))
                   (Np.astype_float (ArrU8 [[0; 0; 255]]))
                   (Np.astype_float (ArrU8 [[0; 0; 255]]))) i j = Some v ->
         PrimFloat.leb lo v = true /\ PrimFloat.leb v hi = true.
Proof.
  apply (elevation_stats_bound_every_pixel [[128; 0; 255]] [[0; 0; 255]] [[0; 0; 255]]
           0%nat 0%nat 0%float).
  - repeat constructor; lia.
  - repeat constructor; lia.
  - repeat constructor; lia.
  - vm_compute. reflexivity.
Defined.

(** ** The elevations in a 32-bit band *)

(** Rounding to binary32 a 53-bit mantissa whose low 29 bits are zero
    drops those bits and nothing else. *)
Lemma single_round_exact (sx : bool) (M A : positive) (e : Z) :
  Z.pos M = Z.pos A * 2 ^ 29 -> 2 ^ 23 <= Z.pos A < 2 ^ 24 -> -149 <= e + 29 <= 104 ->
  binary_round 24 128 sx M e = S754_finite sx A (e + 29).
Proof.
  intros HM HA He.
  assert (Hd : Z.pos (digits2_pos M) = 53).
  { apply digits2_unique. rewrite HM.
    change (2 ^ (53 - 1)) with (2 ^ 23 * 2 ^ 29). change (2 ^ 53) with (2 ^ 24 * 2 ^ 29).
    change (2 ^ 29) with 536870912. lia. }
  assert (HdA : Z.pos (digits2_pos A) = 24) by (apply digits2_unique; exact HA).
  assert (HMi : M = Pos.iter xO A 29).
  { apply Pos2Z.inj. rewrite iter_xO_Z. exact HM. }
  assert (Hit : SpecFloat.iter_pos shr_1 29
                  {| shr_m := Z.pos M; shr_r := false; shr_s := false |}
                = {| shr_m := Z.pos A; shr_r := false; shr_s := false |}).
  { rewrite HMi. apply iter_shr_exact. }
  unfold binary_round, fexp, SpecFloat.emin. rewrite Hd.
  replace (Z.max (53 + e - 24) (3 - 128 - 24)) with (e + 29) by lia.
  unfold shl_align. replace (e + 29 - e) with 29 by lia. cbv iota.
  unfold binary_round_aux, shr_fexp, Zdigits2, fexp, SpecFloat.emin.
  cbn [shr_record_of_loc]. rewrite Hd.
  replace (Z.max (53 + e - 24) (3 - 128 - 24) - e) with 29 by lia.
  cbn [shr]. rewrite !Hit.
  cbn [round_nearest_even loc_of_shr_record shr_m Zdigits2]. rewrite HdA.
  replace (Z.max (24 + (e + 29) - 24) (3 - 128 - 24) - (e + 29)) with 0 by lia.
  cbn [shr shr_m].
  replace (e + 29 <=? 128 - 24) with true by (symmetry; apply Z.leb_le; lia).
  reflexivity.
Qed.

(** The rational a sign, a mantissa and an exponent stand for, when
    their scaled value is that of [K / 256]. *)
Lemma sval_value (s : bool) (m : positive) (e K : Z) :
  s = (K <? 0) -> -1100 <= e ->
  sval (Z.pos m) e = Z.abs K * 2 ^ 1092 ->
  exists q, F64.SF2Q (S754_finite s m e) = Some q /\ (q == Qmake K 256)%Q.
Proof.
  intros Hs He Hv. unfold sval in Hv. cbn [F64.SF2Q].
  eexists. split; [reflexivity |].
  assert (HP : 0 < 2 ^ 1092) by (apply Z.pow_pos_nonneg; lia).
  assert (Hn : (if s then Z.neg m else Z.pos m) * Z.abs K = Z.pos m * K).
  { subst s. destruct (Z.ltb_spec K 0).
    - rewrite Z.abs_neq by lia. rewrite <- Pos2Z.opp_pos. ring.
    - rewrite Z.abs_eq by lia. ring. }
  set (n := if s then Z.neg m else Z.pos m) in *.
  assert (Hsign : forall a b : Z, 0 < b -> Z.pos m * a = Z.abs K * b -> n * a = K * b).
  { intros a b Hb E.
    assert (E' : n * a * Z.abs K = K * b * Z.abs K).
    { replace (n * a * Z.abs K) with (n * Z.abs K * a) by ring. rewrite Hn.
      replace (Z.pos m * K * a) with (Z.pos m * a * K) by ring. rewrite E. ring. }
    destruct (Z.eq_dec K 0) as [->|HK].
    - cbn in E. assert (a = 0) by nia. subst a. ring.
    - apply Z.mul_reg_r in E'; [exact E' | lia]. }
  destruct e as [|p|p]; unfold Qeq; cbn [Qnum Qden inject_Z].
  - apply (Hsign 256 1); [lia |]. change (0 + 1100) with (8 + 1092) in Hv.
    rewrite Z.pow_add_r in Hv by lia. change (2 ^ 8) with 256 in Hv.
    apply (Z.mul_reg_r _ _ (2 ^ 1092)); [lia |]. rewrite <- Z.mul_assoc, Hv. ring.
  - rewrite <- Z.mul_assoc. apply (Hsign (2 ^ Z.pos p * 256) 1); [lia |].
    replace (Z.pos p + 1100) with (Z.pos p + 8 + 1092) in Hv by lia.
    rewrite (Z.pow_add_r 2 (Z.pos p + 8)), (Z.pow_add_r 2 (Z.pos p)) in Hv by lia.
    change (2 ^ 8) with 256 in Hv.
    apply (Z.mul_reg_r _ _ (2 ^ 1092)); [lia |]. rewrite <- Z.mul_assoc, Hv. ring.
  - rewrite Pos2Z.inj_pow.
    assert (HQ : 0 < 2 ^ Z.pos p) by (apply Z.pow_pos_nonneg; lia).
    apply (Hsign 256 (2 ^ Z.pos p)); [exact HQ |].
    assert (HS : 0 < 2 ^ (Z.neg p + 1100)) by (apply Z.pow_pos_nonneg; lia).
    apply (Z.mul_reg_r _ _ (2 ^ (Z.neg p + 1100))); [lia |].
    replace (Z.pos m * 256 * 2 ^ (Z.neg p + 1100))
      with (Z.pos m * 2 ^ (Z.neg p + 1100) * 256) by ring.
    rewrite Hv.
    replace (Z.abs K * 2 ^ Z.pos p * 2 ^ (Z.neg p + 1100))
      with (Z.abs K * (2 ^ Z.pos p * 2 ^ (Z.neg p + 1100))) by ring.
    rewrite <- Z.pow_add_r by lia.
    replace (Z.pos p + (Z.neg p + 1100)) with (1092 + 8) by lia.
    rewrite Z.pow_add_r by lia. change (2 ^ 8) with 256. ring.
Qed.

Lemma decode_rational (R G B : Z) :
  (Qmake (65536 * R + 256 * G + B - 8388608) 256
   == inject_Z R * 256 + inject_Z G + inject_Z B / 256 - 32768)%Q.
Proof.
  rewrite Qmake_Qdiv. unfold Zminus.
  rewrite !inject_Z_plus, !inject_Z_mult, inject_Z_opp.
  change (inject_Z 65536) with 65536%Q. change (inject_Z 256) with 256%Q.
  change (inject_Z (Z.pos 256)) with 256%Q. change (inject_Z 8388608) with 8388608%Q.
  field.
Qed.

(** X17: Saving the elevations as 32-bit reals loses nothing: every
    elevation decoded from three bytes is a binary32 number, so the
    sample a [GDT_Float32] band keeps of it is still exactly
    [R * 256 + G + B / 256 - 32768]. *)
Theorem decoded_elevation_fits_float32 (R G B : Z) :
  0 <= R <= 255 -> 0 <= G <= 255 -> 0 <= B <= 255 ->
  exists q,
    F64.SF2Q (F32.of_float64 (decode (F64.of_byte R) (F64.of_byte G) (F64.of_byte B)))
    = Some q
    /\ (q == inject_Z R * 256 + inject_Z G + inject_Z B / 256 - 32768)%Q.
Proof.
  intros HR HG HB.
  pose proof (of_byte_decode_repr R G B HR HG HB) as Hx.
  set (K := 65536 * R + 256 * G + B - 8388608) in *.
  assert (HK : Z.abs K <= 2 ^ 23) by (change (2 ^ 23) with 8388608; unfold K; lia).
  unfold F32.of_float64.
  destruct (Prim2SF (decode (F64.of_byte R) (F64.of_byte G) (F64.of_byte B)))
    as [s| | |s m e]; cbn [repr] in Hx; try tauto.
  - exists 0%Q. split; [reflexivity |]. rewrite <- decode_rational. fold K. rewrite Hx.
    reflexivity.
  - destruct Hx as (Hn & Hs & Hb & He & Hv).
    pose proof (repr_exponent m e (Z.abs K) Hb He
                  ltac:(change (2 ^ 53) with 9007199254740992;
                        change (2 ^ 23) with 8388608 in HK; lia) Hv) as Hex.
    pose proof (sval_aligned m e (Z.abs K) ltac:(lia) Hv) as Hm.
    assert (Hshift : 29 <= -8 - e).
    { destruct (Z_le_gt_dec 29 (-8 - e)) as [|Hlt]; [assumption | exfalso].
      assert (H1 : 2 ^ (-8 - e) <= 2 ^ 28) by (apply Z.pow_le_mono_r; lia).
      assert (H2 : 0 < 2 ^ (-8 - e)) by (apply Z.pow_pos_nonneg; lia).
      assert (H3 : Z.pos m <= 2 ^ 23 * 2 ^ 28).
      { rewrite Hm. apply Z.mul_le_mono_nonneg; lia. }
      change (2 ^ 23 * 2 ^ 28) with 2251799813685248 in H3.
      change (2 ^ 52) with 4503599627370496 in Hb. lia. }
    set (k := -8 - e - 29) in *.
    assert (Hk : 0 < 2 ^ k) by (apply Z.pow_pos_nonneg; unfold k; lia).
    assert (Hm' : Z.pos m = Z.abs K * 2 ^ k * 2 ^ 29).
    { rewrite Hm, <- Z.mul_assoc, <- Z.pow_add_r by (unfold k; lia).
      f_equal. f_equal. unfold k. lia. }
    assert (HA : 0 < Z.abs K * 2 ^ k) by nia.
    destruct (Z.abs K * 2 ^ k) as [|A|A] eqn:EA; try lia.
    assert (HAb : 2 ^ 23 <= Z.pos A < 2 ^ 24).
    { change (2 ^ 52) with (2 ^ 23 * 2 ^ 29) in Hb.
      change (2 ^ 53) with (2 ^ 24 * 2 ^ 29) in Hb.
      rewrite Hm' in Hb. change (2 ^ 29) with 536870912 in Hb. lia. }
    rewrite (single_round_exact s m A e Hm' HAb ltac:(lia)).
    destruct (sval_value s A (e + 29) K Hs ltac:(lia)) as (q & Hq & Eq).
    + unfold sval. rewrite <- EA, <- Z.mul_assoc, <- Z.pow_add_r by (unfold k; lia).
      f_equal. f_equal. unfold k. lia.
    + exists q. split; [exact Hq |]. rewrite Eq. apply decode_rational.
Qed.

Lemma decoded_elevation_fits_float32_witness :
  exists q,
    F64.SF2Q (F32.of_float64 (decode (F64.of_byte 255) (F64.of_byte 255) (F64.of_byte 255)))
    = Some q
    /\ (q == inject_Z 255 * 256 + inject_Z 255 + inject_Z 255 / 256 - 32768)%Q.
Proof. apply (decoded_elevation_fits_float32 255 255 255); lia. Defined.

(** ** The mask evaluator on unusual input *)

Lemma is_nan_Prim2SF (v : float) : PrimFloat.is_nan v = true -> Prim2SF v = S754_nan.
Proof.
  unfold PrimFloat.is_nan. rewrite FloatAxioms.eqb_spec. unfold SFeqb, SFcompare.
  destruct (Prim2SF v) as [s|s| |s m e]; try reflexivity.
  - discriminate.
  - destruct s; discriminate.
  - rewrite Z.compare_refl, Pos.compare_cont_refl. destruct s; discriminate.
Qed.

Lemma not_nan_Prim2SF (v : float) : PrimFloat.is_nan v = false -> Prim2SF v <> S754_nan.
Proof.
  unfold PrimFloat.is_nan. rewrite FloatAxioms.eqb_spec. intros H E. rewrite E in H.
  discriminate.
Qed.

Lemma leb_nan_r (t v : float) : PrimFloat.is_nan v = true -> PrimFloat.leb t v = false.
Proof.
  intros H. rewrite FloatAxioms.leb_spec, (is_nan_Prim2SF v H).
  unfold SFleb, SFcompare. destruct (Prim2SF t); reflexivity.
Qed.

Lemma leb_nan_l (t v : float) : PrimFloat.is_nan v = true -> PrimFloat.leb v t = false.
Proof.
  intros H. rewrite FloatAxioms.leb_spec, (is_nan_Prim2SF v H). reflexivity.
Qed.

Lemma eqb_nan_l (t v : float) : PrimFloat.is_nan v = true -> PrimFloat.eqb v t = false.
Proof.
  intros H. rewrite FloatAxioms.eqb_spec, (is_nan_Prim2SF v H). reflexivity.
Qed.

Lemma leb_refl (v : float) : PrimFloat.is_nan v = false -> PrimFloat.leb v v = true.
Proof.
  intros H. apply not_nan_Prim2SF in H. rewrite FloatAxioms.leb_spec.
  unfold SFleb, SFcompare.
  destruct (Prim2SF v) as [s|s| |s m e]; try reflexivity.
  - destruct s; reflexivity.
  - contradiction.
  - rewrite Z.compare_refl, Pos.compare_cont_refl. destruct s; reflexivity.
Qed.

(** X18: A NaN pixel fails every threshold but differs from the nodata
    value: on a mask that is a non-empty mapping it is 0 as soon as [min]
    or [max] is given, and 1 when neither is. *)
Theorem mask_nan_pixel (d : gmap string pyval) (data : grid float) (w : World)
    (lo hi : option float) (i j : nat) (v : float) :
  d <> ∅ -> bound_of d "min" lo -> bound_of d "max" hi ->
  Np.at_ data i j = Some v -> PrimFloat.is_nan v = true ->
  exists out,
    fst (evaluate_mask (PyDict d) data w) = Return (ArrU8 out, 0)
    /\ Np.at_ out i j = Some (match lo, hi with None, None => 1 | _, _ => 0 end).
Proof.
  intros Hne Hlo Hhi Hv Hnan.
  rewrite (evaluate_mask_dict d data w lo hi Hne Hlo Hhi). cbn [fst].
  eexists. split; [reflexivity |].
  rewrite np_map_at, Hv. cbn. f_equal. unfold in_mask, not_nodata.
  rewrite (eqb_nan_l _ v Hnan).
  destruct lo as [tlo|], hi as [thi|];
    rewrite ?(leb_nan_r _ v Hnan), ?(leb_nan_l _ v Hnan); reflexivity.
Qed.

Lemma mask_nan_pixel_witness :
  exists out,
    fst (evaluate_mask (PyDict {[ "min" := PyInt 10 ]}) [[5; nan; 12]]%float Sample.fresh)
    = Return (ArrU8 out, 0)
    /\ Np.at_ out 0 1
       = Some (match Some 10%float, @None float with None, None => 1 | _, _ => 0 end).
Proof.
  apply (mask_nan_pixel {[ "min" := PyInt 10 ]} [[5; nan; 12]]%float Sample.fresh
           (Some 10%float) None 0%nat 1%nat nan).
  - apply insert_non_empty.
  - exists 10%float. split; [vm_compute; reflexivity | reflexivity].
  - reflexivity.
  - reflexivity.
  - reflexivity.
Defined.

(** X19: The thresholds are inclusive: a pixel equal to both [min] and [max]
    (and that is a number other than the nodata value) is in the mask. *)
Theorem mask_thresholds_inclusive (d : gmap string pyval) (data : grid float) (w : World)
    (i j : nat) (t : float) :
  bound_of d "min" (Some t) -> bound_of d "max" (Some t) ->
  Np.at_ data i j = Some t ->
  PrimFloat.is_nan t = false -> not_nodata t = true ->
  exists out,
    fst (evaluate_mask (PyDict d) data w) = Return (ArrU8 out, 0)
    /\ Np.at_ out i j = Some 1.
Proof.
  intros Hlo Hhi Hv Hnan Hnd.
  assert (Hne : d <> ∅).
  { intros ->. unfold bound_of in Hlo. rewrite lookup_empty in Hlo. discriminate. }
  rewrite (evaluate_mask_dict d data w (Some t) (Some t) Hne Hlo Hhi). cbn [fst].
  eexists. split; [reflexivity |].
  rewrite np_map_at, Hv. cbn. unfold in_mask. rewrite (leb_refl t Hnan), Hnd. reflexivity.
Qed.

Lemma mask_thresholds_inclusive_witness :
  exists out,
    fst (evaluate_mask (PyDict (<[ "max" := PyInt 12 ]> {[ "min" := PyInt 12 ]}))
           [[5; -9999; 12]]%float Sample.fresh) = Return (ArrU8 out, 0)
    /\ Np.at_ out 0 2 = Some 1.
Proof.
  apply (mask_thresholds_inclusive (<[ "max" := PyInt 12 ]> {[ "min" := PyInt 12 ]})
           [[5; -9999; 12]]%float Sample.fresh 0%nat 2%nat 12%float).
  - exists 12%float. split; [vm_compute; reflexivity | reflexivity].
  - exists 12%float. split; [vm_compute; reflexivity | reflexivity].
  - reflexivity.
  - reflexivity.
  - vm_compute. reflexivity.
Defined.

(** X20: A truthy [mask] that is not a mapping never applies a threshold: the
    evaluator logs "Mask detected" and then either raises a [TypeError]
    or marks every pixel that differs from the nodata value.  A number
    or [True] always raises; a string or a list raises exactly when it
    contains [min] or [max]. *)
Theorem mask_not_a_mapping (mask_cfg : pyval) (data : grid float) (w : World) :
  Py.truthy mask_cfg = true -> (forall d, mask_cfg <> PyDict d) ->
  let w1 := note (Log (MsgMaskDetected mask_cfg)) w in
  let plain := ArrU8 (Np.map (fun v => if not_nodata v then 1 else 0) data) in
  ((exists what, evaluate_mask mask_cfg data w = (Raise (TypeError what), w1))
   \/ evaluate_mask mask_cfg data w = (Return (plain, 0), w1))
  /\ (match mask_cfg with PyBool _ | PyInt _ | PyFloat _ => True | _ => False end ->
      evaluate_mask mask_cfg data w
      = (Raise (TypeError "argument is not iterable"), w1))
  /\ (Py.has_key "min" mask_cfg = Return false ->
      Py.has_key "max" mask_cfg = Return false ->
      evaluate_mask mask_cfg data w = (Return (plain, 0), w1)).
Proof.
  intros Htruthy Hnd w1 plain.
  assert (Hplain : Np.where_1_0 (Np.map2 andb (Np.ones_like data) (Np.map not_nodata data))
                   = Np.map (fun v => if not_nodata v then 1 else 0) data).
  { unfold Np.where_1_0, Np.ones_like. rewrite np_map2_map, np_map_map. reflexivity. }
  assert (Hstep : forall key cmp condition,
             threshold mask_cfg key cmp data condition w1
             = match Py.has_key key mask_cfg with
               | Return true => (Raise (TypeError "indices must be integers"), w1)
               | Return false => (Return condition, w1)
               | Raise e => (Raise e, w1)
               | OutOfFuel => (OutOfFuel, w1)
               end).
  { intros key cmp condition. unfold threshold. rewrite bind_unfold. unfold lift at 1.
    destruct (Py.has_key key mask_cfg) as [[|]|e|]; try reflexivity.
    rewrite bind_unfold. unfold lift at 1, Py.subscript.
    destruct mask_cfg; try reflexivity. exfalso. eapply Hnd. reflexivity. }
  assert (Heval : evaluate_mask mask_cfg data w
                  = match Py.has_key "min" mask_cfg, Py.has_key "max" mask_cfg with
                    | Return false, Return false => (Return (plain, 0), w1)
                    | Return true, _ | Return false, Return true =>
                        (Raise (TypeError "indices must be integers"), w1)
                    | Raise e, _ | Return false, Raise e => (Raise e, w1)
                    | _, _ => (OutOfFuel, w1)
                    end).
  { unfold evaluate_mask. rewrite Htruthy.
    rewrite bind_unfold. unfold log. rewrite emit_note. cbv beta iota zeta. fold w1.
    rewrite bind_unfold, Hstep.
    destruct (Py.has_key "min" mask_cfg) as [[|]|e|]; try reflexivity.
    rewrite bind_unfold, Hstep.
    destruct (Py.has_key "max" mask_cfg) as [[|]|e|]; try reflexivity.
    unfold mret, M_ret, plain. rewrite Hplain. reflexivity. }
  split; [| split].
  - rewrite Heval.
    destruct mask_cfg as [| b | z | f | s | l | d]; cbn [Py.has_key];
      try (left; eexists; reflexivity).
    + destruct (Py.contains "min" s); [left; eexists; reflexivity |].
      destruct (Py.contains "max" s); [left; eexists; reflexivity | right; reflexivity].
    + destruct (existsb _ l); [left; eexists; reflexivity |].
      destruct (existsb _ l); [left; eexists; reflexivity | right; reflexivity].
    + exfalso. eapply Hnd. reflexivity.
  - rewrite Heval. destruct mask_cfg; intros []; reflexivity.
  - intros Hmin Hmax. rewrite Heval, Hmin, Hmax. reflexivity.
Qed.

Lemma mask_not_a_mapping_witness :
  evaluate_mask (PyBool true) [[5; -9999; 12]]%float Sample.fresh
  = (Raise (TypeError "argument is not iterable"),
     note (Log (MsgMaskDetected (PyBool true))) Sample.fresh).
Proof.
  apply (mask_not_a_mapping (PyBool true) [[5; -9999; 12]]%float Sample.fresh).
  - reflexivity.
  - intros d. discriminate.
  - exact I.
Defined.

(** ** The descriptor text *)

Lemma append_assoc (a b c : string) : (a +:+ b) +:+ c = a +:+ (b +:+ c).
Proof.
  induction a as [|x a IH]; [reflexivity |].
  change (String x ((a +:+ b) +:+ c) = String x (a +:+ (b +:+ c))). f_equal. exact IH.
Qed.

Lemma append_nil_r (s : string) : s +:+ "" = s.
Proof.
  induction s as [|x s IH]; [reflexivity |].
  change (String x (s +:+ "") = String x s). f_equal. exact IH.
Qed.

Lemma rev_app_append (s acc : string) :
  String.rev_app s acc = String.rev_app s "" +:+ acc.
Proof.
  revert acc. induction s as [|x s IH]; intros acc; [reflexivity |].
  change (String.rev_app s (String x acc) = String.rev_app s (String x "") +:+ acc).
  rewrite (IH (String x acc)), (IH (String x "")), append_assoc. reflexivity.
Qed.

Lemma rev_append (a b : string) : String.rev (a +:+ b) = String.rev b +:+ String.rev a.
Proof.
  unfold String.rev. induction a as [|x a IH].
  - change (String.rev_app b "" = String.rev_app b "" +:+ "").
    symmetry. apply append_nil_r.
  - change (String.rev_app (a +:+ b) (String x "")
            = String.rev_app b "" +:+ String.rev_app a (String x "")).
    rewrite (rev_app_append (a +:+ b)), IH, (rev_app_append a (String x "")).
    apply append_assoc.
Qed.

Lemma rev_rev (s : string) : String.rev (String.rev s) = s.
Proof.
  induction s as [|x s IH]; [reflexivity |].
  change (String x s) with (String x "" +:+ s) at 1.
  rewrite rev_append, rev_append, IH. reflexivity.
Qed.

(** [strip] leaves alone a text whose first and last characters are not
    white space. *)
Lemma strip_between (c c' : ascii) (body : string) :
  is_space c = false -> is_space c' = false ->
  strip (String c (body +:+ String c' "")) = String c (body +:+ String c' "").
Proof.
  intros Hc Hc'. unfold strip. cbn [lstrip]. rewrite Hc.
  change (String c (body +:+ String c' "")) with (String c body +:+ String c' "").
  rewrite rev_append. change (String.rev (String c' "")) with (String c' "").
  change (String c' "" +:+ String.rev (String c body))
    with (String c' (String.rev (String c body))).
  cbn [lstrip]. rewrite Hc'.
  change (String c' (String.rev (String c body)))
    with (String c' "" +:+ String.rev (String c body)).
  rewrite rev_append, rev_rev. reflexivity.
Qed.

Lemma ends_in_append (a b : string) (c : ascii) :
  (exists body, b = body +:+ String c "") -> exists body, a +:+ b = body +:+ String c "".
Proof. intros [body ->]. exists (a +:+ body). symmetry. apply append_assoc. Qed.

(** X21: The descriptor is written as the template gives it: its text starts
    with [<] and ends with [>] whatever the source and the cache path
    are, so the [strip] before the write removes nothing. *)
Theorem generate_vrt_writes_template (eng : Engine) (self : OpenDEM) (w : World)
    (source : pyval) :
  config self !! "source" = Some source ->
  let vrt_path := Py.path_join (cache_dir self) "source.vrt" in
  let text := vrt_template (py_str eng source) (os_abspath eng (cache_dir self)) in
  strip text = text
  /\ _generate_vrt eng self w
     = (Return vrt_path,
        with_file vrt_path (TextFile text) (note (WriteText vrt_path text) w)).
Proof.
  intros Hsrc vrt_path text.
  assert (Hstrip : strip text = text).
  { assert (Hshape : exists body, text = String "<" (body +:+ ">")).
    { unfold text, vrt_template. cbn [unlines].
      match goal with
      | |- exists body, "<GDAL_WMS>" +:+ ?rest = _ =>
          assert (Hrest : exists body, "GDAL_WMS>" +:+ rest = body +:+ ">")
      end.
      { repeat apply ends_in_append. exists "</GDAL_WMS". reflexivity. }
      destruct Hrest as [body Hbody]. exists body. rewrite <- Hbody. reflexivity. }
    destruct Hshape as [body ->]. apply strip_between; reflexivity. }
  split; [exact Hstrip |].
  rewrite (generate_vrt_spec eng self w source Hsrc). cbv zeta.
  fold vrt_path text. rewrite Hstrip. reflexivity.
Qed.

Lemma generate_vrt_writes_template_witness :
  let self := Sample.app "steep.gpkg" None in
  let text :=
    vrt_template
      (py_str Sample.engine (PyStr "https://example.org/terrarium/${z}/${x}/${y}.png"))
      (os_abspath Sample.engine (cache_dir self)) in
  strip text = text
  /\ _generate_vrt Sample.engine self Sample.fresh
     = (Return (Py.path_join (cache_dir self) "source.vrt"),
        with_file (Py.path_join (cache_dir self) "source.vrt") (TextFile text)
          (note (WriteText (Py.path_join (cache_dir self) "source.vrt") text) Sample.fresh)).
Proof.
  cbv zeta.
  apply (generate_vrt_writes_template Sample.engine (Sample.app "steep.gpkg" None)
           Sample.fresh (PyStr "https://example.org/terrarium/${z}/${x}/${y}.png")).
  reflexivity.
Defined.

(** ** The paths a run writes *)

Lemma length_append (a b : string) :
  String.length (a +:+ b) = (String.length a + String.length b)%nat.
Proof.
  induction a as [|x a IH]; [reflexivity |].
  change (S (String.length (a +:+ b)) = S (String.length a + String.length b)).
  f_equal. exact IH.
Qed.

Lemma substring_append_skip (a b : string) (n k : nat) :
  String.substring (String.length a + n) k (a +:+ b) = String.substring n k b.
Proof. induction a as [|x a IH]; [reflexivity | exact IH]. Qed.

(** Whether a text ends with a suffix is decided by its own end. *)
Lemma endswith_append (a b suf : string) :
  (String.length suf <= String.length b)%nat ->
  Py.endswith (a +:+ b) suf = Py.endswith b suf.
Proof.
  intros H. unfold Py.endswith. rewrite length_append.
  replace (String.length a + String.length b - String.length suf)%nat
    with (String.length a + (String.length b - String.length suf))%nat by lia.
  rewrite substring_append_skip.
  replace (String.length suf <=? String.length a + String.length b)%nat with true
    by (symmetry; apply Nat.leb_le; lia).
  replace (String.length suf <=? String.length b)%nat with true
    by (symmetry; apply Nat.leb_le; lia).
  reflexivity.
Qed.

Lemma lower_append (a b : string) : Py.lower (a +:+ b) = Py.lower a +:+ Py.lower b.
Proof.
  induction a as [|x a IH]; [reflexivity |].
  change (String (Py.lower_ascii x) (Py.lower (a +:+ b))
          = String (Py.lower_ascii x) (Py.lower a +:+ Py.lower b)).
  f_equal. exact IH.
Qed.

(** [os.path.join] of a directory and a relative name is the name behind
    a prefix that depends on the directory alone. *)
Lemma path_join_append (a b : string) :
  String.prefix "/" b = false ->
  Py.path_join a b
  = (if String.eqb a "" then "" else if Py.endswith a "/" then a else a +:+ "/") +:+ b.
Proof.
  intros H. unfold Py.path_join. rewrite H.
  destruct (String.eqb a ""); [reflexivity |].
  destruct (Py.endswith a "/"); [reflexivity | symmetry; apply append_assoc].
Qed.

Lemma path_join_inj (dir n1 n2 : string) :
  String.prefix "/" n1 = false -> String.prefix "/" n2 = false ->
  Py.path_join dir n1 = Py.path_join dir n2 -> n1 = n2.
Proof.
  intros R1 R2 E. rewrite (path_join_append dir n1 R1), (path_join_append dir n2 R2) in E.
  apply String.app_inj in E. exact E.
Qed.

(** A path ending in .gpkg is not a directory joined with a name that
    ends otherwise. *)
Lemma gpkg_not_joined (dir n output : string) :
  String.prefix "/" n = false -> (5 <= String.length n)%nat ->
  Py.endswith (Py.lower n) ".gpkg" = false ->
  Py.endswith (Py.lower output) ".gpkg" = true ->
  output <> Py.path_join dir n.
Proof.
  intros R L E Hext ->. rewrite (path_join_append dir n R), lower_append in Hext.
  rewrite endswith_append in Hext.
  - rewrite E in Hext. discriminate.
  - clear -L. revert L. generalize n. clear n.
    assert (Hlen : forall s, String.length (Py.lower s) = String.length s).
    { induction s as [|x s IH]; [reflexivity |].
      change (S (String.length (Py.lower s)) = S (String.length s)). f_equal. exact IH. }
    intros n L. rewrite Hlen. exact L.
Qed.

(** The names of the five intermediate files. *)
Lemma intermediate_relative (name : string) :
  In name ["source.vrt"; "temp_rgb.tif"; "base_elevation.tif"; "temp_proc.tif";
           "final_clipped.tif"] ->
  String.prefix "/" name = false
  /\ (5 <= String.length name)%nat
  /\ Py.endswith (Py.lower name) ".gpkg" = false.
Proof.
  intros H. repeat (destruct H as [<- | H]; [repeat split; cbn; lia |]). destruct H.
Qed.

(** X22: The six paths a run can write are pairwise distinct: two different
    intermediate names give different paths in one cache directory, and
    a path the vector export accepts (one ending in .gpkg, in any letter
    case) is never the path of an intermediate file. *)
Theorem written_paths_distinct (dir : string) (n1 n2 : string) :
  In n1 ["source.vrt"; "temp_rgb.tif"; "base_elevation.tif"; "temp_proc.tif";
         "final_clipped.tif"] ->
  In n2 ["source.vrt"; "temp_rgb.tif"; "base_elevation.tif"; "temp_proc.tif";
         "final_clipped.tif"] ->
  (n1 <> n2 -> Py.path_join dir n1 <> Py.path_join dir n2)
  /\ (forall output, Py.endswith (Py.lower output) ".gpkg" = true ->
        output <> Py.path_join dir n1).
Proof.
  intros H1 H2.
  destruct (intermediate_relative n1 H1) as (R1 & L1 & E1).
  destruct (intermediate_relative n2 H2) as (R2 & _ & _).
  split.
  - intros Hne E. apply Hne. apply (path_join_inj dir n1 n2 R1 R2 E).
  - intros output Hext. apply (gpkg_not_joined dir n1 output R1 L1 E1 Hext).
Qed.

Lemma written_paths_distinct_witness :
  ("base_elevation.tif" <> "temp_proc.tif" ->
   Py.path_join "./cache" "base_elevation.tif" <> Py.path_join "./cache" "temp_proc.tif")
  /\ (forall output, Py.endswith (Py.lower output) ".gpkg" = true ->
        output <> Py.path_join "./cache" "base_elevation.tif").
Proof.
  apply (written_paths_distinct "./cache" "base_elevation.tif" "temp_proc.tif").
  - right; right; left; reflexivity.
  - right; right; right; left; reflexivity.
Defined.

(** The loop when the next [k] warps fail with a network signature and
    the one after them fails otherwise. *)
Lemma warp_loop_stops (eng : Engine) (self : OpenDEM) (vrt_path temp_rgb : string)
    (bounds resolution : pyval) (e : exn) :
  config self !! "bounds" = Some bounds ->
  config self !! "resolution" = Some resolution ->
  (forall i fs a, Forall valid_fraction (warp_progress (gdal_Warp eng i fs a))) ->
  transient e = false ->
  forall (k fuel : nat) (attempt : Z) (w : World),
    0 <= attempt -> attempt + Z.of_nat k < max_retries -> (k < fuel)%nat ->
    (forall i fs a, (i < k)%nat -> exists msg,
        warp_result (gdal_Warp eng (warp_count (trace w) + i) fs a) = inl (RuntimeError msg)
        /\ network_glitch msg = true) ->
    (forall fs a, warp_result (gdal_Warp eng (warp_count (trace w) + k) fs a) = inl e) ->
    exists w',
      warp_loop eng fuel self vrt_path temp_rgb attempt false w = (Raise e, w')
      /\ schedule (trace w') = schedule (trace w) ++ retries k ++ [Attempt].
Proof.
  intros Hb Hr Hvalid Hnt.
  induction k as [|k IH]; intros fuel attempt w Ha Hlt Hfuel Hglitch Hbad.
  - destruct fuel as [|fuel]; [lia |].
    cbn [warp_loop].
    replace (attempt <? max_retries) with true by (symmetry; apply Z.ltb_lt; lia).
    cbn [andb negb].
    set (a := acquisition_args temp_rgb vrt_path bounds resolution).
    destruct (valid_fractions_percents _ (Hvalid (warp_count (trace w)) (files w) a))
      as (ps & Hps).
    rewrite bind_unfold.
    rewrite (warp_attempt_spec eng self vrt_path temp_rgb attempt w bounds resolution ps
               Hb Hr Hps).
    fold a. specialize (Hbad (files w) a). rewrite Nat.add_0_r in Hbad. rewrite Hbad.
    cbv zeta.
    match goal with
    | |- context [left_at ?p ?l ?w0] => set (w2 := left_at p l w0)
    end.
    assert (Hs2 : schedule (trace w2) = schedule (trace w) ++ [Attempt]).
    { unfold w2. rewrite left_at_trace, relay_steps_schedule.
      unfold note at 1; cbn [trace]. rewrite schedule_app, note_schedule_log.
      reflexivity. }
    exists w2. split; [| exact Hs2].
    destruct e; try reflexivity. cbn [transient] in Hnt. rewrite Hnt. reflexivity.
  - destruct fuel as [|fuel]; [lia |].
    cbn [warp_loop].
    replace (attempt <? max_retries) with true by (symmetry; apply Z.ltb_lt; lia).
    cbn [andb negb].
    set (a := acquisition_args temp_rgb vrt_path bounds resolution).
    destruct (valid_fractions_percents _ (Hvalid (warp_count (trace w)) (files w) a))
      as (ps & Hps).
    destruct (Hglitch O (files w) a ltac:(lia)) as (msg & He & Hg).
    rewrite Nat.add_0_r in He.
    rewrite bind_unfold.
    rewrite (warp_attempt_spec eng self vrt_path temp_rgb attempt w bounds resolution ps
               Hb Hr Hps).
    fold a. rewrite He, Hg.
    replace (attempt + 1 <? max_retries) with true by (symmetry; apply Z.ltb_lt; lia).
    cbv iota zeta. cbn [fst snd].
    match goal with |- context [warp_loop _ _ _ _ _ _ _ ?w0] => set (w4 := w0) end.
    assert (Hc : warp_count (trace w4) = S (warp_count (trace w))).
    { unfold w4. unfold note at 1; cbn [trace]. rewrite warp_count_app.
      rewrite !note_warp_count_log, left_at_trace, relay_steps_warp_count.
      unfold note at 1; cbn [trace]. rewrite warp_count_app, note_warp_count_log.
      cbn. lia. }
    assert (Hs : schedule (trace w4) = schedule (trace w) ++ [Attempt; Delay 10]).
    { unfold w4. unfold note at 1; cbn [trace]. rewrite schedule_app, !note_schedule_log.
      rewrite left_at_trace, relay_steps_schedule.
      unfold note at 1; cbn [trace]. rewrite schedule_app, note_schedule_log.
      rewrite <- app_assoc. reflexivity. }
    destruct (IH fuel (attempt + 1) w4) as (w' & Hrun & Hsched);
      [lia | lia | lia | | |].
    + intros i fs a0 Hi. rewrite Hc.
      replace (S (warp_count (trace w)) + i)%nat
        with (warp_count (trace w) + S i)%nat by lia.
      apply Hglitch. lia.
    + intros fs a0. rewrite Hc.
      replace (S (warp_count (trace w)) + k)%nat
        with (warp_count (trace w) + S k)%nat by lia.
      apply Hbad.
    + exists w'. split; [exact Hrun |].
      rewrite Hsched, Hs. cbn [retries]. rewrite <- !app_assoc. reflexivity.
Qed.

(** X23: An error that is not a network glitch ends the loop at once,
    whenever it comes: when the next [k] warps ([k] at most 4) fail with
    a network signature and the one after them raises anything else, the
    acquisition, and with it the run, raises that very exception after
    exactly [k + 1] attempts and [k] sleeps, and no later attempt is
    made. *)
Theorem acquire_stops_on_other_error (eng : Engine) (self : OpenDEM) (w : World)
    (source bounds resolution : pyval) (k : nat) (e : exn) :
  config self !! "source" = Some source ->
  config self !! "bounds" = Some bounds ->
  config self !! "resolution" = Some resolution ->
  (k <= 4)%nat -> transient e = false ->
  (forall i fs a, (i < k)%nat -> exists msg,
      warp_result (gdal_Warp eng (warp_count (trace w) + i) fs a) = inl (RuntimeError msg)
      /\ network_glitch msg = true) ->
  (forall fs a, warp_result (gdal_Warp eng (warp_count (trace w) + k) fs a) = inl e) ->
  (forall i fs a, Forall valid_fraction (warp_progress (gdal_Warp eng i fs a))) ->
  exists w',
    acquire eng self w = (Raise e, w')
    /\ run eng self w = (Raise e, w')
    /\ schedule (trace w') = schedule (trace w) ++ retries k ++ [Attempt].
Proof.
  intros Hsrc Hb Hr Hk Hnt Hglitch Hbad Hvalid.
  set (vrt_path := Py.path_join (cache_dir self) "source.vrt").
  set (temp_rgb := Py.path_join (cache_dir self) "temp_rgb.tif").
  pose proof (generate_vrt_spec eng self w source Hsrc) as Hvrt. cbv zeta in Hvrt.
  fold vrt_path in Hvrt.
  match type of Hvrt with _ = (_, ?w0) => set (w1 := w0) in * end.
  assert (Hs1 : schedule (trace w1) = schedule (trace w)).
  { unfold w1, with_file, note; cbn [trace]. rewrite schedule_app. apply app_nil_r. }
  assert (Hc : warp_count (trace w1) = warp_count (trace w)).
  { unfold w1, with_file, note; cbn [trace]. rewrite warp_count_app. cbn. lia. }
  destruct (warp_loop_stops eng self vrt_path temp_rgb bounds resolution e Hb Hr Hvalid Hnt
              k (Z.to_nat max_retries) 0 w1) as (w' & Hrun & Hsched).
  - lia.
  - unfold max_retries. lia.
  - change (Z.to_nat max_retries) with 5%nat. lia.
  - intros i fs a Hi. rewrite Hc. apply Hglitch, Hi.
  - intros fs a. rewrite Hc. apply Hbad.
  - assert (Hacq : acquire eng self w = (Raise e, w')).
    { unfold acquire. rewrite (bind_return _ _ _ _ _ Hvrt). cbv zeta. fold temp_rgb.
      apply bind_raise. exact Hrun. }
    exists w'. split; [exact Hacq |]. split; [unfold run; apply bind_raise; exact Hacq |].
    rewrite Hsched, Hs1. reflexivity.
Qed.

Lemma acquire_stops_on_other_error_witness :
  let eng :=
    {| os_abspath := os_abspath Sample.engine; py_repr := py_repr Sample.engine;
       gdal_Warp := fun i fs a =>
         if (i <? 2)%nat then gdal_Warp (flaky_engine 2) i fs a
         else {| warp_progress := [0]%float;
                 warp_result := inl (RuntimeError "No space left on device");
                 warp_partial := None |};
       gdal_DEMProcessing := gdal_DEMProcessing Sample.engine;
       gdal_DEMProcessing_partial := gdal_DEMProcessing_partial Sample.engine;
       gdal_Polygonize := gdal_Polygonize Sample.engine |} in
  exists w',
    acquire eng (Sample.app "steep.gpkg" None) Sample.fresh
    = (Raise (RuntimeError "No space left on device"), w')
    /\ run eng (Sample.app "steep.gpkg" None) Sample.fresh
       = (Raise (RuntimeError "No space left on device"), w')
    /\ schedule (trace w') = schedule (trace Sample.fresh) ++ retries 2 ++ [Attempt].
Proof.
  cbv zeta.
  apply (acquire_stops_on_other_error _ (Sample.app "steep.gpkg" None) Sample.fresh
           (PyStr "https://example.org/terrarium/${z}/${x}/${y}.png")
           Sample.box (PyInt 30) 2 (RuntimeError "No space left on device")
           eq_refl eq_refl eq_refl).
  - lia.
  - vm_compute. reflexivity.
  - intros i fs a Hi. eexists.
    cbn [flaky_engine gdal_Warp Sample.fresh trace warp_count Nat.add].
    replace (i <? 2)%nat with true by (symmetry; apply Nat.ltb_lt; exact Hi).
    split; [reflexivity | vm_compute; reflexivity].
  - intros fs a. reflexivity.
  - intros i fs a. cbn [flaky_engine gdal_Warp]. destruct (i <? 2)%nat; cbn [warp_progress].
    + constructor; [exists 0; vm_compute; reflexivity |].
      constructor; [exists 25; vm_compute; reflexivity | constructor].
    + constructor; [exists 0; vm_compute; reflexivity | constructor].
Defined.

(** ** A whole run *)

Lemma read_band_at (ds : Raster) (i : nat) (a : ndarray) (w : World) :
  Bands ds !! (i - 1)%nat = Some a -> read_band ds i w = (Return (Np.astype_float a), w).
Proof. intros H. unfold read_band. rewrite H. reflexivity. Qed.

Lemma gdal_open_raster (path : string) (r : Raster) (w : World) :
  files w !! path = Some (RasterFile r) ->
  gdal_open path w = (Return r, note (Open path) w).
Proof.
  intros H. unfold gdal_open. rewrite bind_unfold, emit_note. cbv beta iota.
  rewrite bind_unfold. unfold get_world. cbv beta iota.
  change (files (note (Open path) w)) with (files w). rewrite H. reflexivity.
Qed.

(** X24: A run from the descriptor to the vector layer.  With [source],
    [bounds], [resolution], a mask that is a non-empty mapping with
    numeric thresholds, an output ending in .gpkg and no clipping, on an
    engine whose warp, terrain analysis and polygon extraction succeed:
    [run] returns after a single warp attempt and no sleep; the cache
    directory holds the warped raster, the elevations decoded from its
    three bands as a 32-bit raster with no nodata value and the
    georeferencing of the warped raster, and the analysed raster; and the
    output path holds the [mask] layer extracted from the binary mask of
    the analysed raster. *)
Theorem run_vector_pipeline (eng : Engine) (self : OpenDEM) (w : World)
    (source bounds resolution : pyval) (d : gmap string pyval) (name : string)
    (rgb : Raster) (b1 b2 b3 : ndarray) (r : Raster) (band : ndarray)
    (lo hi : option float) (fs : list Feature) :
  config self !! "source" = Some source ->
  config self !! "bounds" = Some bounds ->
  config self !! "resolution" = Some resolution ->
  Py.truthy (Py.get (config self) "clipping") = false ->
  config self !! "mask" = Some (PyDict d) -> d <> ∅ ->
  bound_of d "min" lo -> bound_of d "max" hi ->
  config self !! "output" = Some (PyStr name) ->
  Py.endswith (Py.lower name) ".gpkg" = true ->
  (forall k fs a,
      warp_result (gdal_Warp eng k fs a) = inr rgb
      /\ Forall valid_fraction (warp_progress (gdal_Warp eng k fs a))) ->
  Bands rgb = [b1; b2; b3] ->
  let elevation :=
    elevation_of (Np.astype_float b1) (Np.astype_float b2) (Np.astype_float b3) in
  concat elevation <> [] ->
  let base_dem := Py.path_join (cache_dir self) "base_elevation.tif" in
  (forall fs, gdal_DEMProcessing eng fs base_dem (Py.get (config self) "process") = inr r) ->
  Bands r !! 0%nat = Some band ->
  let mask :=
    ArrU8 (Np.map (fun v => if in_mask lo hi v then 1 else 0) (Np.astype_float band)) in
  poly_result (gdal_Polygonize eng (mem_raster mask r)) = inr fs ->
  Forall valid_fraction (poly_progress (gdal_Polygonize eng (mem_raster mask r))) ->
  exists w',
    run eng self w = (Return tt, w')
    /\ schedule (trace w') = schedule (trace w) ++ [Attempt]
    /\ files w' !! name = Some (VectorFile (mask_layer r fs))
    /\ files w' !! Py.path_join (cache_dir self) "temp_rgb.tif" = Some (RasterFile rgb)
    /\ files w' !! base_dem
       = Some (RasterFile {| RasterXSize := RasterXSize rgb;
                             RasterYSize := RasterYSize rgb;
                             Projection := Projection rgb;
                             GeoTransform := GeoTransform rgb;
                             DataType := GDT_Float32;
                             NoDataValue := None;
                             Bands := [ArrF64 elevation] |})
    /\ files w' !! Py.path_join (cache_dir self) "temp_proc.tif" = Some (RasterFile r)
    /\ last (trace w') = Some (Log (MsgProcessComplete (PyStr name))).
Proof.
  intros Hsrc Hb Hr Hclip Hmask Hne Hlo Hhi Hout Hext Hwarp Hbands elevation Hpix
    base_dem Hdem Hband mask Hres Hvalid.
  set (vrt_path := Py.path_join (cache_dir self) "source.vrt").
  set (temp_rgb := Py.path_join (cache_dir self) "temp_rgb.tif").
  set (temp_proc := Py.path_join (cache_dir self) "temp_proc.tif").
  (* the acquisition *)
  pose proof (generate_vrt_spec eng self w source Hsrc) as Hvrt. cbv zeta in Hvrt.
  fold vrt_path in Hvrt.
  match type of Hvrt with _ = (_, ?w0) => set (w1 := w0) in * end.
  assert (Hs1 : schedule (trace w1) = schedule (trace w)).
  { unfold w1, with_file, note; cbn [trace]. rewrite schedule_app. apply app_nil_r. }
  destruct (warp_loop_recovers eng self vrt_path temp_rgb bounds resolution rgb Hb Hr
              (fun i fs a => proj2 (Hwarp i fs a)) O (Z.to_nat max_retries) 0 w1)
    as (wA & Hloop & HsA & HfA).
  { lia. }
  { unfold max_retries. lia. }
  { change (Z.to_nat max_retries) with 5%nat. lia. }
  { intros i fs0 a Hi. lia. }
  { intros fs0 a. apply Hwarp. }
  cbn [retries app] in HsA. rewrite Hs1 in HsA.
  assert (Hacq : acquire eng self w = (Return temp_rgb, wA)).
  { unfold acquire. rewrite (bind_return _ _ _ _ _ Hvrt). cbv zeta. fold temp_rgb.
    rewrite (bind_return _ _ _ _ _ Hloop). reflexivity. }
  (* the decode *)
  unfold run. rewrite (bind_return _ _ _ _ _ Hacq).
  rewrite bind_unfold. unfold log at 1. rewrite emit_note. cbv beta iota.
  set (wB := note (Log MsgDecoding) wA).
  rewrite (bind_return _ _ _ _ _ (gdal_open_raster temp_rgb rgb wB HfA)).
  set (wC := note (Open temp_rgb) wB).
  rewrite (bind_return _ _ _ _ _
             (read_band_at rgb 1 b1 wC ltac:(rewrite Hbands; reflexivity))).
  rewrite (bind_return _ _ _ _ _
             (read_band_at rgb 2 b2 wC ltac:(rewrite Hbands; reflexivity))).
  rewrite (bind_return _ _ _ _ _
             (read_band_at rgb 3 b3 wC ltac:(rewrite Hbands; reflexivity))).
  lazy zeta. fold elevation base_dem.
  assert (Hmin : exists vmin, Np.reduce Np.fmin elevation = Return vmin).
  { unfold Np.reduce. destruct (concat elevation); [contradiction | eauto]. }
  assert (Hmax : exists vmax, Np.reduce Np.fmax elevation = Return vmax).
  { unfold Np.reduce. destruct (concat elevation); [contradiction | eauto]. }
  destruct Hmin as [vmin Hmin], Hmax as [vmax Hmax].
  rewrite bind_unfold. unfold lift at 1. rewrite Hmin. cbv beta iota.
  rewrite bind_unfold. unfold lift at 1. rewrite Hmax. cbv beta iota.
  rewrite bind_unfold. unfold log at 1. rewrite emit_note. cbv beta iota.
  set (wD := note (Log (MsgElevationStats vmin vmax)) wC).
  set (out_ds := {| RasterXSize := RasterXSize rgb; RasterYSize := RasterYSize rgb;
                    Projection := Projection rgb; GeoTransform := GeoTransform rgb;
                    DataType := GDT_Float32; NoDataValue := None;
                    Bands := [ArrF64 elevation] |}).
  assert (Hsave : call_save_raster (ArrF64 elevation) rgb base_dem [] wD
                  = (Return tt, with_file base_dem (RasterFile out_ds)
                                  (note (CreateRaster base_dem out_ds) wD))).
  { unfold call_save_raster. rewrite bind_unfold. reflexivity. }
  rewrite (bind_return _ _ _ _ _ Hsave).
  set (wS := with_file base_dem (RasterFile out_ds) _).
  assert (HsS : schedule (trace wS) = schedule (trace w) ++ [Attempt]).
  { unfold wS. cbn [with_file trace]. rewrite note_schedule_quiet by reflexivity.
    unfold wD, wC, wB. rewrite note_schedule_log.
    rewrite note_schedule_quiet by reflexivity. rewrite note_schedule_log. exact HsA. }
  (* the processing *)
  destruct (execute_process_masked_vector eng self base_dem wS d name r band lo hi fs
              Hclip Hmask Hne Hlo Hhi Hout Hext (Hdem (files wS)) Hband Hres Hvalid)
    as (w' & Hrun & Hfile & Hframe & _ & Hsched & Hlast).
  assert (Hn1 : temp_rgb <> name).
  { intros E. symmetry in E. revert E.
    apply gpkg_not_joined; [reflexivity | cbn; lia | reflexivity | exact Hext]. }
  assert (Hn2 : base_dem <> name).
  { intros E. symmetry in E. revert E.
    apply gpkg_not_joined; [reflexivity | cbn; lia | reflexivity | exact Hext]. }
  assert (Hn3 : temp_proc <> name).
  { intros E. symmetry in E. revert E.
    apply gpkg_not_joined; [reflexivity | cbn; lia | reflexivity | exact Hext]. }
  exists w'. split; [exact Hrun |]. split; [rewrite Hsched; exact HsS |].
  split; [exact Hfile |]. split; [| split; [| split; [| exact Hlast]]].
  - rewrite (Hframe _ Hn1). fold temp_proc. rewrite with_file_lookup.
    destruct (decide (temp_proc = temp_rgb)) as [E|_].
    { apply path_join_inj in E; [discriminate | reflexivity | reflexivity]. }
    unfold wS. rewrite with_file_lookup.
    destruct (decide (base_dem = temp_rgb)) as [E|_].
    { apply path_join_inj in E; [discriminate | reflexivity | reflexivity]. }
    exact HfA.
  - rewrite (Hframe _ Hn2). fold temp_proc. rewrite with_file_lookup.
    destruct (decide (temp_proc = base_dem)) as [E|_].
    { apply path_join_inj in E; [discriminate | reflexivity | reflexivity]. }
    unfold wS. rewrite with_file_lookup.
    destruct (decide (base_dem = base_dem)); [reflexivity | contradiction].
  - rewrite (Hframe _ Hn3). fold temp_proc. rewrite with_file_lookup.
    destruct (decide (temp_proc = temp_proc)); [reflexivity | contradiction].
Qed.

Lemma run_vector_pipeline_witness :
  let self := Sample.app "steep.gpkg" (Some (PyDict {[ "min" := PyInt 10 ]})) in
  let elevation :=
    elevation_of (Np.astype_float (ArrU8 [[128; 0; 255]]))
      (Np.astype_float (ArrU8 [[0; 0; 255]])) (Np.astype_float (ArrU8 [[0; 0; 255]])) in
  let base_dem := Py.path_join (cache_dir self) "base_elevation.tif" in
  exists w',
    run Sample.engine self Sample.fresh = (Return tt, w')
    /\ schedule (trace w') = schedule (trace Sample.fresh) ++ [Attempt]
    /\ files w' !! "steep.gpkg"
       = Some (VectorFile
                 (mask_layer Sample.slope
                    [ {| geometry := "POLYGON ((0 0,30 0,30 -30,0 -30,0 0))"; dn := 1 |} ]))
    /\ files w' !! Py.path_join (cache_dir self) "temp_rgb.tif"
       = Some (RasterFile Sample.rgb)
    /\ files w' !! base_dem
       = Some (RasterFile {| RasterXSize := RasterXSize Sample.rgb;
                             RasterYSize := RasterYSize Sample.rgb;
                             Projection := Projection Sample.rgb;
                             GeoTransform := GeoTransform Sample.rgb;
                             DataType := GDT_Float32;
                             NoDataValue := None;
                             Bands := [ArrF64 elevation] |})
    /\ files w' !! Py.path_join (cache_dir self) "temp_proc.tif"
       = Some (RasterFile Sample.slope)
    /\ last (trace w') = Some (Log (MsgProcessComplete (PyStr "steep.gpkg"))).
Proof.
  cbv zeta.
  apply (run_vector_pipeline Sample.engine
           (Sample.app "steep.gpkg" (Some (PyDict {[ "min" := PyInt 10 ]})))
           Sample.fresh (PyStr "https://example.org/terrarium/${z}/${x}/${y}.png")
           Sample.box (PyInt 30) {[ "min" := PyInt 10 ]} "steep.gpkg" Sample.rgb
           (ArrU8 [[128; 0; 255]]) (ArrU8 [[0; 0; 255]]) (ArrU8 [[0; 0; 255]])
           Sample.slope (ArrF64 [[5; -9999; 12]]%float) (Some 10%float) None).
  - reflexivity.
  - reflexivity.
  - reflexivity.
  - reflexivity.
  - vm_compute. reflexivity.
  - apply insert_non_empty.
  - exists 10%float. split; [vm_compute; reflexivity | reflexivity].
  - reflexivity.
  - vm_compute. reflexivity.
  - vm_compute. reflexivity.
  - intros k fs a. split; [reflexivity |].
    constructor; [exists 0; vm_compute; reflexivity |].
    constructor; [exists 50; vm_compute; reflexivity |].
    constructor; [exists 100; vm_compute; reflexivity | constructor].
  - reflexivity.
  - vm_compute. discriminate.
  - intros fs. reflexivity.
  - reflexivity.
  - reflexivity.
  - constructor; [exists 50; vm_compute; reflexivity |].
    constructor; [exists 100; vm_compute; reflexivity | constructor].
Defined.
